(** * UserForm composition and modal data collection of the Word MCP server

    A shallow embedding of the parts of [src/word/word-service.ts] and of the
    tool layer that build UserForms, inject the VBA helper code and collect the
    data of a form shown modally.  The Word/COM object graph is not part of the
    repository: it is a [Host], an oracle that says which COM call raises and
    what a modal session leaves in the controls.  Every service method is a
    computation in a state-and-exception monad over the [World] the COM calls
    act on; a raised error leaves the effects of the calls made before it. *)

From stdpp Require Import gmap strings list pretty.

Local Open Scope Z_scope.

(** ** JavaScript values and errors *)

(** What a COM property read hands to JavaScript. *)
Inductive JsValue :=
| JUndefined
| JNull
| JBool (b : bool)
| JNum (n : Z)
| JStr (s : string).

Global Instance JsValue_eq_dec : EqDecision JsValue.
Proof. solve_decision. Defined.

(** An [Error] object: its [name] and its [message]. *)
Record JsError := mkError { errName : string; errMessage : string }.

Global Instance JsError_eq_dec : EqDecision JsError.
Proof. solve_decision. Defined.

(** [new Error(msg)] *)
Definition newError (msg : string) : JsError := mkError "Error" msg.

(** [Error.prototype.toString], which a template literal applies to
    [${error}]. *)
Definition errToString (e : JsError) : string :=
  if decide (errName e = "") then errMessage e
  else if decide (errMessage e = "") then errName e
  else errName e +:+ ": " +:+ errMessage e.

(** JavaScript truthiness of an optional string ([if (caption)]). *)
Definition truthy (s : option string) : bool :=
  match s with
  | Some s => if decide (s = "") then false else true
  | None => false
  end.

(** [haystack.includes(needle)] *)
Fixpoint includes (needle haystack : string) : bool :=
  if String.prefix needle haystack then true
  else match haystack with
       | EmptyString => false
       | String _ rest => includes needle rest
       end.

(** JavaScript truthiness of a value ([a || b], [if (a)]). *)
Definition truthyValue (v : JsValue) : bool :=
  match v with
  | JUndefined | JNull => false
  | JBool b => b
  | JNum n => if decide (n = 0) then false else true
  | JStr s => if decide (s = "") then false else true
  end.

(** The names an object literal answers to besides its own keys: the members
    it inherits from [Object.prototype], functions all but [__proto__], which
    is an object; each is truthy. *)
Definition inheritedKeys : list string :=
  [ "constructor"; "__defineGetter__"; "__defineSetter__"; "hasOwnProperty";
    "__lookupGetter__"; "__lookupSetter__"; "isPrototypeOf"; "propertyIsEnumerable";
    "toString"; "valueOf"; "__proto__"; "toLocaleString" ].

(** The line feed, code 10, that the procedure templates write as
    backslash-n. *)
Definition lineFeed : string :=
  String (Ascii.Ascii false true false true false false false false) EmptyString.

(** ** JavaScript numbers

    A number is a double.  The sizes and positions of forms and controls are
    taken here as the integers among the doubles.  [roundToDouble x] is the
    double nearest to the integer [x], a tie going to the even significand:
    what a subtraction of two such numbers returns when [x] is its exact
    result.  Up to [2^53] in absolute value every integer is a double; above,
    the lowest bits are rounded away. *)
Definition roundToDouble (x : Z) : Z :=
  let a := Z.abs x in
  if Z.log2 a <? 53 then x
  else
    let s := Z.log2 a - 52 in
    let q := Z.shiftr a s in
    let r := Z.land a (Z.ones s) in
    let half := Z.shiftl 1 (s - 1) in
    let q' := if r <? half then q
              else if half <? r then q + 1
              else if Z.even q then q else q + 1 in
    Z.sgn x * Z.shiftl q' s.

(** [a - b] *)
Definition jsSub (a b : Z) : Z := roundToDouble (a - b).

Global Arguments roundToDouble : simpl never.
Global Arguments jsSub : simpl never.

(** ** The COM object graph *)

(** What [controlClassMap[controlType]] hands to [Controls.Add]: the class
    identifier of a known control type, [undefined] for a type name the map
    does not answer to, and for a name the map inherits from
    [Object.prototype] the member of that name. *)
Inductive ClassArg :=
| ClassId (progId : string)
| NoClassId
| InheritedMember (key : string).

Global Instance ClassArg_eq_dec : EqDecision ClassArg.
Proof. solve_decision. Defined.

(** A control of a UserForm designer: [ctlClassId] is what it was added
    with.  Another field is [None] until the service assigns it (the host
    default is then in force).  Positions and sizes are JavaScript numbers,
    taken here as integers. *)
Record Control := mkControl {
  ctlClassId : ClassArg;
  ctlName : option string;
  ctlCaption : option string;
  ctlLeft : option Z;
  ctlTop : option Z;
  ctlWidth : option Z;
  ctlHeight : option Z
}.

Record Designer := mkDesigner {
  dsgCaption : option string;
  dsgWidth : option Z;
  dsgHeight : option Z;
  dsgStartUpPosition : option Z;
  dsgControls : list Control
}.

(** A component of the VBA project; [vbcType] 1 is a standard module and 3 a
    UserForm. *)
Record VBComponent := mkComponent {
  vbcName : option string;
  vbcType : Z;
  vbcCode : string;
  vbcDesigner : Designer
}.

Global Instance Control_eq_dec : EqDecision Control.
Proof. solve_decision. Defined.
Global Instance Designer_eq_dec : EqDecision Designer.
Proof. solve_decision. Defined.
Global Instance VBComponent_eq_dec : EqDecision VBComponent.
Proof. solve_decision. Defined.

(** The calls the service makes on the COM bridge.  [comp] is the position of
    a component in the project and [ctl] that of a control in its designer:
    they stand for the object references the TypeScript code holds.  A call
    stands for its whole statement: [VBComponentsItem] for the reads of
    [doc.VBProject] and [VBComponents] and the call of [Item], and so on; a
    raise anywhere in the statement reaches the same [catch] in the same
    state. *)
Inductive ComCall :=
| ProbeWordApplication
| NewWordApplication
| SetVisible
| GetActiveDocument
| VBComponentsAdd (ty : Z)
| VBComponentsItem (name : string)
| SetComponentName (comp : nat) (name : string)
| GetDesigner (comp : nat)
| SetFormCaption (comp : nat) (caption : string)
| SetFormWidth (comp : nat) (w : Z)
| SetFormHeight (comp : nat) (h : Z)
| SetFormStartUpPosition (comp : nat) (p : Z)
| ControlsAdd (comp : nat) (classId : ClassArg)
| SetControlName (comp ctl : nat) (name : string)
| SetControlCaption (comp ctl : nat) (caption : string)
| SetControlLeft (comp ctl : nat) (v : Z)
| SetControlTop (comp ctl : nat) (v : Z)
| SetControlWidth (comp ctl : nat) (v : Z)
| SetControlHeight (comp ctl : nat) (v : Z)
| GetCodeModule (comp : nat)
| CodeLines (comp : nat)
| AddFromString (comp : nat) (code : string)
| ShowModal (comp : nat).

(** A property read on a control of a form that has been shown. *)
Inductive ComRead (A : Type) :=
| Raises (e : JsError)
| Reads (a : A).
Arguments Raises {A} e.
Arguments Reads {A} a.

(** A control as the collector sees it after the modal session.  [lcKind] is
    the control's type name; the TypeScript collector never reads it. *)
Record LiveControl := mkLive {
  lcKind : string;
  lcName : ComRead string;
  lcValue : ComRead JsValue;
  lcText : ComRead JsValue;
  lcCaption : ComRead JsValue
}.

(** How the user closed the dialog. *)
Inductive Closure := ConfirmClicked | CancelClicked | WindowChrome.

(** The host application: which call raises in which project state, whether
    [app.ActiveDocument] is an object, the error of [Item] on a missing name,
    and what a modal session of a form leaves behind. *)
Record Host := mkHost {
  fault : list VBComponent -> ComCall -> option JsError;
  activeDocument : bool;
  itemMissing : string -> JsError;
  sessionControls : list VBComponent -> nat -> list LiveControl;
  sessionClosure : Closure
}.

(** The state the service acts on: the cached [wordApp] field of the service
    object and the VBA project of the active document. *)
Record World := mkWorld {
  wordApp : bool;
  project : list VBComponent
}.

Global Instance World_eq_dec : EqDecision World.
Proof. solve_decision. Defined.

(** ** The monad of service methods *)

Inductive Outcome (A : Type) :=
| Returned (a : A)
| Thrown (e : JsError).
Arguments Returned {A} a.
Arguments Thrown {A} e.

Definition Svc (A : Type) : Type := World -> Outcome A * World.

Definition ret {A} (a : A) : Svc A := fun w => (Returned a, w).
Definition throw {A} (e : JsError) : Svc A := fun w => (Thrown e, w).

Definition bind {A B} (m : Svc A) (k : A -> Svc B) : Svc B :=
  fun w => match m w with
           | (Returned a, w') => k a w'
           | (Thrown e, w') => (Thrown e, w')
           end.

(** [try { m } catch (error) { handler error }]: the state reached when the
    error was thrown is kept. *)
Definition tryCatch {A} (m : Svc A) (handler : JsError -> Svc A) : Svc A :=
  fun w => match m w with
           | (Returned a, w') => (Returned a, w')
           | (Thrown e, w') => handler e w'
           end.

Notation "'let!' x ':=' m 'in' k" := (bind m (fun x => k))
  (at level 10, x name, m at level 100, k at level 200).
Notation "m ;; k" := (bind m (fun _ => k))
  (at level 100, k at level 200, right associativity).

(** One call through the bridge: it raises when the host says so. *)
Definition com (h : Host) (c : ComCall) : Svc unit :=
  fun w => match fault h (project w) c with
           | Some e => (Thrown e, w)
           | None => (Returned tt, w)
           end.

Definition modifyProject (f : list VBComponent -> list VBComponent) : Svc unit :=
  fun w => (Returned tt, mkWorld (wordApp w) (f (project w))).

Definition setWordApp (b : bool) : Svc unit :=
  fun w => (Returned tt, mkWorld b (project w)).

Definition getProject : Svc (list VBComponent) :=
  fun w => (Returned (project w), w).

(** ** Updates of the object graph *)

Definition newComponent (ty : Z) : VBComponent :=
  mkComponent None ty "" (mkDesigner None None None None []).

Definition newControl (classId : ClassArg) : Control :=
  mkControl classId None None None None None None.

Definition withComponentName (n : string) (c : VBComponent) : VBComponent :=
  mkComponent (Some n) (vbcType c) (vbcCode c) (vbcDesigner c).

Definition withCode (code : string) (c : VBComponent) : VBComponent :=
  mkComponent (vbcName c) (vbcType c) code (vbcDesigner c).

Definition onDesigner (f : Designer -> Designer) (c : VBComponent) : VBComponent :=
  mkComponent (vbcName c) (vbcType c) (vbcCode c) (f (vbcDesigner c)).

Definition withFormCaption (s : string) (d : Designer) : Designer :=
  mkDesigner (Some s) (dsgWidth d) (dsgHeight d) (dsgStartUpPosition d) (dsgControls d).
Definition withFormWidth (v : Z) (d : Designer) : Designer :=
  mkDesigner (dsgCaption d) (Some v) (dsgHeight d) (dsgStartUpPosition d) (dsgControls d).
Definition withFormHeight (v : Z) (d : Designer) : Designer :=
  mkDesigner (dsgCaption d) (dsgWidth d) (Some v) (dsgStartUpPosition d) (dsgControls d).
Definition withStartUpPosition (v : Z) (d : Designer) : Designer :=
  mkDesigner (dsgCaption d) (dsgWidth d) (dsgHeight d) (Some v) (dsgControls d).
Definition onControls (f : list Control -> list Control) (d : Designer) : Designer :=
  mkDesigner (dsgCaption d) (dsgWidth d) (dsgHeight d) (dsgStartUpPosition d)
             (f (dsgControls d)).

Definition withControlName (n : string) (c : Control) : Control :=
  mkControl (ctlClassId c) (Some n) (ctlCaption c) (ctlLeft c) (ctlTop c) (ctlWidth c) (ctlHeight c).
Definition withControlCaption (s : string) (c : Control) : Control :=
  mkControl (ctlClassId c) (ctlName c) (Some s) (ctlLeft c) (ctlTop c) (ctlWidth c) (ctlHeight c).
Definition withControlLeft (v : Z) (c : Control) : Control :=
  mkControl (ctlClassId c) (ctlName c) (ctlCaption c) (Some v) (ctlTop c) (ctlWidth c) (ctlHeight c).
Definition withControlTop (v : Z) (c : Control) : Control :=
  mkControl (ctlClassId c) (ctlName c) (ctlCaption c) (ctlLeft c) (Some v) (ctlWidth c) (ctlHeight c).
Definition withControlWidth (v : Z) (c : Control) : Control :=
  mkControl (ctlClassId c) (ctlName c) (ctlCaption c) (ctlLeft c) (ctlTop c) (Some v) (ctlHeight c).
Definition withControlHeight (v : Z) (c : Control) : Control :=
  mkControl (ctlClassId c) (ctlName c) (ctlCaption c) (ctlLeft c) (ctlTop c) (ctlWidth c) (Some v).

(** [VBComponents.Item(name)] answers with the first component of that name
    (names are compared as they are written). *)
Fixpoint findComponent (name : string) (p : list VBComponent) : option nat :=
  match p with
  | [] => None
  | c :: rest =>
      if decide (vbcName c = Some name) then Some 0%nat
      else S <$> findComponent name rest
  end.

Definition controlsAt (i : nat) (p : list VBComponent) : list Control :=
  match p !! i with
  | Some c => dsgControls (vbcDesigner c)
  | None => []
  end.

Definition codeAt (i : nat) (p : list VBComponent) : string :=
  match p !! i with
  | Some c => vbcCode c
  | None => ""
  end.

Definition typeAt (i : nat) (p : list VBComponent) : Z :=
  match p !! i with
  | Some c => vbcType c
  | None => 0
  end.

(** ** The generated VBA source text *)

(** The double quote character, code 34. *)
Definition dq : string :=
  String (Ascii.Ascii false true false false false true false false) EmptyString.

(** The template literal [vbaCode] of [createShowUserFormModalFunction], cut
    at each double quote of the text the template evaluates to (the escape
    sequence backslash-quote of the template is a plain double quote there). *)
Definition vbaCode : string :=
  String.concat dq
    [ "
' ShowUserFormModal - Displays a UserForm modally and returns collected data
' Parameter: formName - Name of the UserForm to display
' Returns: JSON-like string with form data, or empty string if cancelled
Function ShowUserFormModal(formName As String) As String
    On Error GoTo ErrorHandler
    
    Dim formComponent As Object
    Dim userForm As Object
    Dim result As String
    Dim cancelled As Boolean
    
    ' Initialize result
    result = ";
      "";
      "
    cancelled = False
    
    ' Get the UserForm by name
    Set formComponent = ThisDocument.VBProject.VBComponents(formName)
    
    If formComponent.Type <> 3 Then ' vbext_ct_MSForm
        MsgBox ";
      "Error: '";
      " & formName & ";
      "' is not a UserForm";
      ", vbCritical
        ShowUserFormModal = ";
      "";
      "
        Exit Function
    End If
    
    Set userForm = formComponent.Designer
    
    ' Add event handlers for OK/Cancel buttons if they exist
    ' This is handled by individual form design
    
    ' Show the form modally
    userForm.Show vbModal
    
    ' Check if form was cancelled (assuming a global variable or form property)
    ' For now, we'll assume if the form is hidden, data was submitted
    
    ' Collect data from all controls
    result = CollectFormData(userForm)
    
    ShowUserFormModal = result
    Exit Function
    
ErrorHandler:
    MsgBox ";
      "Error displaying UserForm '";
      " & formName & ";
      "': ";
      " & Err.Description, vbCritical
    ShowUserFormModal = ";
      "";
      "
End Function

' Helper function to collect data from UserForm controls
Private Function CollectFormData(userForm As Object) As String
    On Error GoTo ErrorHandler
    
    Dim i As Integer
    Dim control As Object
    Dim result As String
    Dim controlData As String
    
    result = ";
      "{";
      "
    
    ' Iterate through all controls
    For i = 0 To userForm.Controls.Count - 1
        Set control = userForm.Controls(i)
        controlData = ";
      "";
      "
        
        ' Extract data based on control type
        Select Case TypeName(control)
            Case ";
      "TextBox";
      "
                controlData = ";
      "";
      "";
      " & control.Name & ";
      "";
      ":";
      "";
      " & control.Text & ";
      "";
      "";
      "
            Case ";
      "ComboBox";
      "
                controlData = ";
      "";
      "";
      " & control.Name & ";
      "";
      ":";
      "";
      " & control.Text & ";
      "";
      "";
      "
            Case ";
      "CheckBox";
      "
                controlData = ";
      "";
      "";
      " & control.Name & ";
      "";
      ":";
      " & IIf(control.Value, ";
      "true";
      ", ";
      "false";
      ")
            Case ";
      "OptionButton";
      "
                controlData = ";
      "";
      "";
      " & control.Name & ";
      "";
      ":";
      " & IIf(control.Value, ";
      "true";
      ", ";
      "false";
      ")
            Case ";
      "ListBox";
      "
                If control.ListIndex >= 0 Then
                    controlData = ";
      "";
      "";
      " & control.Name & ";
      "";
      ":";
      "";
      " & control.List(control.ListIndex) & ";
      "";
      "";
      "
                Else
                    controlData = ";
      "";
      "";
      " & control.Name & ";
      "";
      ":";
      "";
      "";
      "
                End If
            Case ";
      "Label";
      "
                ' Skip labels as they don't contain user input
            Case ";
      "CommandButton";
      "
                ' Skip buttons as they don't contain user input
            Case Else
                ' Try to get Value or Text property
                On Error Resume Next
                If Not IsEmpty(control.Value) Then
                    controlData = ";
      "";
      "";
      " & control.Name & ";
      "";
      ":";
      "";
      " & control.Value & ";
      "";
      "";
      "
                ElseIf control.Text <> ";
      "";
      " Then
                    controlData = ";
      "";
      "";
      " & control.Name & ";
      "";
      ":";
      "";
      " & control.Text & ";
      "";
      "";
      "
                End If
                On Error GoTo ErrorHandler
        End Select
        
        ' Add to result if we have data
        If controlData <> ";
      "";
      " Then
            If Len(result) > 1 Then result = result & ";
      ",";
      "
            result = result & controlData
        End If
    Next i
    
    result = result & ";
      "}";
      "
    CollectFormData = result
    Exit Function
    
ErrorHandler:
    CollectFormData = ";
      "{}";
      "
End Function

' Helper function to create standard OK/Cancel buttons on a UserForm
Sub AddOKCancelButtons(userForm As Object)
    On Error GoTo ErrorHandler
    
    Dim btnOK As Object
    Dim btnCancel As Object
    
    ' Add OK button
    Set btnOK = userForm.Controls.Add(";
      "Forms.CommandButton.1";
      ")
    With btnOK
        .Name = ";
      "btnOK";
      "
        .Caption = ";
      "OK";
      "
        .Left = userForm.Width - 160
        .Top = userForm.Height - 60
        .Width = 70
        .Height = 25
    End With
    
    ' Add Cancel button
    Set btnCancel = userForm.Controls.Add(";
      "Forms.CommandButton.1";
      ")
    With btnCancel
        .Name = ";
      "btnCancel";
      "
        .Caption = ";
      "Cancel";
      "
        .Left = userForm.Width - 80
        .Top = userForm.Height - 60
        .Width = 70
        .Height = 25
    End With
    
    Exit Sub
    
ErrorHandler:
    ' Ignore errors in button creation
End Sub
" ].

(** The template literal [buttonCode] of [addStandardFormEventHandlers]. *)
Definition buttonCode : string :=
  "
Private cancelled As Boolean
Private formData As String

' Standard OK button handler
Private Sub btnOK_Click()
    cancelled = False
    Me.Hide
End Sub

' Standard Cancel button handler
Private Sub btnCancel_Click()
    cancelled = True
    Me.Hide
End Sub

' Handle form close (X button)
Private Sub UserForm_QueryClose(Cancel As Integer, CloseMode As Integer)
    If CloseMode = 0 Then ' User clicked X button
        cancelled = True
    End If
End Sub

' Helper function to check if form was cancelled
Public Function WasCancelled() As Boolean
    WasCancelled = cancelled
End Function
".

(** ** The service *)

Section Service.

Variable h : Host.

Definition onComponent (i : nat) (f : VBComponent -> VBComponent) : Svc unit :=
  modifyProject (alter f i).

Definition onControl (i k : nat) (f : Control -> Control) : Svc unit :=
  onComponent i (onDesigner (onControls (alter f k))).

(** [vbProject.VBComponents.Add(ty)]: the reference to the new component. *)
Definition VBComponents_Add (ty : Z) : Svc nat :=
  com h (VBComponentsAdd ty) ;;
  let! p := getProject in
  modifyProject (fun p => p ++ [newComponent ty]) ;;
  ret (length p).

(** [vbProject.VBComponents.Item(name)] *)
Definition VBComponents_Item (name : string) : Svc nat :=
  com h (VBComponentsItem name) ;;
  let! p := getProject in
  match findComponent name p with
  | Some i => ret i
  | None => throw (itemMissing h name)
  end.

(** [designer.Controls.Add(classId)]: the reference to the new control. *)
Definition Controls_Add (i : nat) (classId : ClassArg) : Svc nat :=
  com h (ControlsAdd i classId) ;;
  let! p := getProject in
  onComponent i (onDesigner (onControls (fun l => l ++ [newControl classId]))) ;;
  ret (length (controlsAt i p)).

Definition getWordApplication : Svc unit :=
  fun w =>
    let w1 :=
      if wordApp w then
        match fault h (project w) ProbeWordApplication with
        | None => w
        | Some _ => mkWorld false (project w)
        end
      else w in
    if wordApp w1 then (Returned tt, w1)
    else
      tryCatch
        (com h NewWordApplication ;;
         setWordApp true ;;
         com h SetVisible)
        (fun error =>
           throw (newError ("Failed to initialize Word.Application. Make sure Microsoft Word is installed. Error: "
                            +:+ errToString error)))
        w1.

Definition getActiveDocument : Svc unit :=
  getWordApplication ;;
  tryCatch
    (com h GetActiveDocument ;;
     if activeDocument h then ret tt
     else throw (newError "No active document found in Word."))
    (fun error =>
       throw (newError ("Failed to get active document. Error: " +:+ errToString error))).

Definition createUserForm (formName : string) (caption : option string)
    (width height : Z) : Svc unit :=
  getActiveDocument ;;
  tryCatch
    (let! vbComponent := VBComponents_Add 3 in
     com h (SetComponentName vbComponent formName) ;;
     onComponent vbComponent (withComponentName formName) ;;
     com h (GetDesigner vbComponent) ;;
     (if truthy caption then
        tryCatch
          (com h (SetFormCaption vbComponent (default "" caption)) ;;
           onComponent vbComponent (onDesigner (withFormCaption (default "" caption))))
          (fun captionError => ret tt)
      else ret tt) ;;
     tryCatch
       (let minWidth := Z.max width 300 in
        let minHeight := Z.max height 200 in
        com h (SetFormWidth vbComponent minWidth) ;;
        onComponent vbComponent (onDesigner (withFormWidth minWidth)) ;;
        com h (SetFormHeight vbComponent minHeight) ;;
        onComponent vbComponent (onDesigner (withFormHeight minHeight)) ;;
        com h (SetFormStartUpPosition vbComponent 1) ;;
        onComponent vbComponent (onDesigner (withStartUpPosition 1)))
       (fun sizeError => ret tt))
    (fun error =>
       throw (newError ("Failed to create UserForm '" +:+ formName +:+ "'. Error: "
                        +:+ errToString error))).

Definition controlClassMap : gmap string string :=
  list_to_map
    [ ("commandButton", "Forms.CommandButton.1");
      ("textBox", "Forms.TextBox.1");
      ("label", "Forms.Label.1");
      ("checkBox", "Forms.CheckBox.1");
      ("optionButton", "Forms.OptionButton.1");
      ("comboBox", "Forms.ComboBox.1");
      ("listBox", "Forms.ListBox.1");
      ("toggleButton", "Forms.ToggleButton.1");
      ("spinButton", "Forms.SpinButton.1");
      ("scrollBar", "Forms.ScrollBar.1");
      ("image", "Forms.Image.1");
      ("frame", "Forms.Frame.1") ].

(** [controlClassMap[controlType]]: the map is an object literal, so that it
    answers to its own keys and to the members it inherits. *)
Definition classIdOf (controlType : string) : ClassArg :=
  match controlClassMap !! controlType with
  | Some progId => ClassId progId
  | None =>
      if decide (controlType ∈ inheritedKeys) then InheritedMember controlType
      else NoClassId
  end.

Definition addControlToUserForm (formName controlType controlName : string)
    (caption : option string) (left top width height : Z) : Svc unit :=
  getActiveDocument ;;
  tryCatch
    (let! formComponent := VBComponents_Item formName in
     let! p := getProject in
     if decide (typeAt formComponent p = 3) then
       let classId := classIdOf controlType in
       com h (GetDesigner formComponent) ;;
       let! control := Controls_Add formComponent classId in
       com h (SetControlName formComponent control controlName) ;;
       onControl formComponent control (withControlName controlName) ;;
       (if truthy caption then
          com h (SetControlCaption formComponent control (default "" caption)) ;;
          onControl formComponent control (withControlCaption (default "" caption))
        else ret tt) ;;
       com h (SetControlLeft formComponent control left) ;;
       onControl formComponent control (withControlLeft left) ;;
       com h (SetControlTop formComponent control top) ;;
       onControl formComponent control (withControlTop top) ;;
       com h (SetControlWidth formComponent control width) ;;
       onControl formComponent control (withControlWidth width) ;;
       com h (SetControlHeight formComponent control height) ;;
       onControl formComponent control (withControlHeight height)
     else throw (newError ("'" +:+ formName +:+ "' is not a UserForm")))
    (fun error =>
       throw (newError ("Failed to add control to UserForm '" +:+ formName +:+ "'. Error: "
                        +:+ errToString error))).

(** [codeModule.AddFromString(code)]; the text is added after what the module
    holds. *)
Definition CodeModule_AddFromString (i : nat) (code : string) : Svc unit :=
  com h (AddFromString i code) ;;
  let! p := getProject in
  onComponent i (withCode (codeAt i p +:+ code)).

(** [codeModule.Lines(1, codeModule.CountOfLines)] *)
Definition CodeModule_Lines (i : nat) : Svc string :=
  com h (CodeLines i) ;;
  let! p := getProject in
  ret (codeAt i p).

Definition createShowUserFormModalFunction : Svc unit :=
  getActiveDocument ;;
  tryCatch
    (let! helperModule :=
       tryCatch
         (VBComponents_Item "UserFormHelper")
         (fun _ =>
            let! newComponent := VBComponents_Add 1 in
            com h (SetComponentName newComponent "UserFormHelper") ;;
            onComponent newComponent (withComponentName "UserFormHelper") ;;
            ret newComponent) in
     com h (GetCodeModule helperModule) ;;
     let! existingCode := CodeModule_Lines helperModule in
     if includes "Function ShowUserFormModal" existingCode then ret tt
     else CodeModule_AddFromString helperModule vbaCode)
    (fun error =>
       throw (newError ("Failed to create ShowUserFormModal function. Error: "
                        +:+ errToString error))).

Definition addStandardFormEventHandlers (formName : string) : Svc unit :=
  getActiveDocument ;;
  tryCatch
    (let! formComponent := VBComponents_Item formName in
     let! p := getProject in
     if decide (typeAt formComponent p = 3) then
       com h (GetCodeModule formComponent) ;;
       let! existingCode := CodeModule_Lines formComponent in
       if includes "btnOK_Click" existingCode then ret tt
       else CodeModule_AddFromString formComponent buttonCode
     else throw (newError ("'" +:+ formName +:+ "' is not a UserForm")))
    (fun error =>
       throw (newError ("Failed to add event handlers to form '" +:+ formName +:+ "'. Error: "
                        +:+ errToString error))).

(** One entry of the [controls] argument of [createFormWithControls]. *)
Record ControlSpec := mkSpec {
  type : string;
  name : string;
  caption : option string;
  left : Z;
  top : Z;
  width : Z;
  height : Z
}.

(** [ctrl.caption || ""] *)
Definition captionOrEmpty (c : option string) : option string :=
  if truthy c then c else Some "".

(** The [for (const ctrl of controls)] loop of [createFormWithControls]. *)
Fixpoint addControls (formName : string) (controls : list ControlSpec) : Svc unit :=
  match controls with
  | [] => ret tt
  | ctrl :: rest =>
      addControlToUserForm formName (type ctrl) (name ctrl)
        (captionOrEmpty (caption ctrl))
        (left ctrl) (top ctrl) (width ctrl) (height ctrl) ;;
      addControls formName rest
  end.

Definition createFormWithControls (formName caption : string) (width height : Z)
    (controls : list ControlSpec) (addStandardButtons : bool) : Svc unit :=
  getActiveDocument ;;
  tryCatch
    (createUserForm formName (Some caption) width height ;;
     addControls formName controls ;;
     if addStandardButtons then
       let buttonTop := jsSub height 60 in
       let buttonRight := jsSub width 20 in
       addControlToUserForm formName "commandButton" "btnOK" (Some "OK")
         (jsSub buttonRight 160) buttonTop 70 30 ;;
       addControlToUserForm formName "commandButton" "btnCancel" (Some "Cancel")
         (jsSub buttonRight 80) buttonTop 70 30 ;;
       addStandardFormEventHandlers formName
     else ret tt)
    (fun error =>
       throw (newError ("Failed to create form '" +:+ formName +:+ "'. Error: "
                        +:+ errToString error))).

(** The body of the extraction loop of [showUserForm] for one control: the
    key and value it stores, [Reads None] when [Value], [Text] and [Caption]
    are all undefined, [Raises] when one of its property reads raises.  The
    code reads a property once for the test and once more for the value; the
    two reads are taken to agree. *)
Definition extractControl (control : LiveControl) : ComRead (option (string * JsValue)) :=
  match lcName control with
  | Raises e => Raises e
  | Reads controlName =>
      match lcValue control with
      | Raises e => Raises e
      | Reads v =>
          if decide (v = JUndefined) then
            match lcText control with
            | Raises e => Raises e
            | Reads t =>
                if decide (t = JUndefined) then
                  match lcCaption control with
                  | Raises e => Raises e
                  | Reads c =>
                      if decide (c = JUndefined) then Reads None
                      else Reads (Some (controlName, c))
                  end
                else Reads (Some (controlName, t))
            end
          else Reads (Some (controlName, v))
      end
  end.

(** [formData[controlName] = v] on the object [formData], whose own
    properties are the map; [plain] says that its prototype is still
    [Object.prototype], as the literal made it.  For every name but
    [__proto__] the assignment makes or overwrites an own property.
    [__proto__] is an accessor the object inherits: assigning to it makes no
    own property, a primitive value is ignored and [null] takes the prototype
    away; from then on the name is a key like any other. *)
Definition assign (controlName : string) (v : JsValue)
    (formData : gmap string JsValue) (plain : bool) : gmap string JsValue * bool :=
  if decide (controlName = "__proto__") then
    if plain then (formData, if decide (v = JNull) then false else true)
    else (<[controlName := v]> formData, false)
  else (<[controlName := v]> formData, plain).

(** The [for] loop inside its own [try]/[catch]: a raise ends the loop and the
    [catch] keeps what [formData] holds by then. *)
Fixpoint collectInto (controls : list LiveControl)
    (formData : gmap string JsValue) (plain : bool) : gmap string JsValue :=
  match controls with
  | [] => formData
  | control :: rest =>
      match extractControl control with
      | Raises collectError => formData
      | Reads None => collectInto rest formData plain
      | Reads (Some (controlName, v)) =>
          let '(formData', plain') := assign controlName v formData plain in
          collectInto rest formData' plain'
      end
  end.

(** The loop on [formData] as [const formData = {}] made it, with the own
    properties given. *)
Definition collectFormData (controls : list LiveControl)
    (formData : gmap string JsValue) : gmap string JsValue :=
  collectInto controls formData true.

Definition showUserForm (formName : string) : Svc (gmap string JsValue) :=
  getActiveDocument ;;
  tryCatch
    (let! formComponent := VBComponents_Item formName in
     let! p := getProject in
     if decide (typeAt formComponent p = 3) then
       com h (GetDesigner formComponent) ;;
       com h (ShowModal formComponent) ;;
       ret (collectFormData (sessionControls h p formComponent) ∅)
     else throw (newError ("'" +:+ formName +:+ "' is not a UserForm")))
    (fun error =>
       throw (newError ("Failed to show UserForm '" +:+ formName +:+ "'. Error: "
                        +:+ errToString error))).

End Service.

(** ** The data collection of the generated helper

    [CollectFormData] of [vbaCode] goes through the controls of the form as
    the loop of [showUserForm] does, and chooses by [TypeName(control)] what
    the entry of a control is made of. *)
Inductive HelperEntry :=
| FromText
| FromValue
| FromList
| Skipped
| FromValueOrText.

(** The [Select Case TypeName(control)]: a text box and a combo box are
    entered with their [Text], a check box and an option button with true or
    false by their [Value], a list box with its selected item; a label and a
    command button get no entry; a control of another type is entered with
    its [Value] or its [Text]. *)
Definition helperEntry (typeName : string) : HelperEntry :=
  if decide (typeName = "TextBox") then FromText
  else if decide (typeName = "ComboBox") then FromText
  else if decide (typeName = "CheckBox") then FromValue
  else if decide (typeName = "OptionButton") then FromValue
  else if decide (typeName = "ListBox") then FromList
  else if decide (typeName = "Label") then Skipped
  else if decide (typeName = "CommandButton") then Skipped
  else FromValueOrText.

(** ** The code module the standard handlers give a form

    [buttonCode] declares a private flag [cancelled] (False when the form is
    loaded) and the handlers below; [Me.Hide] ends the modal display. *)
Module FormCode.

Record State := mkState { cancelled : bool; hidden : bool }.

Definition loaded : State := mkState false false.

Definition btnOK_Click (s : State) : State := mkState false true.

Definition btnCancel_Click (s : State) : State := mkState true true.

Definition UserForm_QueryClose (Cancel CloseMode : Z) (s : State) : State :=
  if decide (CloseMode = 0) then mkState true (hidden s) else s.

Definition WasCancelled (s : State) : bool := cancelled s.

(** What each way of closing the dialog runs. *)
Definition close (c : Closure) (s : State) : State :=
  match c with
  | ConfirmClicked => btnOK_Click s
  | CancelClicked => btnCancel_Click s
  | WindowChrome => UserForm_QueryClose 0 0 s
  end.

End FormCode.

(** ** Hosts, expected results and the data of the examples *)

(** A host that refuses no call and has an active document. *)
Definition accepting (h : Host) : Prop :=
  (forall p c, fault h p c = None) /\ activeDocument h = true.

(** The host of the examples: it accepts every call, and a modal session
    leaves the given controls behind. *)
Definition lenientHost (controls : list LiveControl) (closure : Closure) : Host :=
  mkHost (fun _ _ => None) true
         (fun n => newError ("Item '" +:+ n +:+ "' not found"))
         (fun _ _ => controls) closure.

(** A host as strict as the VBA editor about names: renaming a component to a
    name another component bears raises, as does naming a control like a
    sibling. *)
Definition strictHost (controls : list LiveControl) (closure : Closure) : Host :=
  mkHost
    (fun p c =>
       match c with
       | SetComponentName _ n =>
           if decide (Some n ∈ vbcName <$> p)
           then Some (newError "Name conflicts with existing module, project, or object library")
           else None
       | SetControlName i _ n =>
           if decide (Some n ∈ ctlName <$> controlsAt i p)
           then Some (newError "Could not set the Name property. Ambiguous name.")
           else None
       | _ => None
       end)
    true
    (fun n => newError ("Item '" +:+ n +:+ "' not found"))
    (fun _ _ => controls) closure.

(** The form [createUserForm] leaves in the project when no call is refused. *)
Definition builtForm (formName : string) (caption : option string)
    (width height : Z) : VBComponent :=
  mkComponent (Some formName) 3 ""
    (mkDesigner (if truthy caption then caption else None)
                (Some (Z.max width 300)) (Some (Z.max height 200)) (Some 1) []).

(** The control [addControlToUserForm] leaves on the form when no call is
    refused: the caption is assigned only when it is a non-empty string. *)
Definition builtControl (controlType controlName : string) (caption : option string)
    (left top width height : Z) : Control :=
  mkControl (classIdOf controlType) (Some controlName)
            (if truthy caption then caption else None)
            (Some left) (Some top) (Some width) (Some height).

(** A form with one control more, and with several more, after those it has. *)
Definition attach (c : Control) (form : VBComponent) : VBComponent :=
  onDesigner (onControls (fun l => l ++ [c])) form.

Definition attachAll (cs : list Control) (form : VBComponent) : VBComponent :=
  onDesigner (onControls (fun l => l ++ cs)) form.

(** The control a descriptor of the [controls] argument stands for. *)
Definition controlOf (ctrl : ControlSpec) : Control :=
  mkControl (classIdOf (type ctrl)) (Some (name ctrl))
            (if truthy (caption ctrl) then caption ctrl else None)
            (Some (left ctrl)) (Some (top ctrl)) (Some (width ctrl)) (Some (height ctrl)).

(** The two calls of [addControlToUserForm] that [createFormWithControls]
    makes for the standard buttons of a form asked for with the given width
    and height, as descriptors: [buttonTop] is [height - 60], [buttonRight]
    is [width - 20], and the buttons are 70 by 30. *)
Definition standardSpecs (width height : Z) : list ControlSpec :=
  [ mkSpec "commandButton" "btnOK" (Some "OK")
           (jsSub (jsSub width 20) 160) (jsSub height 60) 70 30;
    mkSpec "commandButton" "btnCancel" (Some "Cancel")
           (jsSub (jsSub width 20) 80) (jsSub height 60) 70 30 ].

(** The two buttons those calls leave on the form when no call is refused. *)
Definition standardButtons (width height : Z) : list Control :=
  [ mkControl (ClassId "Forms.CommandButton.1") (Some "btnOK") (Some "OK")
              (Some (jsSub (jsSub width 20) 160)) (Some (jsSub height 60))
              (Some 70) (Some 30);
    mkControl (ClassId "Forms.CommandButton.1") (Some "btnCancel") (Some "Cancel")
              (Some (jsSub (jsSub width 20) 80)) (Some (jsSub height 60))
              (Some 70) (Some 30) ].

(** The form [createFormWithControls] leaves in the project when no call is
    refused. *)
Definition expectedForm (formName caption : string) (width height : Z)
    (controls : list ControlSpec) (addStandardButtons : bool) : VBComponent :=
  mkComponent (Some formName) 3
    (if addStandardButtons then buttonCode else "")
    (mkDesigner (if truthy (Some caption) then Some caption else None)
                (Some (Z.max width 300)) (Some (Z.max height 200)) (Some 1)
                (map controlOf controls
                 ++ (if addStandardButtons then standardButtons width height else []))).

(** What a later state keeps of a component: its name, its type, and the
    controls it had, in place at the head of the designer's list. *)
Definition keeps (c c' : VBComponent) : Prop :=
  vbcName c = vbcName c' /\ vbcType c = vbcType c' /\
  dsgControls (vbcDesigner c) `prefix_of` dsgControls (vbcDesigner c').

(** A later project retains an earlier one: the same components, position by
    position, each kept. *)
Definition retains (p p' : list VBComponent) : Prop := Forall2 keeps p p'.

(** Two descriptors named txtEmail. *)
Definition twoEmails : list ControlSpec :=
  [ mkSpec "textBox" "txtEmail" None 20 20 200 22;
    mkSpec "textBox" "txtEmail" None 20 50 200 22 ].

(** The same host with another way of closing the dialog. *)
Definition withClosure (c : Closure) (h : Host) : Host :=
  mkHost (fault h) (activeDocument h) (itemMissing h) (sessionControls h) c.

(** Controls as a session may leave them: a text box holds its text in
    [Value] and [Text], a check box and a button a boolean in [Value] and a
    caption, a label a caption only. *)
Definition liveTextBox (n text : string) : LiveControl :=
  mkLive "TextBox" (Reads n) (Reads (JStr text)) (Reads (JStr text)) (Reads JUndefined).

Definition liveCheckBox (n cap : string) (checked : bool) : LiveControl :=
  mkLive "CheckBox" (Reads n) (Reads (JBool checked)) (Reads JUndefined) (Reads (JStr cap)).

Definition liveButton (n cap : string) : LiveControl :=
  mkLive "CommandButton" (Reads n) (Reads (JBool false)) (Reads JUndefined) (Reads (JStr cap)).

Definition liveLabel (n cap : string) : LiveControl :=
  mkLive "Label" (Reads n) (Reads JUndefined) (Reads JUndefined) (Reads (JStr cap)).

(** A control whose [Value] cannot be read. *)
Definition liveBroken (n : string) : LiveControl :=
  mkLive "TextBox" (Reads n) (Raises (newError "Member not found.")) (Reads JUndefined)
         (Reads JUndefined).

(** The project after a form with a text box txtName, a check box chkAgree
    and the standard buttons has been built. *)
Definition signupWorld : World :=
  mkWorld true
    [expectedForm "SignupForm" "Sign up" 400 300
       [mkSpec "textBox" "txtName" None 20 20 200 22;
        mkSpec "checkBox" "chkAgree" (Some "I agree") 20 50 200 22] true].

(** The project [createShowUserFormModalFunction] leaves when no call is
    refused. *)
Definition withHelper (p : list VBComponent) : list VBComponent :=
  match findComponent "UserFormHelper" p with
  | Some i =>
      if includes "Function ShowUserFormModal" (codeAt i p) then p
      else alter (withCode (codeAt i p +:+ vbaCode)) i p
  | None => p ++ [withCode vbaCode (withComponentName "UserFormHelper" (newComponent 1))]
  end.

(** The project [addStandardFormEventHandlers] leaves when no call is refused
    and the form exists. *)
Definition withHandlers (i : nat) (p : list VBComponent) : list VBComponent :=
  if includes "btnOK_Click" (codeAt i p) then p
  else alter (withCode (codeAt i p +:+ buttonCode)) i p.

(** ** More of the service: modules and forms of the project *)

(** The further calls these methods make on the bridge. *)
Inductive ComCallX :=
| VBProjectRead
| VBComponentsCount
| VBComponentsItemAt (i : nat)
| VBComponentsRemove (comp : nat)
| CountOfLines (comp : nat)
| DeleteLines (comp : nat)
| ComponentExport (comp : nat) (fileName : string)
| SaveAs2 (path : string) (fileFormat : option Z).

(** A control of a designer as [getUserFormControls] reads it. *)
Record DesignedControl := mkDesigned {
  dcName : ComRead string;
  dcProgID : ComRead JsValue;
  dcValue : ComRead JsValue;
  dcText : ComRead JsValue;
  dcCaption : ComRead JsValue
}.

(** What the further methods need of the host besides [Host]: which of the
    further calls raises, whether [doc.VBProject] is an object (where a method
    goes through it without a test, a host on which it is none raises at the
    call that follows), the name of a component the service has given none,
    the number the bridge makes of a member of [Object.prototype] handed to
    a call in the place of one, and the controls a designer enumerates. *)
Record HostX := mkHostX {
  hostOf : Host;
  faultX : list VBComponent -> ComCallX -> option JsError;
  vbProjectAccessible : bool;
  defaultName : nat -> string;
  inheritedNumber : string -> Z;
  designedControls : list VBComponent -> nat -> list DesignedControl
}.

(** [codeModule.CountOfLines] of a module holding the given text: none for
    the empty text, else one more than its line feeds. *)
Fixpoint lineFeeds (s : string) : nat :=
  match s with
  | EmptyString => 0
  | String c rest =>
      (if decide (c = Ascii.Ascii false true false true false false false false)
       then 1 else 0)%nat + lineFeeds rest
  end.

Definition countOfLines (code : string) : nat :=
  if decide (code = "") then 0%nat else S (lineFeeds code).

(** [component.Name] of the component at [i]: the name the service gave it,
    or the one the host gave it when it was added. *)
Definition nameAt (hx : HostX) (i : nat) (p : list VBComponent) : string :=
  match p !! i with
  | Some c => match vbcName c with
              | Some n => n
              | None => defaultName hx i
              end
  | None => ""
  end.

(** [moduleTypeMap[moduleType] || 1] of [createVbaModule] *)
Definition moduleTypeMap : gmap string Z :=
  list_to_map [("standard", 1); ("class", 2); ("form", 3); ("document", 100)].

Definition moduleTypeOf (hx : HostX) (moduleType : string) : Z :=
  match moduleTypeMap !! moduleType with
  | Some n => if decide (n = 0) then 1 else n
  | None => if decide (moduleType ∈ inheritedKeys) then inheritedNumber hx moduleType else 1
  end.

(** [typeMap[component.Type] || "unknown"] of [listVbaModules] *)
Definition typeMap : gmap Z string :=
  list_to_map [(1, "standard"); (2, "class"); (3, "form"); (100, "document")].

Definition typeNameOf (ty : Z) : string :=
  match typeMap !! ty with
  | Some s => if decide (s = "") then "unknown" else s
  | None => "unknown"
  end.

(** An element of the array [listVbaModules] returns: [{name, type}]. *)
Record ModuleInfo := mkModuleInfo { miName : string; miType : string }.

(** An element of the array [getUserFormControls] returns:
    [{name, type, value}]. *)
Record ControlInfo := mkControlInfo {
  ciName : string;
  ciType : JsValue;
  ciValue : JsValue
}.

(** The template literal [submitCode] of [addUserFormSubmitLogic]. *)
Definition submitCode (targetMacro : string) : string :=
  String.concat dq
    [ "
Private Sub btnSubmit_Click()
  ' Collect form data
  Dim formData As String
  formData = ";
      "";
      "
  
  ' Add logic to collect all control values here
  ' Call the target macro with collected data
  Application.Run ";
      targetMacro;
      ", formData
  
  ' Hide the form
  Me.Hide
End Sub

Private Sub btnCancel_Click()
  Me.Hide
End Sub
" ].

Section ServiceX.

Variable hx : HostX.

(** One of the further calls through the bridge. *)
Definition comX (c : ComCallX) : Svc unit :=
  fun w => match faultX hx (project w) c with
           | Some e => (Thrown e, w)
           | None => (Returned tt, w)
           end.

(** [for (let i = 1; i <= vbProject.VBComponents.Count; i++)
      { const component = vbProject.VBComponents.Item(i); body }]
    for a body that leaves the collection as it is: [n] components are still
    to come and [i] is the position of the next one. *)
Fixpoint forComponents {A} (n i : nat) (body : nat -> A -> Svc A) (acc : A) : Svc A :=
  comX VBComponentsCount ;;
  match n with
  | O => ret acc
  | S n' =>
      comX (VBComponentsItemAt i) ;;
      let! acc' := body i acc in
      forComponents n' (S i) body acc'
  end.

Definition listUserForms : Svc (list string) :=
  getActiveDocument (hostOf hx) ;;
  tryCatch
    (let! p := getProject in
     forComponents (length p) 0
       (fun i forms =>
          let! p := getProject in
          if decide (typeAt i p = 3) then ret (forms ++ [nameAt hx i p])
          else ret forms)
       [])
    (fun error => throw (newError ("Failed to list UserForms. Error: " +:+ errToString error))).

Definition listVbaModules : Svc (list ModuleInfo) :=
  getActiveDocument (hostOf hx) ;;
  tryCatch
    (let! p := getProject in
     forComponents (length p) 0
       (fun i modules =>
          let! p := getProject in
          ret (modules ++ [mkModuleInfo (nameAt hx i p) (typeNameOf (typeAt i p))]))
       [])
    (fun error => throw (newError ("Failed to list VBA modules. Error: " +:+ errToString error))).

(** [vbProject.VBComponents.Remove(component)] *)
Definition VBComponents_Remove (i : nat) : Svc unit :=
  comX (VBComponentsRemove i) ;;
  modifyProject (delete i).

Definition deleteUserForm (formName : string) : Svc unit :=
  getActiveDocument (hostOf hx) ;;
  tryCatch
    (let! formComponent := VBComponents_Item (hostOf hx) formName in
     let! p := getProject in
     if decide (typeAt formComponent p = 3) then VBComponents_Remove formComponent
     else throw (newError ("'" +:+ formName +:+ "' is not a UserForm")))
    (fun error =>
       throw (newError ("Failed to delete UserForm '" +:+ formName +:+ "'. Error: "
                        +:+ errToString error))).

Definition deleteVbaModule (moduleName : string) : Svc unit :=
  getActiveDocument (hostOf hx) ;;
  tryCatch
    (let! vbComponent := VBComponents_Item (hostOf hx) moduleName in
     VBComponents_Remove vbComponent)
    (fun error =>
       throw (newError ("Failed to delete VBA module '" +:+ moduleName +:+ "'. Error: "
                        +:+ errToString error))).

Definition createVbaModule (moduleName moduleType : string) (code : option string)
  : Svc unit :=
  getActiveDocument (hostOf hx) ;;
  tryCatch
    (comX VBProjectRead ;;
     (if vbProjectAccessible hx then ret tt
      else throw (newError "VBA Project not accessible. Check macro security settings.")) ;;
     let! vbComponent := VBComponents_Add (hostOf hx) (moduleTypeOf hx moduleType) in
     com (hostOf hx) (SetComponentName vbComponent moduleName) ;;
     onComponent vbComponent (withComponentName moduleName) ;;
     if truthy code then CodeModule_AddFromString (hostOf hx) vbComponent (default "" code)
     else ret tt)
    (fun error =>
       throw (newError ("Failed to create VBA module '" +:+ moduleName +:+ "'. Error: "
                        +:+ errToString error))).

(** [codeModule.CountOfLines] *)
Definition CodeModule_CountOfLines (i : nat) : Svc nat :=
  comX (CountOfLines i) ;;
  let! p := getProject in
  ret (countOfLines (codeAt i p)).

Definition getVbaModuleCode (moduleName : string) : Svc string :=
  getActiveDocument (hostOf hx) ;;
  tryCatch
    (let! vbComponent := VBComponents_Item (hostOf hx) moduleName in
     com (hostOf hx) (GetCodeModule vbComponent) ;;
     let! count := CodeModule_CountOfLines vbComponent in
     if decide (0 < count)%nat then CodeModule_Lines (hostOf hx) vbComponent
     else ret "")
    (fun error =>
       throw (newError ("Failed to get code from module '" +:+ moduleName +:+ "'. Error: "
                        +:+ errToString error))).

Definition setVbaModuleCode (moduleName code : string) : Svc unit :=
  getActiveDocument (hostOf hx) ;;
  tryCatch
    (let! vbComponent := VBComponents_Item (hostOf hx) moduleName in
     com (hostOf hx) (GetCodeModule vbComponent) ;;
     let! count := CodeModule_CountOfLines vbComponent in
     (if decide (0 < count)%nat then
        comX (DeleteLines vbComponent) ;;
        onComponent vbComponent (withCode "")
      else ret tt) ;;
     CodeModule_AddFromString (hostOf hx) vbComponent code)
    (fun error =>
       throw (newError ("Failed to set code in module '" +:+ moduleName +:+ "'. Error: "
                        +:+ errToString error))).

Definition addUserFormSubmitLogic (formName targetMacro : string) : Svc unit :=
  getActiveDocument (hostOf hx) ;;
  tryCatch
    (let! formComponent := VBComponents_Item (hostOf hx) formName in
     let! p := getProject in
     if decide (typeAt formComponent p = 3) then
       com (hostOf hx) (GetCodeModule formComponent) ;;
       CodeModule_AddFromString (hostOf hx) formComponent (submitCode targetMacro)
     else throw (newError ("'" +:+ formName +:+ "' is not a UserForm")))
    (fun error =>
       throw (newError ("Failed to add submit logic to UserForm '" +:+ formName
                        +:+ "'. Error: " +:+ errToString error))).

(** [a || b] on values already read. *)
Definition orElse (a b : JsValue) : JsValue := if truthyValue a then a else b.

(** One element of the array [getUserFormControls] builds:
    [{name: control.Name, type: control.ProgID || "Unknown",
      value: control.Value || control.Text || control.Caption}];
    a property is read only when the ones before it were falsy. *)
Definition controlInfo (control : DesignedControl) : ComRead ControlInfo :=
  match dcName control with
  | Raises e => Raises e
  | Reads n =>
      match dcProgID control with
      | Raises e => Raises e
      | Reads progId =>
          let ty := orElse progId (JStr "Unknown") in
          match dcValue control with
          | Raises e => Raises e
          | Reads v =>
              if truthyValue v then Reads (mkControlInfo n ty v)
              else match dcText control with
                   | Raises e => Raises e
                   | Reads t =>
                       if truthyValue t then Reads (mkControlInfo n ty t)
                       else match dcCaption control with
                            | Raises e => Raises e
                            | Reads c => Reads (mkControlInfo n ty c)
                            end
                   end
          end
      end
  end.

(** The loop of [getUserFormControls]: it has no [try] of its own, a read
    that raises ends the whole call. *)
Fixpoint describeControls (controls : list DesignedControl) (acc : list ControlInfo)
  : Svc (list ControlInfo) :=
  match controls with
  | [] => ret acc
  | control :: rest =>
      match controlInfo control with
      | Raises e => throw e
      | Reads info => describeControls rest (acc ++ [info])
      end
  end.

Definition getUserFormControls (formName : string) : Svc (list ControlInfo) :=
  getActiveDocument (hostOf hx) ;;
  tryCatch
    (let! formComponent := VBComponents_Item (hostOf hx) formName in
     let! p := getProject in
     if decide (typeAt formComponent p = 3) then
       com (hostOf hx) (GetDesigner formComponent) ;;
       describeControls (designedControls hx p formComponent) []
     else throw (newError ("'" +:+ formName +:+ "' is not a UserForm")))
    (fun error =>
       throw (newError ("Failed to get controls for UserForm '" +:+ formName
                        +:+ "'. Error: " +:+ errToString error))).

End ServiceX.

(** ** Methods that act on files and on the service object *)

(** The state of [World] together with what these methods leave outside the
    project: the files [SaveAs2] and [Export] have written, in order, and the
    [recordingMacroName] property of the service object. *)
Record WorldX := mkWorldX {
  worldOf : World;
  savedAs : list (string * option Z);
  exported : list string;
  recordingMacroName : option string
}.

(** The monad of the methods that act on this state, with the operations of
    [Svc]. *)
Definition SvcX (A : Type) : Type := WorldX -> Outcome A * WorldX.

Definition retX {A} (a : A) : SvcX A := fun wx => (Returned a, wx).
Definition throwX {A} (e : JsError) : SvcX A := fun wx => (Thrown e, wx).

Definition bindX {A B} (m : SvcX A) (k : A -> SvcX B) : SvcX B :=
  fun wx => match m wx with
            | (Returned a, wx') => k a wx'
            | (Thrown e, wx') => (Thrown e, wx')
            end.

Definition tryCatchX {A} (m : SvcX A) (handler : JsError -> SvcX A) : SvcX A :=
  fun wx => match m wx with
            | (Returned a, wx') => (Returned a, wx')
            | (Thrown e, wx') => handler e wx'
            end.

(** A method of the service run on the [World] part. *)
Definition liftX {A} (m : Svc A) : SvcX A :=
  fun wx => match m (worldOf wx) with
            | (r, w') => (r, mkWorldX w' (savedAs wx) (exported wx) (recordingMacroName wx))
            end.

Notation "'let!!' x ':=' m 'in' k" := (bindX m (fun x => k))
  (at level 10, x name, m at level 100, k at level 200).
Notation "m ;;; k" := (bindX m (fun _ => k))
  (at level 100, k at level 200, right associativity).

(** The backslash, code 92, and the full stop, code 46. *)
Definition backslash : string :=
  String (Ascii.Ascii false false true true true false true false) EmptyString.

Definition fullStop : Ascii.ascii := Ascii.Ascii false true true true false true false false.

(** A text the pattern [[^.]*] matches as a whole. *)
Fixpoint noFullStop (s : string) : bool :=
  match s with
  | EmptyString => true
  | String c rest => if decide (c = fullStop) then false else noFullStop rest
  end.

(** [filePath.replace(/\.[^.]+$/, '_backup$&')]: the pattern is tried at each
    position from the left; where a full stop is followed to the end of the
    text by one or more characters that are no full stop, [_backup] goes in
    before the match. *)
Fixpoint backupPath (filePath : string) : string :=
  match filePath with
  | EmptyString => EmptyString
  | String c rest =>
      if bool_decide (c = fullStop) && negb (bool_decide (rest = "")) && noFullStop rest
      then "_backup" +:+ filePath
      else String c (backupPath rest)
  end.

(** [formatMap[format] || 13] of [saveAsMacroEnabled] *)
Definition formatMap : gmap string Z :=
  list_to_map [("docm", 13); ("dotm", 15); ("docx", 16); ("dotx", 14); ("doc", 0); ("dot", 1)].

Definition fileFormatOf (hx : HostX) (format : string) : Z :=
  match formatMap !! format with
  | Some n => if decide (n = 0) then 13 else n
  | None => if decide (format ∈ inheritedKeys) then inheritedNumber hx format else 13
  end.

(** [component.Type === 1 ? ".bas" : component.Type === 2 ? ".cls" : ".frm"] *)
Definition extensionOf (ty : Z) : string :=
  if decide (ty = 1) then ".bas" else if decide (ty = 2) then ".cls" else ".frm".

Section ServiceFiles.

Variable hx : HostX.

(** [doc.SaveAs2(path)] and [doc.SaveAs2(path, fileFormat)] *)
Definition Document_SaveAs2 (path : string) (fileFormat : option Z) : SvcX unit :=
  fun wx => match faultX hx (project (worldOf wx)) (SaveAs2 path fileFormat) with
            | Some e => (Thrown e, wx)
            | None => (Returned tt,
                       mkWorldX (worldOf wx) (savedAs wx ++ [(path, fileFormat)])
                                (exported wx) (recordingMacroName wx))
            end.

(** [component.Export(fileName)] *)
Definition Component_Export (i : nat) (fileName : string) : SvcX unit :=
  fun wx => match faultX hx (project (worldOf wx)) (ComponentExport i fileName) with
            | Some e => (Thrown e, wx)
            | None => (Returned tt,
                       mkWorldX (worldOf wx) (savedAs wx) (exported wx ++ [fileName])
                                (recordingMacroName wx))
            end.

Definition saveAsMacroEnabled (filePath format : string) (createBackup : bool)
  : SvcX unit :=
  liftX (getActiveDocument (hostOf hx)) ;;;
  tryCatchX
    ((if createBackup then Document_SaveAs2 (backupPath filePath) None else retX tt) ;;;
     let fileFormat := fileFormatOf hx format in
     Document_SaveAs2 filePath (Some fileFormat))
    (fun error =>
       throwX (newError ("Failed to save document as macro-enabled format. Error: "
                         +:+ errToString error))).

(** The loop of [exportVbaProject]: [n] components are still to come and [i]
    is the position of the next one. *)
Fixpoint exportComponents (n i : nat) (exportPath : string) (exportedFiles : list string)
  : SvcX (list string) :=
  liftX (comX hx VBComponentsCount) ;;;
  match n with
  | O => retX exportedFiles
  | S n' =>
      liftX (comX hx (VBComponentsItemAt i)) ;;;
      let!! p := liftX getProject in
      let extension := extensionOf (typeAt i p) in
      let fileName := exportPath +:+ backslash +:+ nameAt hx i p +:+ extension in
      Component_Export i fileName ;;;
      exportComponents n' (S i) exportPath (exportedFiles ++ [fileName])
  end.

Definition exportVbaProject (exportPath : string) (includeReferences includeProjectInfo : bool)
  : SvcX (list string) :=
  liftX (getActiveDocument (hostOf hx)) ;;;
  tryCatchX
    (let!! p := liftX getProject in
     let!! exportedFiles := exportComponents (length p) 0 exportPath [] in
     let exportedFiles :=
       if includeProjectInfo
       then exportedFiles ++ [exportPath +:+ backslash +:+ "project.info"]
       else exportedFiles in
     let exportedFiles :=
       if includeReferences
       then exportedFiles ++ [exportPath +:+ backslash +:+ "references.txt"]
       else exportedFiles in
     retX exportedFiles)
    (fun error =>
       throwX (newError ("Failed to export VBA project. Error: " +:+ errToString error))).

(** The loop of [importVbaProject], from the last component down to the
    first: [i] components are still to be looked at. *)
Fixpoint clearComponents (i : nat) : Svc unit :=
  match i with
  | O => ret tt
  | S i' =>
      comX hx (VBComponentsItemAt i') ;;
      let! p := getProject in
      (if decide (typeAt i' p <> 100) then VBComponents_Remove hx i' else ret tt) ;;
      clearComponents i'
  end.

Definition importVbaProject (importPath : string) (clearExisting importReferences : bool)
  : Svc (list string) :=
  getActiveDocument (hostOf hx) ;;
  tryCatch
    ((if clearExisting then
        comX hx VBComponentsCount ;;
        let! p := getProject in
        clearComponents (length p)
      else ret tt) ;;
     ret [])
    (fun error =>
       throw (newError ("Failed to import VBA project. Error: " +:+ errToString error))).

(** The assignment to, and the [delete] of, [this.recordingMacroName]. *)
Definition setRecordingMacroName (n : option string) : SvcX unit :=
  fun wx => (Returned tt, mkWorldX (worldOf wx) (savedAs wx) (exported wx) n).

Definition startRecordingMacro (macroName : string) (description : option string)
  : SvcX unit :=
  liftX (getWordApplication (hostOf hx)) ;;;
  tryCatchX
    (setRecordingMacroName (Some macroName))
    (fun error =>
       throwX (newError ("Failed to start recording macro '" +:+ macroName +:+ "'. Error: "
                         +:+ errToString error))).

Definition stopRecordingMacro : SvcX string :=
  liftX (getWordApplication (hostOf hx)) ;;;
  tryCatchX
    (fun wx =>
       let macroName :=
         if truthy (recordingMacroName wx) then default "" (recordingMacroName wx)
         else "RecordedMacro" in
       (setRecordingMacroName None ;;; retX macroName) wx)
    (fun error =>
       throwX (newError ("Failed to stop recording macro. Error: " +:+ errToString error))).

End ServiceFiles.

(** ** Methods that check the project and add procedures to it *)

(** The object [compileVbaProject] returns: [errors] is undefined when there
    is none. *)
Record CompileResult := mkCompileResult {
  success : bool;
  errors : option (list string)
}.

Section ServiceCode.

Variable hx : HostX.

(** The body of the loop of [compileVbaProject] for the component at [i]:
    the lines are read inside a [try] of their own, and a raise adds a
    message to [errors]. *)
Definition checkComponent (i : nat) (errors : list string) : Svc (list string) :=
  com (hostOf hx) (GetCodeModule i) ;;
  let! count := CodeModule_CountOfLines hx i in
  if decide (0 < count)%nat then
    tryCatch
      (CodeModule_Lines (hostOf hx) i ;; ret errors)
      (fun err =>
         let! p := getProject in
         ret (errors ++ ["Error in module '" +:+ nameAt hx i p +:+ "': " +:+ errMessage err]))
  else ret errors.

Definition compileVbaProject : Svc CompileResult :=
  getActiveDocument (hostOf hx) ;;
  tryCatch
    (let! p := getProject in
     let! errors := forComponents hx (length p) 0 checkComponent [] in
     ret (mkCompileResult (bool_decide (length errors = 0%nat))
                          (if decide (0 < length errors)%nat then Some errors else None)))
    (fun error =>
       throw (newError ("Failed to compile VBA project. Error: " +:+ errToString error))).

(** The search of [addDocumentEventHandler] for the first component of type
    100, which ends at the first one found: [n] components are still to come
    and [i] is the position of the next one. *)
Fixpoint findDocumentModule (n i : nat) : Svc (option nat) :=
  comX hx VBComponentsCount ;;
  match n with
  | O => ret None
  | S n' =>
      comX hx (VBComponentsItemAt i) ;;
      let! p := getProject in
      if decide (typeAt i p = 100) then
        com (hostOf hx) (GetCodeModule i) ;;
        ret (Some i)
      else findDocumentModule n' (S i)
  end.

Definition addDocumentEventHandler (eventName vbaCode : string) : Svc unit :=
  getActiveDocument (hostOf hx) ;;
  tryCatch
    (let! p := getProject in
     let! thisDocModule := findDocumentModule (length p) 0 in
     match thisDocModule with
     | None => throw (newError "ThisDocument module not found")
     | Some i =>
         let procedureCode :=
           "Private Sub " +:+ eventName +:+ "()" +:+ lineFeed +:+ vbaCode +:+ lineFeed
           +:+ "End Sub" in
         CodeModule_AddFromString (hostOf hx) i procedureCode
     end)
    (fun error =>
       throw (newError ("Failed to add document event handler '" +:+ eventName
                        +:+ "'. Error: " +:+ errToString error))).

Definition createAutoMacro (autoType vbaCode : string) : Svc unit :=
  getActiveDocument (hostOf hx) ;;
  tryCatch
    (let! autoModule :=
       tryCatch
         (VBComponents_Item (hostOf hx) "AutoMacros")
         (fun _ =>
            let! component := VBComponents_Add (hostOf hx) 1 in
            com (hostOf hx) (SetComponentName component "AutoMacros") ;;
            onComponent component (withComponentName "AutoMacros") ;;
            ret component) in
     com (hostOf hx) (GetCodeModule autoModule) ;;
     let procedureCode :=
       "Sub " +:+ autoType +:+ "()" +:+ lineFeed +:+ vbaCode +:+ lineFeed +:+ "End Sub" in
     CodeModule_AddFromString (hostOf hx) autoModule procedureCode)
    (fun error =>
       throw (newError ("Failed to create auto macro '" +:+ autoType +:+ "'. Error: "
                        +:+ errToString error))).

End ServiceCode.

(** ** Two more methods of the service: running and testing a macro *)

(** A value of TypeScript type [any] that goes through the service and the
    tool handlers: a primitive value, an array or an object. *)
#[local] Unset Elimination Schemes.
Inductive JsAny :=
| AnyValue (v : JsValue)
| AnyArray (items : list JsAny)
| AnyObject (fields : list (string * JsAny)).
#[local] Set Elimination Schemes.

(** JavaScript truthiness of such a value: an array and an object are
    truthy. *)
Definition truthyAny (v : JsAny) : bool :=
  match v with
  | AnyValue v => truthyValue v
  | AnyArray _ | AnyObject _ => true
  end.

(** [v !== undefined] *)
Definition isDefined (v : JsAny) : bool :=
  match v with
  | AnyValue JUndefined => false
  | _ => true
  end.

(** A method of the service on a state of type [S]. *)
Definition Method (S A : Type) : Type := S -> Outcome A * S.

(** The object [testVbaMacro] returns:
    [{success, result, error, executionTime}], [error] being null or the
    message of the error caught. *)
Record TestResult := mkTestResult {
  trSuccess : bool;
  trResult : JsAny;
  trError : option string;
  trExecutionTime : Z
}.

Section RunMacro.

Variable hx : HostX.

(** [app.Run(macroName, ...parameters)], a call of the host application. *)
Variable Application_Run : string -> list JsAny -> SvcX JsAny.

Definition runVbaMacro (macroName : string) (parameters : option (list JsAny))
  : SvcX JsAny :=
  liftX (getWordApplication (hostOf hx)) ;;;
  tryCatchX
    (match parameters with
     | Some (p :: ps) => Application_Run macroName (p :: ps)
     | _ => Application_Run macroName []
     end)
    (fun error =>
       throwX (newError ("Failed to run macro '" +:+ macroName +:+ "'. Error: "
                         +:+ errToString error))).

End RunMacro.

Section TestMacro.

Context {S : Type}.

(** [Date.now()], the clock being part of the state. *)
Variable Date_now : S -> Z.

(** [JSON.stringify(v)] of a value that is not undefined. *)
Variable JSON_stringify : JsAny -> string.

(** [this.runVbaMacro] *)
Variable runVbaMacro : string -> option (list JsAny) -> Method S JsAny.

(** [JSON.stringify(v)]: undefined for undefined. *)
Definition stringified (v : JsAny) : option string :=
  if isDefined v then Some (JSON_stringify v) else None.

(** The inner [try] catches what [runVbaMacro] throws and records its
    message; nothing else in the body raises, and the outer [catch] rewraps
    what would. *)
Definition testVbaMacro (macroName : string) (testData expectedResult : JsAny)
  : Method S TestResult :=
  fun w =>
    let body :=
      let startTime := Date_now w in
      match runVbaMacro macroName
              (if truthyAny testData then Some [testData] else None) w with
      | (Returned result, w1) =>
          let success :=
            if isDefined expectedResult
            then bool_decide (stringified result = stringified expectedResult)
            else true in
          (Returned (mkTestResult success result None (jsSub (Date_now w1) startTime)), w1)
      | (Thrown err, w1) =>
          (Returned (mkTestResult false (AnyValue JUndefined) (Some (errMessage err))
                       (jsSub (Date_now w1) startTime)), w1)
      end in
    match body with
    | (Returned r, w') => (Returned r, w')
    | (Thrown error, w') =>
        (Thrown (newError ("Failed to test macro '" +:+ macroName +:+ "'. Error: "
                           +:+ errToString error)), w')
    end.

End TestMacro.

(** ** The tool layer *)

Record CallToolResult := mkResult {
  content : list string;
  isError : option bool
}.

(** Elements of the arrays [listAvailableMacros], [listVbaReferences] and
    [listActiveXControls] return. *)
Record MacroEntry := mkMacroEntry { meName : string; meModule : string }.
Record ReferenceEntry := mkReferenceEntry { reDescription : string; reGuid : string }.
Record ActiveXEntry := mkActiveXEntry { axName : string; axType : string }.

(** The arguments of [word_vba_setProjectProperties], passed on as they are. *)
Record ProjectProperties := mkProjectProperties {
  ppName : option string;
  ppDescription : option string;
  ppHelpFile : option string;
  ppHelpContextId : option Z
}.

(** The methods of [wordService] that the tool handlers await, by their
    names.  A handler sees of the service nothing but these. *)
Module WordService.
Section Interface.
Context {S : Type}.

Record t := mk {
  runVbaMacro : string -> option (list JsAny) -> Method S JsAny;
  testVbaMacro : string -> JsAny -> JsAny -> Method S TestResult;
  debugVbaCode : string -> string -> option (list Z) -> Method S JsAny;
  compileVbaProject : Method S CompileResult;
  addDocumentEventHandler : string -> string -> Method S unit;
  addApplicationEventHandler : string -> string -> Method S unit;
  createAutoMacro : string -> string -> Method S unit;
  getVbaErrorInfo : Method S JsAny;
  clearVbaImmediateWindow : Method S unit;
  executeVbaImmediate : string -> Method S string;
  listAvailableMacros : Method S (list MacroEntry);
  startRecordingMacro : string -> option string -> Method S unit;
  stopRecordingMacro : Method S string;
  createShowUserFormModalFunction : Method S unit;
  addStandardFormEventHandlers : string -> Method S unit;
  createVbaModule : string -> string -> option string -> Method S unit;
  deleteVbaModule : string -> Method S unit;
  getVbaModuleCode : string -> Method S string;
  setVbaModuleCode : string -> string -> Method S unit;
  addVbaProcedure : string -> string -> option Z -> Method S unit;
  deleteVbaProcedure : string -> string -> Method S unit;
  listVbaModules : Method S (list ModuleInfo);
  importVbaModule : string -> Method S string;
  exportVbaModule : string -> string -> Method S unit;
  addVbaReference : option string -> option Z -> option Z -> option string -> Method S unit;
  removeVbaReference : string -> Method S unit;
  listVbaReferences : Method S (list ReferenceEntry);
  setVbaProjectProperties : ProjectProperties -> Method S unit;
  protectVbaProject : string -> bool -> Method S unit;
  saveAsMacroEnabled : string -> string -> bool -> Method S unit;
  createDocumentTemplate : string -> bool -> bool -> option string -> Method S unit;
  setMacroSecurity : string -> option bool -> Method S unit;
  signVbaProject : option string -> option string -> bool -> Method S unit;
  createSelfExecutingDocument : string -> string -> bool -> option string -> Method S unit;
  exportVbaProject : string -> bool -> bool -> Method S (list string);
  importVbaProject : string -> bool -> bool -> Method S (list string);
  createAddIn : string -> string -> option string -> bool -> Method S unit;
  installAddIn : string -> bool -> Method S unit;
  createRibbonCustomization : string -> option (gmap string string) -> Method S unit;
  addCustomDocumentProperty : string -> JsAny -> bool -> Method S unit;
  addActiveXControl :
    string -> string -> option string -> Z -> Z -> Z -> Z -> bool -> Method S JsAny;
  deleteActiveXControl : string -> Method S unit;
  setActiveXControlProperties : string -> gmap string JsAny -> Method S unit;
  getActiveXControlProperties : string -> Method S (gmap string JsAny);
  addActiveXEventHandler : string -> string -> string -> Method S unit;
  listActiveXControls : Method S (list ActiveXEntry);
  createUserForm : string -> option string -> Z -> Z -> Method S unit;
  addControlToUserForm :
    string -> string -> string -> option string -> Z -> Z -> Z -> Z -> Method S unit;
  setControlTabOrder : string -> Z -> Method S unit;
  groupControls : list string -> option string -> Method S unit;
  showUserForm : string -> Method S (gmap string JsValue);
  addUserFormSubmitLogic : string -> string -> Method S unit;
  listUserForms : Method S (list string);
  deleteUserForm : string -> Method S unit;
  getUserFormControls : string -> Method S (list ControlInfo);
  createFormWithControls :
    string -> string -> Z -> Z -> list ControlSpec -> bool -> Method S unit
}.

End Interface.
Arguments t : clear implicits.
End WordService.

(** The shape every tool handler has:
    [try { r = await wordService.method(...); return {content: [success r]} }
     catch (error) { return {content: [failure + error.message], isError: true} }];
    the [catch] writes to the debug log first. *)
Definition handler {S A} (call : Method S A) (success : A -> string) (failure : string)
  : S -> CallToolResult * S :=
  fun w => match call w with
           | (Returned a, w') => (mkResult [success a] None, w')
           | (Thrown error, w') =>
               (mkResult [failure +:+ errMessage error] (Some true), w')
           end.



Section Tools.

Context {S : Type}.

Variable wordService : WordService.t S.

(** [JSON.stringify(v)] and [JSON.stringify(v, null, 2)]. *)
Variable JSON_stringify : JsAny -> string.
Variable JSON_stringify_indented : forall A : Type, A -> string.

(** [`${n}`] for a number. *)
Variable numberToString : Z -> string.

(** *** vba-execution-tools.ts *)
















(** *** vba-module-tools.ts *)















(** *** vba-template-tools.ts *)












(** *** The ActiveX and UserForm tools *)

















End Tools.


Section Registration.

Context {S : Type}.

Variable wordService : WordService.t S.
Variable JSON_stringify : JsAny -> string.
Variable JSON_stringify_indented : forall A : Type, A -> string.
Variable numberToString : Z -> string.


End Registration.

(** ** What the handlers are measured against *)





(** ** The service the tools import

    [wordServiceOf] is the service of this file behind the interface of the
    tool layer: the methods embedded above, on the host [hx], and for the
    methods that are not embedded those of [others]. *)
Section WordServiceOf.

Variable hx : HostX.
Variable Application_Run : string -> list JsAny -> SvcX JsAny.
Variable Date_now : WorldX -> Z.
Variable JSON_stringify : JsAny -> string.
Variable others : WordService.t WorldX.


End WordServiceOf.

(** ** Further hosts, expected results and data of the examples *)

(** A host that refuses every assignment of a form's size and caption and
    accepts the rest. *)
Definition sizeRefusingHost : Host :=
  mkHost
    (fun _ c =>
       match c with
       | SetFormCaption _ _ | SetFormWidth _ _ | SetFormHeight _ _
       | SetFormStartUpPosition _ _ => Some (newError "Could not set the property.")
       | _ => None
       end)
    true
    (fun n => newError ("Item '" +:+ n +:+ "' not found"))
    (fun _ _ => []) ConfirmClicked.

(** A project with the helper module and a form. *)
Definition helperAndForm : World :=
  mkWorld true
    [withCode vbaCode (withComponentName "UserFormHelper" (newComponent 1));
     expectedForm "SignupForm" "Sign up" 400 300 [] true].

(** A host on which the cached Word instance has gone stale: the probe of the
    instance raises, everything else is accepted. *)
Definition staleInstanceHost : Host :=
  mkHost
    (fun _ c =>
       match c with
       | ProbeWordApplication => Some (newError "The RPC server is unavailable.")
       | _ => None
       end)
    true
    (fun n => newError ("Item '" +:+ n +:+ "' not found"))
    (fun _ _ => []) ConfirmClicked.

(** A host whose Word has no document open. *)
Definition noDocumentHost : Host :=
  mkHost (fun _ _ => None) false
         (fun n => newError ("Item '" +:+ n +:+ "' not found"))
         (fun _ _ => []) ConfirmClicked.

(** A host and its extension that refuse nothing. *)
Definition acceptingX (hx : HostX) : Prop :=
  accepting (hostOf hx) /\ (forall p c, faultX hx p c = None) /\
  vbProjectAccessible hx = true.

Definition lenientHostX : HostX :=
  mkHostX (lenientHost [] ConfirmClicked) (fun _ _ => None) true
          (fun i => "Module" +:+ pretty i) (fun _ => 1) (fun _ _ => []).

(** The names [listUserForms] collects from the positions [i], ..., [i+n-1]. *)
Definition formNamesFrom (hx : HostX) (p : list VBComponent) (i n : nat) : list string :=
  flat_map (fun j => if decide (typeAt j p = 3) then [nameAt hx j p] else []) (seq i n).

Definition formNames (hx : HostX) (p : list VBComponent) : list string :=
  formNamesFrom hx p 0 (length p).

Definition moduleInfos (hx : HostX) (p : list VBComponent) : list ModuleInfo :=
  (fun j => mkModuleInfo (nameAt hx j p) (typeNameOf (typeAt j p))) <$> seq 0 (length p).

(** The component [createVbaModule] leaves at the end of the project when no
    call is refused. *)
Definition builtModule (hx : HostX) (moduleName moduleType : string)
    (code : option string) : VBComponent :=
  withCode (if truthy code then default "" code else "")
    (withComponentName moduleName (newComponent (moduleTypeOf hx moduleType))).

(** A host that, like the editor, refuses to read the lines of a module
    that has none, and refuses nothing else. *)
Definition emptyLinesHost : Host :=
  mkHost
    (fun p c =>
       match c with
       | CodeLines i =>
           if decide (codeAt i p = "")
           then Some (newError "Subscript out of range")
           else None
       | _ => None
       end)
    true
    (fun n => newError ("Item '" +:+ n +:+ "' not found"))
    (fun _ _ => []) ConfirmClicked.

Definition emptyLinesHostX : HostX :=
  mkHostX emptyLinesHost (fun _ _ => None) true
          (fun i => "Module" +:+ pretty i) (fun _ => 1) (fun _ _ => []).

(** How often a text occurs in another, overlapping occurrences counted. *)
Fixpoint occurrences (needle haystack : string) : nat :=
  ((if String.prefix needle haystack then 1 else 0)
   + match haystack with
     | EmptyString => 0
     | String _ rest => occurrences needle rest
     end)%nat.

(** What an entry of [getUserFormControls] says of the control it was made
    from: its name as read, a type that is truthy, and a value that is falsy
    only when it is the caption. *)
Definition describes (control : DesignedControl) (info : ControlInfo) : Prop :=
  dcName control = Reads (ciName info) /\
  truthyValue (ciType info) = true /\
  (truthyValue (ciValue info) = false -> dcCaption control = Reads (ciValue info)).

(** A designer with an unchecked check box captioned Subscribe and a text
    box without ProgID. *)
Definition twoControlsHostX : HostX :=
  mkHostX (lenientHost [] ConfirmClicked) (fun _ _ => None) true
          (fun i => "Module" +:+ pretty i) (fun _ => 1)
          (fun _ _ =>
             [ mkDesigned (Reads "chkSubscribe") (Reads (JStr "Forms.CheckBox.1"))
                          (Reads (JBool false)) (Reads JUndefined) (Reads (JStr "Subscribe"));
               mkDesigned (Reads "txtName") (Reads JUndefined)
                          (Reads (JStr "")) (Reads (JStr "")) (Reads JUndefined) ]).

Definition uncheckedBoxHostX : HostX :=
  mkHostX
    (lenientHost [mkLive "CheckBox" (Reads "chkSubscribe") (Reads (JBool false))
                         (Reads JUndefined) (Reads (JStr "Subscribe"))] ConfirmClicked)
    (fun _ _ => None) true (fun i => "Module" +:+ pretty i) (fun _ => 1)
    (fun _ _ => [mkDesigned (Reads "chkSubscribe") (Reads (JStr "Forms.CheckBox.1"))
                            (Reads (JBool false)) (Reads JUndefined)
                            (Reads (JStr "Subscribe"))]).

Definition brokenControlHostX : HostX :=
  mkHostX (lenientHost [] ConfirmClicked) (fun _ _ => None) true
          (fun i => "Module" +:+ pretty i) (fun _ => 1)
          (fun _ _ =>
             [ mkDesigned (Reads "txtName") (Reads (JStr "Forms.TextBox.1"))
                          (Reads (JStr "Ann")) (Reads (JStr "Ann")) (Reads JUndefined);
               mkDesigned (Reads "imgLogo") (Reads (JStr "Forms.Image.1"))
                          (Raises (newError "Object doesn't support this property or method"))
                          (Reads JUndefined) (Reads JUndefined);
               mkDesigned (Reads "txtEmail") (Reads (JStr "Forms.TextBox.1"))
                          (Reads (JStr "a@b.c")) (Reads (JStr "a@b.c")) (Reads JUndefined) ]).

Definition emptyWorldX : WorldX := mkWorldX (mkWorld false []) [] [] None.

Definition isDocumentModule (c : VBComponent) : Prop := vbcType c = 100.

Global Instance isDocumentModule_dec c : Decision (isDocumentModule c).
Proof. unfold isDocumentModule. apply _. Defined.

(** The file names [exportVbaProject] makes for the components of a project. *)
Definition exportNames (hx : HostX) (exportPath : string) (p : list VBComponent)
  : list string :=
  (fun j => exportPath +:+ backslash +:+ nameAt hx j p +:+ extensionOf (typeAt j p))
    <$> seq 0 (length p).

(** The message [compileVbaProject] makes for the component at [i]: one when
    the component has lines and the host refuses to read them, none
    otherwise. *)
Definition lineError (hx : HostX) (p : list VBComponent) (i : nat) : list string :=
  if decide (0 < countOfLines (codeAt i p))%nat then
    match fault (hostOf hx) p (CodeLines i) with
    | Some e => ["Error in module '" +:+ nameAt hx i p +:+ "': " +:+ errMessage e]
    | None => []
    end
  else [].

Definition lineErrors (hx : HostX) (p : list VBComponent) : list string :=
  flat_map (lineError hx p) (seq 0 (length p)).

(** A project with a document module between a standard module and a form. *)
Definition documentProject : World :=
  mkWorld true
    [ withCode "Sub A()" (withComponentName "Macros" (newComponent 1));
      withComponentName "ThisDocument" (newComponent 100);
      expectedForm "SignupForm" "Sign up" 400 300 [] true ].

(** A host that refuses to read the lines of a component named Macros and
    refuses nothing else. *)
Definition unreadableHostX : HostX :=
  mkHostX
    (mkHost
       (fun p c =>
          match c with
          | CodeLines i =>
              if decide ((p !! i) ≫= vbcName = Some "Macros")
              then Some (newError "Can't perform operation since the project is protected.")
              else None
          | _ => None
          end)
       true
       (fun n => newError ("Item '" +:+ n +:+ "' not found"))
       (fun _ _ => []) ConfirmClicked)
    (fun _ _ => None) true (fun i => "Module" +:+ pretty i) (fun _ => 1) (fun _ _ => []).






(** ** Evaluation on a host that refuses nothing *)

Lemma accepting_lenient controls closure : accepting (lenientHost controls closure).
Proof. split; reflexivity. Qed.

Lemma com_accepting h c w : accepting h -> com h c w = (Returned tt, w).
Proof. intros [Hf _]. unfold com. by rewrite Hf. Qed.

Lemma getWordApplication_project h w r w' :
  getWordApplication h w = (r, w') -> project w' = project w.
Proof.
  unfold getWordApplication, tryCatch, bind, com, setWordApp, throw.
  destruct w as [app p]; simpl.
  destruct app; simpl;
    repeat (match goal with
            | |- context [fault h ?p ?c] => destruct (fault h p c); simpl
            end);
    intros [= <- <-]; reflexivity.
Qed.

Lemma getActiveDocument_project h w r w' :
  getActiveDocument h w = (r, w') -> project w' = project w.
Proof.
  unfold getActiveDocument, bind.
  destruct (getWordApplication h w) as [[[]|e] w1] eqn:Happ.
  - apply getWordApplication_project in Happ.
    unfold tryCatch, bind, com, throw, ret.
    destruct (fault h (project w1) GetActiveDocument); simpl;
      [| destruct (activeDocument h)]; intros [= <- <-]; exact Happ.
  - apply getWordApplication_project in Happ. intros [= <- <-]. exact Happ.
Qed.

Lemma getActiveDocument_accepting h w :
  accepting h -> getActiveDocument h w = (Returned tt, mkWorld true (project w)).
Proof.
  intros [Hf Hd].
  unfold getActiveDocument, getWordApplication, bind, tryCatch, com, setWordApp, ret.
  destruct w as [[] p]; simpl; rewrite ?Hf; simpl; rewrite ?Hf, ?Hd; reflexivity.
Qed.

Lemma alter_last {A} (f : A -> A) (l : list A) (x : A) :
  alter f (length l) (l ++ [x]) = l ++ [f x].
Proof.
  replace (length l) with (length l + 0)%nat by lia.
  rewrite (alter_app_r f l [x] 0). reflexivity.
Qed.

Lemma lookup_last {A} (l : list A) (x : A) : (l ++ [x]) !! length l = Some x.
Proof. by rewrite list_lookup_middle. Qed.

Lemma findComponent_last n p c :
  findComponent n p = None -> vbcName c = Some n ->
  findComponent n (p ++ [c]) = Some (length p).
Proof.
  intros Hp Hc. induction p as [|c0 p IH]; simpl in *.
  - by rewrite decide_True.
  - destruct (decide (vbcName c0 = Some n)); [done|].
    destruct (findComponent n p); [done|]. by rewrite IH.
Qed.

Ltac svc_unfold :=
  cbv beta iota delta [tryCatch bind com getProject modifyProject onComponent onControl
    ret throw VBComponents_Add VBComponents_Item Controls_Add
    CodeModule_Lines CodeModule_AddFromString setWordApp].

Lemma createUserForm_accepting h formName caption width height w :
  accepting h ->
  createUserForm h formName caption width height w
  = (Returned tt, mkWorld true (project w ++ [builtForm formName caption width height])).
Proof.
  intros Hacc. pose proof Hacc as [Hf _].
  unfold createUserForm, bind.
  rewrite (getActiveDocument_accepting h w Hacc).
  unfold builtForm, truthy.
  destruct caption as [s|]; [destruct (decide (s = ""))|];
    svc_unfold; repeat (progress (simpl; rewrite ?Hf, ?alter_last)); reflexivity.
Qed.

Lemma typeAt_last p c : typeAt (length p) (p ++ [c]) = vbcType c.
Proof. unfold typeAt. by rewrite lookup_last. Qed.

Lemma controlsAt_last p c : controlsAt (length p) (p ++ [c]) = dsgControls (vbcDesigner c).
Proof. unfold controlsAt. by rewrite lookup_last. Qed.

Lemma codeAt_last p c : codeAt (length p) (p ++ [c]) = vbcCode c.
Proof. unfold codeAt. by rewrite lookup_last. Qed.

Lemma addControlToUserForm_accepting h formName controlType controlName caption
    left top width height b p0 form :
  accepting h ->
  findComponent formName p0 = None ->
  vbcName form = Some formName ->
  vbcType form = 3 ->
  addControlToUserForm h formName controlType controlName caption left top width height
    (mkWorld b (p0 ++ [form]))
  = (Returned tt,
     mkWorld true (p0 ++ [attach (builtControl controlType controlName caption left top width height) form])).
Proof.
  intros Hacc Hp0 Hname Hty. pose proof Hacc as [Hf _].
  unfold addControlToUserForm, bind.
  rewrite (getActiveDocument_accepting h _ Hacc).
  unfold builtControl, attach, truthy.
  generalize (classIdOf controlType); intros classId.
  destruct form as [fname fty fcode [dcap dw dh dsp ctls]]; simpl in *; subst.
  destruct caption as [s|]; [destruct (decide (s = ""))|];
    svc_unfold; simpl; rewrite ?Hf; simpl;
    rewrite findComponent_last by done; simpl;
    rewrite ?typeAt_last; simpl;
    repeat (progress (simpl; rewrite ?Hf, ?alter_last, ?controlsAt_last));
    cbv beta iota delta [onDesigner onControls vbcName vbcType vbcCode vbcDesigner
                         dsgCaption dsgWidth dsgHeight dsgStartUpPosition dsgControls];
    simpl; rewrite ?alter_last; reflexivity.
Qed.

Lemma builtControl_spec ctrl :
  builtControl (type ctrl) (name ctrl) (captionOrEmpty (caption ctrl))
               (left ctrl) (top ctrl) (width ctrl) (height ctrl)
  = controlOf ctrl.
Proof.
  unfold builtControl, controlOf, captionOrEmpty.
  destruct (truthy (caption ctrl)) eqn:Ht; [by rewrite Ht | reflexivity].
Qed.

Lemma attachAll_attach c cs form :
  attachAll cs (attach c form) = attachAll (c :: cs) form.
Proof.
  destruct form as [? ? ? []]. unfold attachAll, attach, onDesigner, onControls; simpl.
  by rewrite <- app_assoc.
Qed.

Lemma attachAll_nil form : attachAll [] form = form.
Proof.
  destruct form as [? ? ? []]. unfold attachAll, onDesigner, onControls; simpl.
  by rewrite app_nil_r.
Qed.

Lemma addControls_accepting h formName controls : forall p0 form,
  accepting h ->
  findComponent formName p0 = None ->
  vbcName form = Some formName ->
  vbcType form = 3 ->
  addControls h formName controls (mkWorld true (p0 ++ [form]))
  = (Returned tt, mkWorld true (p0 ++ [attachAll (map controlOf controls) form])).
Proof.
  induction controls as [|ctrl rest IH]; intros p0 form Hacc Hp0 Hname Hty; simpl.
  - by rewrite attachAll_nil.
  - unfold bind.
    rewrite (addControlToUserForm_accepting h formName _ _ _ _ _ _ _ true p0 form) by done.
    rewrite builtControl_spec, IH by done.
    by rewrite attachAll_attach.
Qed.

Lemma addStandardFormEventHandlers_accepting h formName b p0 form :
  accepting h ->
  findComponent formName p0 = None ->
  vbcName form = Some formName ->
  vbcType form = 3 ->
  addStandardFormEventHandlers h formName (mkWorld b (p0 ++ [form]))
  = (Returned tt,
     mkWorld true (p0 ++ [if includes "btnOK_Click" (vbcCode form) then form
                          else withCode (vbcCode form +:+ buttonCode) form])).
Proof.
  intros Hacc Hp0 Hname Hty. pose proof Hacc as [Hf _].
  unfold addStandardFormEventHandlers, bind.
  rewrite (getActiveDocument_accepting h _ Hacc).
  svc_unfold; simpl; rewrite ?Hf; simpl.
  rewrite findComponent_last by done; simpl.
  rewrite typeAt_last, Hty; simpl.
  rewrite ?Hf; simpl. rewrite codeAt_last.
  destruct (includes "btnOK_Click" (vbcCode form)); simpl; [reflexivity|].
  rewrite ?Hf; simpl. by rewrite codeAt_last, alter_last.
Qed.

Lemma createFormWithControls_accepting h formName caption width height controls addStd w :
  accepting h ->
  findComponent formName (project w) = None ->
  createFormWithControls h formName caption width height controls addStd w
  = (Returned tt,
     mkWorld true (project w ++ [expectedForm formName caption width height controls addStd])).
Proof.
  intros Hacc Hfresh.
  unfold createFormWithControls, bind at 1.
  rewrite (getActiveDocument_accepting h w Hacc).
  unfold tryCatch, bind at 1.
  rewrite createUserForm_accepting by done. simpl project.
  unfold bind at 1.
  rewrite addControls_accepting by done.
  destruct addStd.
  - unfold bind.
    rewrite addControlToUserForm_accepting by done.
    rewrite addControlToUserForm_accepting by done.
    rewrite addStandardFormEventHandlers_accepting by done.
    unfold expectedForm, attach, attachAll, builtForm, builtControl, onDesigner, onControls,
      standardButtons; simpl.
    rewrite <- !app_assoc. reflexivity.
  - unfold ret, expectedForm, attachAll, builtForm, onDesigner, onControls; simpl.
    by rewrite app_nil_r.
Qed.

(** ** What any host leaves in place *)

Lemma keeps_refl c : keeps c c.
Proof. by repeat split. Qed.

Lemma keeps_trans c1 c2 c3 : keeps c1 c2 -> keeps c2 c3 -> keeps c1 c3.
Proof.
  intros (?&?&?) (?&?&?). repeat split; try congruence. by etrans.
Qed.

Lemma retains_refl p : retains p p.
Proof. apply Forall_Forall2_diag, Forall_forall. intros. apply keeps_refl. Qed.

Lemma retains_trans p1 p2 p3 : retains p1 p2 -> retains p2 p3 -> retains p1 p3.
Proof.
  unfold retains. intros H12. revert p3.
  induction H12; intros p3 H23; inversion H23; subst; constructor; eauto using keeps_trans.
Qed.

Lemma retains_alter F i p :
  (forall c, p !! i = Some c -> keeps c (F c)) -> retains p (alter F i p).
Proof.
  revert i. induction p as [|c p IH]; intros i HF; [constructor|].
  destruct i; simpl.
  - constructor; [by apply HF | apply retains_refl].
  - constructor; [apply keeps_refl | apply IH; intros; by apply HF].
Qed.

Lemma retains_length p p' : retains p p' -> length p = length p'.
Proof. apply Forall2_length. Qed.

Ltac destruct_faults h :=
  repeat match goal with
         | |- context [fault h ?p ?c] => destruct (fault h p c) eqn:?; simpl
         end.

Lemma alter_alter {A} (f g : A -> A) i (l : list A) :
  alter f i (alter g i l) = alter (f ∘ g) i l.
Proof. apply list_alter_alter_eq. Qed.

Ltac retains_solve :=
  rewrite ?alter_alter;
  first [ apply retains_refl
        | apply retains_alter;
          let c := fresh "c" in let Hc := fresh "Hc" in
          intros c Hc; unfold controlsAt; rewrite ?Hc;
          destruct c as [? ? ? []]; unfold keeps, onDesigner, onControls; simpl;
          rewrite ?alter_last; repeat split;
          first [ reflexivity | by apply prefix_app_r ] ].

Lemma addControlToUserForm_retains h formName controlType controlName caption
    left top width height w r w' :
  addControlToUserForm h formName controlType controlName caption left top width height w
  = (r, w') ->
  retains (project w) (project w').
Proof.
  unfold addControlToUserForm, bind.
  destruct (getActiveDocument h w) as [[[]|e] w1] eqn:Hdoc;
    apply getActiveDocument_project in Hdoc; rewrite <- Hdoc;
    [| intros [= <- <-]; apply retains_refl].
  clear Hdoc w. destruct w1 as [b p]. 
  svc_unfold; simpl.
  destruct (fault h p (VBComponentsItem formName)); simpl;
    [intros [= <- <-]; apply retains_refl|].
  destruct (findComponent formName p) as [i|]; simpl;
    [| intros [= <- <-]; apply retains_refl].
  destruct (decide (typeAt i p = 3)); simpl;
    [| intros [= <- <-]; apply retains_refl].
  destruct (truthy caption); destruct_faults h; intros [= <- <-]; simpl; retains_solve.
Qed.

Lemma getActiveDocument_errName h w e w' :
  getActiveDocument h w = (Thrown e, w') -> errName e = "Error".
Proof.
  unfold getActiveDocument, getWordApplication.
  destruct w as [[] p]; svc_unfold; simpl; destruct_faults h;
    try destruct (activeDocument h); simpl; intros [= <- <-]; reflexivity.
Qed.

Lemma createUserForm_project h formName caption width height w r w' :
  createUserForm h formName caption width height w = (r, w') ->
  exists extra,
    project w' = project w ++ extra /\ (length extra <= 1)%nat /\
    (forall wd, getActiveDocument h w = (Returned tt, wd) ->
                fault h (project w) (VBComponentsAdd 3) = None ->
                length extra = 1%nat).
Proof.
  unfold createUserForm, bind.
  destruct (getActiveDocument h w) as [[[]|e] w1] eqn:Hdoc;
    apply getActiveDocument_project in Hdoc; rewrite <- Hdoc;
    [| intros [= <- <-]; exists []; rewrite app_nil_r; simpl; repeat split; [lia | done] ].
  clear Hdoc w. destruct w1 as [b p].
  svc_unfold; simpl.
  destruct (fault h p (VBComponentsAdd 3)) eqn:Hadd; simpl;
    [intros [= <- <-]; exists []; rewrite app_nil_r; simpl; repeat split; [lia | done] |].
  destruct (truthy caption); destruct_faults h; intros [= <- <-]; simpl;
    rewrite ?alter_alter, ?alter_last; eexists [_]; repeat split; simpl; lia.
Qed.

Lemma bind_inv {A B} (m : Svc A) (k : A -> Svc B) w r w' :
  bind m k w = (r, w') ->
  (exists e, m w = (Thrown e, w') /\ r = Thrown e) \/
  (exists a w1, m w = (Returned a, w1) /\ k a w1 = (r, w')).
Proof.
  unfold bind. destruct (m w) as [[a|e] w1]; intros Hk.
  - right. by exists a, w1.
  - injection Hk as <- <-. left. by exists e.
Qed.

Lemma rethrow_errName {A} (m : Svc A) (msg : JsError -> string) w e w' :
  tryCatch m (fun error => throw (newError (msg error))) w = (Thrown e, w') ->
  errName e = "Error".
Proof.
  unfold tryCatch, throw. destruct (m w) as [[a|e0] w1]; intros [= <- <-]. reflexivity.
Qed.

Lemma createUserForm_errName h formName caption width height w e w' :
  createUserForm h formName caption width height w = (Thrown e, w') ->
  errName e = "Error".
Proof.
  unfold createUserForm. intros Hrun.
  apply bind_inv in Hrun as [(e0 & Hdoc & [= <-])|(a & w1 & _ & Hrun)].
  - eapply getActiveDocument_errName, Hdoc.
  - eapply rethrow_errName, Hrun.
Qed.

Lemma addStandardFormEventHandlers_retains h formName w r w' :
  addStandardFormEventHandlers h formName w = (r, w') ->
  retains (project w) (project w').
Proof.
  unfold addStandardFormEventHandlers, bind.
  destruct (getActiveDocument h w) as [[[]|e] w1] eqn:Hdoc;
    apply getActiveDocument_project in Hdoc; rewrite <- Hdoc;
    [| intros [= <- <-]; apply retains_refl].
  clear Hdoc w. destruct w1 as [b p].
  svc_unfold; simpl.
  destruct (fault h p (VBComponentsItem formName)); simpl;
    [intros [= <- <-]; apply retains_refl|].
  destruct (findComponent formName p) as [i|]; simpl;
    [| intros [= <- <-]; apply retains_refl].
  destruct (decide (typeAt i p = 3)); simpl;
    [| intros [= <- <-]; apply retains_refl].
  destruct_faults h; try (intros [= <- <-]; apply retains_refl).
  destruct (includes "btnOK_Click" (codeAt i p)); simpl;
    destruct_faults h; intros [= <- <-]; simpl; try apply retains_refl.
  apply retains_alter. intros c _. by repeat split.
Qed.

Lemma addControls_retains h formName controls : forall w r w',
  addControls h formName controls w = (r, w') ->
  retains (project w) (project w').
Proof.
  induction controls as [|ctrl rest IH]; intros w r w'; simpl.
  - intros [= <- <-]. apply retains_refl.
  - unfold bind.
    destruct (addControlToUserForm h formName (type ctrl) (name ctrl)
                (captionOrEmpty (caption ctrl)) (left ctrl) (top ctrl)
                (width ctrl) (height ctrl) w) as [[[]|e] w1] eqn:Hadd;
      apply addControlToUserForm_retains in Hadd.
    + intros Hrest. apply IH in Hrest. by eapply retains_trans.
    + by intros [= <- <-].
Qed.

(** The loop stops at the first control whose creation throws. *)
Lemma addControls_stops h formName pre ctrl post : forall w w1 e w2,
  addControls h formName pre w = (Returned tt, w1) ->
  addControlToUserForm h formName (type ctrl) (name ctrl)
    (captionOrEmpty (caption ctrl)) (left ctrl) (top ctrl) (width ctrl) (height ctrl) w1
  = (Thrown e, w2) ->
  addControls h formName (pre ++ ctrl :: post) w = (Thrown e, w2).
Proof.
  induction pre as [|c pre IH]; intros w w1 e w2; simpl.
  - intros [= <-] Hfail. unfold bind. by rewrite Hfail.
  - unfold bind.
    destruct (addControlToUserForm h formName (type c) (name c)
                (captionOrEmpty (caption c)) (left c) (top c)
                (width c) (height c) w) as [[[]|e0] w0]; [|done].
    apply IH.
Qed.

Lemma getActiveDocument_Returned h w wd :
  getActiveDocument h w = (Returned tt, wd) ->
  wd = mkWorld true (project w) /\
  fault h (project w) GetActiveDocument = None /\
  activeDocument h = true /\
  ((wordApp w = true /\ fault h (project w) ProbeWordApplication = None) \/
   (fault h (project w) NewWordApplication = None /\
    fault h (project w) SetVisible = None)).
Proof.
  intros H. unfold getActiveDocument, getWordApplication in H.
  destruct w as [[] p]; revert H; svc_unfold; simpl;
    repeat match goal with
           | |- context [fault h ?p ?c] => destruct (fault h p c) eqn:?; simpl
           end;
    try destruct (activeDocument h); simpl; intros [= <-]; auto 10.
Qed.

Lemma getActiveDocument_again h w wd :
  getActiveDocument h w = (Returned tt, wd) ->
  getActiveDocument h wd = (Returned tt, wd).
Proof.
  intros H. apply getActiveDocument_Returned in H as (-> & Hdoc & Hact & Happ).
  unfold getActiveDocument, getWordApplication. svc_unfold; simpl.
  destruct Happ as [[_ Hprobe]|[Hnew Hvis]].
  - rewrite Hprobe; simpl. rewrite Hdoc; simpl. by rewrite Hact.
  - destruct (fault h (project w) ProbeWordApplication); simpl;
      rewrite ?Hnew; simpl; rewrite ?Hvis; simpl; rewrite Hdoc; simpl; by rewrite Hact.
Qed.

(** What follows the creation of the container in [createFormWithControls]
    adds no component and removes nothing. *)
Lemma createFormWithControls_rest_retains h formName (formWidth formHeight : Z)
    controls (addStandardButtons : bool) w r w' :
  (addControls h formName controls ;;
   if addStandardButtons then
     let buttonTop := jsSub formHeight 60 in
     let buttonRight := jsSub formWidth 20 in
     addControlToUserForm h formName "commandButton" "btnOK" (Some "OK")
       (jsSub buttonRight 160) buttonTop 70 30 ;;
     addControlToUserForm h formName "commandButton" "btnCancel" (Some "Cancel")
       (jsSub buttonRight 80) buttonTop 70 30 ;;
     addStandardFormEventHandlers h formName
   else ret tt) w = (r, w') ->
  retains (project w) (project w').
Proof.
  intros Hrun.
  apply bind_inv in Hrun as [(e & Hc & _)|([] & w1 & Hc & Hrun)];
    apply addControls_retains in Hc; [done|].
  eapply retains_trans; [exact Hc|]. clear Hc.
  destruct addStandardButtons; [| injection Hrun as _ <-; apply retains_refl].
  simpl in Hrun.
  apply bind_inv in Hrun as [(e & Hc & _)|([] & w2 & Hc & Hrun)];
    apply addControlToUserForm_retains in Hc; [done|].
  eapply retains_trans; [exact Hc|]. clear Hc.
  apply bind_inv in Hrun as [(e & Hc & _)|([] & w3 & Hc & Hrun)];
    apply addControlToUserForm_retains in Hc; [done|].
  eapply retains_trans; [exact Hc|]. clear Hc.
  eapply addStandardFormEventHandlers_retains, Hrun.
Qed.

Lemma createFormWithControls_errName h formName formCaption formWidth formHeight
    controls addStandardButtons w e w' :
  createFormWithControls h formName formCaption formWidth formHeight controls
    addStandardButtons w = (Thrown e, w') ->
  errName e = "Error".
Proof.
  unfold createFormWithControls. intros Hrun.
  apply bind_inv in Hrun as [(e0 & Hdoc & [= <-])|(a & w1 & _ & Hrun)].
  - eapply getActiveDocument_errName, Hdoc.
  - eapply rethrow_errName, Hrun.
Qed.

Lemma createFormWithControls_container h formName formCaption formWidth formHeight
    controls addStandardButtons w wd r w' :
  getActiveDocument h w = (Returned tt, wd) ->
  fault h (project w) (VBComponentsAdd 3) = None ->
  createFormWithControls h formName formCaption formWidth formHeight controls
    addStandardButtons w = (r, w') ->
  length (project w') = S (length (project w)).
Proof.
  intros Hdoc Hadd. unfold createFormWithControls, bind at 1. rewrite Hdoc.
  pose proof (getActiveDocument_project _ _ _ _ Hdoc) as Hp.
  apply getActiveDocument_again in Hdoc.
  unfold tryCatch.
  match goal with |- context [let (_, _) := ?m wd in _] =>
    destruct (m wd) as [r0 w0] eqn:Hbody end.
  assert (length (project w0) = S (length (project w))) as Hlen.
  { apply bind_inv in Hbody as [(e & Hc & _)|([] & w1 & Hc & Hrest)].
    - apply createUserForm_project in Hc as (extra & Hex & _ & Hone).
      rewrite Hex, length_app, (Hone wd), Hp by (done || by rewrite Hp). lia.
    - apply createUserForm_project in Hc as (extra & Hex & _ & Hone).
      apply createFormWithControls_rest_retains, retains_length in Hrest.
      rewrite <- Hrest, Hex, length_app, (Hone wd), Hp by (done || by rewrite Hp). lia. }
  destruct r0; unfold throw; intros [= <- <-]; exact Hlen.
Qed.

Lemma roundToDouble_exact x : - 2 ^ 53 < x < 2 ^ 53 -> roundToDouble x = x.
Proof.
  change (2 ^ 53) with 9007199254740992. intros Hx. unfold roundToDouble.
  destruct (Z.ltb_spec (Z.log2 (Z.abs x)) 53) as [|Hlog]; [done|].
  exfalso. destruct (decide (Z.abs x = 0)) as [H0|H0].
  - rewrite H0 in Hlog. vm_compute in Hlog. by apply Hlog.
  - assert (Z.log2 (Z.abs x) < 53); [|lia].
    apply Z.log2_lt_pow2; [lia|]. change (2 ^ 53) with 9007199254740992. lia.
Qed.

Lemma jsSub_exact a b : - 2 ^ 53 < a - b < 2 ^ 53 -> jsSub a b = a - b.
Proof. apply roundToDouble_exact. Qed.

Lemma bind_ext {A B} (m : Svc A) (k k' : A -> Svc B) w :
  (forall a w1, k a w1 = k' a w1) -> bind m k w = bind m k' w.
Proof. intros Hk. unfold bind. destruct (m w) as [[a|e] w1]; [apply Hk | reflexivity]. Qed.

Lemma tryCatch_ext {A} (m m' : Svc A) (handler : JsError -> Svc A) w :
  m w = m' w -> tryCatch m handler w = tryCatch m' handler w.
Proof. intros Hm. unfold tryCatch. by rewrite Hm. Qed.

Lemma addControls_app h formName pre post w :
  addControls h formName (pre ++ post) w
  = (addControls h formName pre ;; addControls h formName post) w.
Proof.
  revert w. induction pre as [|c pre IH]; intros w; simpl; [reflexivity|].
  unfold bind.
  destruct (addControlToUserForm h formName (type c) (name c) (captionOrEmpty (caption c))
              (left c) (top c) (width c) (height c) w) as [[[]|e] w1]; [|reflexivity].
  rewrite IH. reflexivity.
Qed.

(** The calls of [createFormWithControls] that add a control, as one list:
    those of the loop, then those for the standard buttons. *)
Lemma createFormWithControls_calls h formName formCaption formWidth formHeight
    controls addStandardButtons w :
  createFormWithControls h formName formCaption formWidth formHeight controls
    addStandardButtons w
  = (getActiveDocument h ;;
     tryCatch
       (createUserForm h formName (Some formCaption) formWidth formHeight ;;
        addControls h formName
          (controls ++ (if addStandardButtons
                        then standardSpecs formWidth formHeight else [])) ;;
        if addStandardButtons then addStandardFormEventHandlers h formName else ret tt)
       (fun error =>
          throw (newError ("Failed to create form '" +:+ formName +:+ "'. Error: "
                           +:+ errToString error)))) w.
Proof.
  unfold createFormWithControls.
  apply bind_ext; intros [] wd. apply tryCatch_ext.
  apply bind_ext; intros [] w0.
  destruct addStandardButtons.
  - unfold bind. rewrite addControls_app. unfold bind.
    destruct (addControls h formName controls w0) as [[[]|e] w1]; [|reflexivity].
    cbn [standardSpecs addControls type name caption left top width height].
    change (captionOrEmpty (Some "OK")) with (Some "OK").
    change (captionOrEmpty (Some "Cancel")) with (Some "Cancel").
    unfold bind, ret.
    repeat match goal with
           | |- context [addControlToUserForm h ?a ?b ?c ?d ?e ?f ?g ?i ?w] =>
               destruct (addControlToUserForm h a b c d e f g i w) as [[[]|?] ?]
           end; reflexivity.
  - rewrite app_nil_r. reflexivity.
Qed.

Lemma createUserForm_Returned h formName caption width height w w' :
  createUserForm h formName caption width height w = (Returned tt, w') ->
  exists form,
    project w' = project w ++ [form] /\ vbcName form = Some formName /\ vbcType form = 3.
Proof.
  unfold createUserForm, bind.
  destruct (getActiveDocument h w) as [[[]|e] w1] eqn:Hdoc;
    apply getActiveDocument_project in Hdoc; rewrite <- Hdoc; [|done].
  clear Hdoc w. destruct w1 as [b p].
  svc_unfold; simpl.
  destruct (fault h p (VBComponentsAdd 3)) eqn:Hadd; simpl; [done|].
  destruct (truthy caption); destruct_faults h; intros Hrun;
    try discriminate Hrun; injection Hrun as <-; simpl;
    rewrite ?alter_alter, ?alter_last; eexists; repeat split.
Qed.

(** ** Form construction *)

(** C4. Whatever size is asked for, the form [createUserForm] creates is
    [max width 300] wide and [max height 200] high: a width below 300 becomes
    exactly 300 and a height below 200 exactly 200, and the request is not
    refused. *)
Theorem createUserForm_clamps_size h formName caption width height w :
  accepting h ->
  exists form,
    createUserForm h formName caption width height w
    = (Returned tt, mkWorld true (project w ++ [form])) /\
    vbcName form = Some formName /\
    dsgWidth (vbcDesigner form) = Some (Z.max width 300) /\
    dsgHeight (vbcDesigner form) = Some (Z.max height 200) /\
    (width < 300 -> dsgWidth (vbcDesigner form) = Some 300) /\
    (height < 200 -> dsgHeight (vbcDesigner form) = Some 200).
Proof.
  intros Hacc. exists (builtForm formName caption width height).
  split; [by apply createUserForm_accepting|].
  simpl. repeat split.
  - intros Hw. f_equal. lia.
  - intros Hh. f_equal. lia.
Qed.

Lemma createUserForm_clamps_size_witness :
  exists form,
    createUserForm (lenientHost [] ConfirmClicked) "SizeTestForm" (Some "Size Test") 1 1
      (mkWorld false [])
    = (Returned tt, mkWorld true ([] ++ [form])) /\
    dsgWidth (vbcDesigner form) = Some 300 /\
    dsgHeight (vbcDesigner form) = Some 200.
Proof.
  destruct (createUserForm_clamps_size (lenientHost [] ConfirmClicked) "SizeTestForm"
              (Some "Size Test") 1 1 (mkWorld false []))
    as (form & Hrun & _ & _ & _ & Hw & Hh).
  - apply accepting_lenient.
  - exists form. split; [exact Hrun|]. split; [apply Hw | apply Hh]; reflexivity.
Defined.




(** C8. Once the active document is there and [createUserForm] has returned,
    whatever fails next makes [createFormWithControls] throw an error whose
    message names the form, and it stops there.  The calls that add a control
    are those for the input controls followed, when [addStandardButtons] is
    set, by those for btnOK and btnCancel.  When one of them throws, the state
    is the one the failing call left, in which every component, the form
    container among them, still has its name, its type and, at the head of
    its control list, the controls it had before the failing call; the same
    holds when every control was added and the injection of the handlers
    throws; and whichever step throws, the project keeps what it held when
    [createUserForm] returned, the container created by then included.
    Nothing is undone. *)
Theorem createFormWithControls_no_rollback h formName formCaption formWidth formHeight
    (controls : list ControlSpec) (addStandardButtons : bool) w wd w0 :
  getActiveDocument h w = (Returned tt, wd) ->
  createUserForm h formName (Some formCaption) formWidth formHeight wd = (Returned tt, w0) ->
  (exists form,
     project w0 = project w ++ [form] /\
     vbcName form = Some formName /\ vbcType form = 3) /\
  (forall pre ctrl post w1 e w2,
     controls ++ (if addStandardButtons then standardSpecs formWidth formHeight else [])
     = pre ++ ctrl :: post ->
     addControls h formName pre w0 = (Returned tt, w1) ->
     addControlToUserForm h formName (type ctrl) (name ctrl) (captionOrEmpty (caption ctrl))
       (left ctrl) (top ctrl) (width ctrl) (height ctrl) w1 = (Thrown e, w2) ->
     createFormWithControls h formName formCaption formWidth formHeight controls
       addStandardButtons w
     = (Thrown (newError ("Failed to create form '" +:+ formName +:+ "'. Error: "
                          +:+ errToString e)), w2)
     /\ retains (project w1) (project w2)
     /\ retains (project w0) (project w2)) /\
  (forall w1 e w2,
     addStandardButtons = true ->
     addControls h formName (controls ++ standardSpecs formWidth formHeight) w0
     = (Returned tt, w1) ->
     addStandardFormEventHandlers h formName w1 = (Thrown e, w2) ->
     createFormWithControls h formName formCaption formWidth formHeight controls
       addStandardButtons w
     = (Thrown (newError ("Failed to create form '" +:+ formName +:+ "'. Error: "
                          +:+ errToString e)), w2)
     /\ retains (project w1) (project w2)
     /\ retains (project w0) (project w2)) /\
  (forall e w',
     createFormWithControls h formName formCaption formWidth formHeight controls
       addStandardButtons w = (Thrown e, w') ->
     retains (project w0) (project w') /\
     exists e0,
       e = newError ("Failed to create form '" +:+ formName +:+ "'. Error: "
                     +:+ errToString e0)).
Proof.
  intros Hdoc Hform.
  assert (forall (r : Outcome unit) w',
            (addControls h formName
               (controls ++ (if addStandardButtons
                             then standardSpecs formWidth formHeight else [])) ;;
             if addStandardButtons then addStandardFormEventHandlers h formName
             else ret tt) w0 = (r, w') ->
            createFormWithControls h formName formCaption formWidth formHeight controls
              addStandardButtons w
            = (match r with
               | Returned a => Returned a
               | Thrown e =>
                   Thrown (newError ("Failed to create form '" +:+ formName
                                     +:+ "'. Error: " +:+ errToString e))
               end, w')) as Hbody.
  { intros r w' Hrest. rewrite createFormWithControls_calls.
    unfold bind at 1. rewrite Hdoc. unfold tryCatch, bind at 1. rewrite Hform, Hrest.
    by destruct r. }
  split; [|split; [|split]].
  - apply createUserForm_Returned in Hform as (form & Hp & Hn & Hty).
    apply getActiveDocument_project in Hdoc. rewrite Hdoc in Hp. by exists form.
  - intros pre ctrl post w1 e w2 Hcalls Hpre Hfail.
    pose proof (addControls_stops h formName pre ctrl post w0 w1 e w2 Hpre Hfail) as Hloop.
    split; [|split].
    + apply (Hbody (Thrown e) w2). unfold bind. by rewrite Hcalls, Hloop.
    + eapply addControlToUserForm_retains, Hfail.
    + eapply addControls_retains, Hloop.
  - intros w1 e w2 -> Hadd Hinject.
    split; [|split].
    + apply (Hbody (Thrown e) w2). unfold bind. by rewrite Hadd.
    + eapply addStandardFormEventHandlers_retains, Hinject.
    + eapply retains_trans; [eapply addControls_retains, Hadd|].
      eapply addStandardFormEventHandlers_retains, Hinject.
  - intros e w' Hrun.
    unfold createFormWithControls, bind at 1 in Hrun. rewrite Hdoc in Hrun.
    unfold tryCatch, bind at 1 in Hrun. rewrite Hform in Hrun.
    match type of Hrun with (let (_, _) := ?m w0 in _) = _ =>
      destruct (m w0) as [[[]|e0] w3] eqn:Hrest end; [done|].
    unfold throw in Hrun. injection Hrun as <- <-.
    split; [eapply createFormWithControls_rest_retains, Hrest | by exists e0].
Qed.

Lemma createFormWithControls_no_rollback_witness :
  exists e w2,
    createFormWithControls (strictHost [] ConfirmClicked) "ContactForm" "Contact" 400 300
      [mkSpec "textBox" "btnOK" None 20 20 200 22] true (mkWorld false [])
    = (Thrown (newError ("Failed to create form '" +:+ "ContactForm" +:+ "'. Error: "
                         +:+ errToString e)), w2)
    /\ vbcName <$> project w2 = [Some "ContactForm"]
    /\ ctlName <$> controlsAt 0 (project w2) = [Some "btnOK"; None].
Proof.
  eexists _, _.
  edestruct (createFormWithControls_no_rollback (strictHost [] ConfirmClicked)
               "ContactForm" "Contact" 400 300
               [mkSpec "textBox" "btnOK" None 20 20 200 22] true (mkWorld false []))
    as (_ & Hcontrol & _).
  - vm_compute. reflexivity.
  - vm_compute. reflexivity.
  - edestruct (Hcontrol [mkSpec "textBox" "btnOK" None 20 20 200 22]
                 (mkSpec "commandButton" "btnOK" (Some "OK") 220 240 70 30)
                 [mkSpec "commandButton" "btnCancel" (Some "Cancel") 300 240 70 30])
      as (Hrun & _ & _).
    + vm_compute. reflexivity.
    + vm_compute. reflexivity.
    + vm_compute. reflexivity.
    + split; [exact Hrun|]. split; vm_compute; reflexivity.
Defined.

(** C5, as the claim has it, fails: two descriptors named txtEmail are not
    refused before the host is called.  A host that accepts every call builds
    the form with both controls; a host that refuses the second name makes the
    call fail with a plain Error, after the container and the first control
    have been created. *)
Lemma duplicate_names_reach_the_host :
  ~ NoDup (name <$> twoEmails) /\
  (exists w',
     createFormWithControls (lenientHost [] ConfirmClicked) "ContactForm" "Contact" 400 300
       twoEmails true (mkWorld false []) = (Returned tt, w') /\
     ctlName <$> controlsAt 0 (project w')
     = [Some "txtEmail"; Some "txtEmail"; Some "btnOK"; Some "btnCancel"]) /\
  (exists e w',
     createFormWithControls (strictHost [] ConfirmClicked) "ContactForm" "Contact" 400 300
       twoEmails true (mkWorld false []) = (Thrown e, w') /\
     errName e = "Error" /\
     errName e <> "ValidationError" /\
     vbcName <$> project w' = [Some "ContactForm"] /\
     ctlName <$> controlsAt 0 (project w') = [Some "txtEmail"; None]).
Proof.
  split; [|split].
  - intros Hnd. vm_compute in Hnd. inversion Hnd as [|? ? Hnotin _]; subst.
    apply Hnotin. constructor.
  - eexists. split; [vm_compute; reflexivity|]. vm_compute. reflexivity.
  - eexists _, _. split; [vm_compute; reflexivity|].
    repeat split; try (vm_compute; reflexivity). discriminate.
Qed.

(** C5, amended.  [createFormWithControls] does not look for duplicate names.
    For a control list with a repeated name: if the host refuses nothing (and
    no component bears the form's name yet) the call returns and the form has
    the repeated name on two controls; and on any host, an error it throws is
    a plain Error, and once the active document is there and the host lets a
    form component be added, the call leaves one component more than it found,
    whether it returns or throws. *)
Theorem createFormWithControls_no_validation h formName formCaption formWidth formHeight
    controls addStandardButtons w :
  ~ NoDup (name <$> controls) ->
  (accepting h -> findComponent formName (project w) = None ->
   exists form,
     createFormWithControls h formName formCaption formWidth formHeight controls
       addStandardButtons w = (Returned tt, mkWorld true (project w ++ [form])) /\
     ~ NoDup (ctlName <$> dsgControls (vbcDesigner form))) /\
  (forall r w',
     createFormWithControls h formName formCaption formWidth formHeight controls
       addStandardButtons w = (r, w') ->
     (forall e, r = Thrown e -> errName e = "Error") /\
     (forall wd, getActiveDocument h w = (Returned tt, wd) ->
                 fault h (project w) (VBComponentsAdd 3) = None ->
                 length (project w') = S (length (project w)))).
Proof.
  intros Hdup. split.
  - intros Hacc Hfresh.
    exists (expectedForm formName formCaption formWidth formHeight controls addStandardButtons).
    split; [by apply createFormWithControls_accepting|].
    simpl. rewrite fmap_app. intros Hnd. apply NoDup_app in Hnd as (Hnd & _ & _).
    apply Hdup. rewrite <- list_fmap_compose in Hnd.
    apply (NoDup_fmap_1 Some). by rewrite <- list_fmap_compose.
  - intros r w' Hrun. split.
    + intros e ->. eapply createFormWithControls_errName, Hrun.
    + intros wd Hdoc Hadd. eapply createFormWithControls_container; eauto.
Qed.

Lemma createFormWithControls_no_validation_witness :
  exists form,
    createFormWithControls (lenientHost [] ConfirmClicked) "ContactForm" "Contact" 400 300
      twoEmails true (mkWorld false []) = (Returned tt, mkWorld true ([] ++ [form])) /\
    ~ NoDup (ctlName <$> dsgControls (vbcDesigner form)).
Proof.
  apply (createFormWithControls_no_validation (lenientHost [] ConfirmClicked)
           "ContactForm" "Contact" 400 300 twoEmails true (mkWorld false [])).
  - intros Hnd. vm_compute in Hnd. inversion Hnd as [|? ? Hnotin _]; subst.
    apply Hnotin. constructor.
  - apply accepting_lenient.
  - reflexivity.
Defined.

(** C6, as the claim has it, fails: a second [createUserForm] under the name
    of an existing form is refused by nothing in the service.  On a host that
    accepts the calls it returns and the project holds two components of that
    name; on a host that refuses the name the error is a plain Error and the
    component just added stays behind, unnamed. *)
Lemma second_form_of_same_name :
  let first := builtForm "ContactForm" (Some "Contact") 400 300 in
  createUserForm (lenientHost [] ConfirmClicked) "ContactForm" (Some "Contact") 400 300
    (mkWorld false []) = (Returned tt, mkWorld true [first]) /\
  createUserForm (lenientHost [] ConfirmClicked) "ContactForm" (Some "Other") 500 400
    (mkWorld true [first])
  = (Returned tt, mkWorld true [first; builtForm "ContactForm" (Some "Other") 500 400]) /\
  (exists e,
     createUserForm (strictHost [] ConfirmClicked) "ContactForm" (Some "Other") 500 400
       (mkWorld true [first])
     = (Thrown e, mkWorld true [first; newComponent 3]) /\
     errName e = "Error" /\
     errName e <> "DuplicateFormError").
Proof.
  split; [vm_compute; reflexivity|].
  split; [vm_compute; reflexivity|].
  eexists. split; [vm_compute; reflexivity|].
  split; [reflexivity | discriminate].
Qed.

(** C6, amended.  [createUserForm] has no check of its own for a name in use.
    On any host and in any project, whatever the outcome, the components that
    were there stay as they were, the call adding at most one component after
    them, and an error it throws is a plain Error; and on a host that refuses
    nothing the call returns and adds a form of the requested name, also when
    the project already holds one. *)
Theorem createUserForm_no_duplicate_check h formName caption width height w :
  (forall r w',
     createUserForm h formName caption width height w = (r, w') ->
     (exists extra, project w' = project w ++ extra /\ (length extra <= 1)%nat) /\
     (forall e, r = Thrown e -> errName e = "Error")) /\
  (accepting h ->
   createUserForm h formName caption width height w
   = (Returned tt, mkWorld true (project w ++ [builtForm formName caption width height]))).
Proof.
  split.
  - intros r w' Hrun. split.
    + apply createUserForm_project in Hrun as (extra & Hex & Hlen & _). by exists extra.
    + intros e ->. eapply createUserForm_errName, Hrun.
  - apply createUserForm_accepting.
Qed.

Lemma createUserForm_no_duplicate_check_witness :
  createUserForm (lenientHost [] ConfirmClicked) "ContactForm" (Some "Other") 500 400
    (mkWorld true [builtForm "ContactForm" (Some "Contact") 400 300])
  = (Returned tt,
     mkWorld true ([builtForm "ContactForm" (Some "Contact") 400 300]
                   ++ [builtForm "ContactForm" (Some "Other") 500 400])).
Proof.
  apply (createUserForm_no_duplicate_check (lenientHost [] ConfirmClicked) "ContactForm"
           (Some "Other") 500 400
           (mkWorld true [builtForm "ContactForm" (Some "Contact") 400 300])).
  apply accepting_lenient.
Defined.

(** ** Modal data collection *)

Lemma extractControl_stored c k v :
  extractControl c = Reads (Some (k, v)) ->
  lcName c = Reads k /\ v <> JUndefined /\
  (lcValue c = Reads v \/ lcText c = Reads v \/ lcCaption c = Reads v).
Proof.
  unfold extractControl.
  destruct (lcName c) as [|n]; [done|].
  destruct (lcValue c) as [|val]; [done|].
  destruct (decide (val = JUndefined)).
  - destruct (lcText c) as [|t]; [done|].
    destruct (decide (t = JUndefined)).
    + destruct (lcCaption c) as [|cap]; [done|].
      destruct (decide (cap = JUndefined)); [done|].
      intros [= <- <-]. auto.
    + intros [= <- <-]. auto.
  - intros [= <- <-]. auto.
Qed.

Lemma assign_cases n v (m : gmap string JsValue) b :
  (n = "__proto__" /\ assign n v m b = (m, if decide (v = JNull) then false else true)) \/
  (exists b', assign n v m b = (<[n := v]> m, b')).
Proof.
  unfold assign. destruct (decide (n = "__proto__")); [destruct b|]; eauto.
Qed.

Lemma assign_other n v (m : gmap string JsValue) b :
  n <> "__proto__" -> assign n v m b = (<[n := v]> m, b).
Proof. intros Hn. unfold assign. by rewrite decide_False. Qed.

Lemma collectInto_keeps controls : forall (m : gmap string JsValue) b k,
  is_Some (m !! k) -> is_Some (collectInto controls m b !! k).
Proof.
  induction controls as [|c rest IH]; intros m b k Hk; simpl; [done|].
  destruct (extractControl c) as [|[[n v]|]]; [done| |by apply IH].
  destruct (assign_cases n v m b) as [[_ ->]|[b' ->]]; apply IH; [done|].
  destruct (decide (n = k)) as [->|Hne].
  - rewrite lookup_insert_eq. by eexists.
  - by rewrite lookup_insert_ne.
Qed.

Lemma collectInto_keys controls : forall (m : gmap string JsValue) b k,
  is_Some (collectInto controls m b !! k) ->
  is_Some (m !! k) \/
  exists c v, c ∈ controls /\ extractControl c = Reads (Some (k, v)).
Proof.
  induction controls as [|c rest IH]; intros m b k; simpl; [auto|].
  destruct (extractControl c) as [|[[n v]|]] eqn:Hc; [auto| |].
  - destruct (assign_cases n v m b) as [[_ ->]|[b' ->]];
      intros Hk; apply IH in Hk as [Hk|(c' & v' & Hin & Hc')].
    + by left.
    + right. exists c', v'. split; [by constructor | done].
    + destruct (decide (n = k)) as [->|Hne].
      * right. exists c, v. split; [constructor | done].
      * left. by rewrite lookup_insert_ne in Hk.
    + right. exists c', v'. split; [by constructor | done].
  - intros Hk. apply IH in Hk as [Hk|(c' & v' & Hin & Hc')]; [auto|].
    right. exists c', v'. split; [by constructor | done].
Qed.

Lemma collectInto_stored controls : forall (m : gmap string JsValue) b c k v,
  Forall (fun c => forall e, extractControl c <> Raises e) controls ->
  c ∈ controls ->
  extractControl c = Reads (Some (k, v)) ->
  k <> "__proto__" ->
  is_Some (collectInto controls m b !! k).
Proof.
  induction controls as [|c0 rest IH]; intros m b c k v Hok Hin Hc Hk.
  - by apply elem_of_nil in Hin.
  - apply Forall_cons in Hok as [Hc0 Hok]. simpl.
    apply elem_of_cons in Hin as [->|Hin].
    + rewrite Hc, assign_other by done.
      apply collectInto_keeps. rewrite lookup_insert_eq. by eexists.
    + destruct (extractControl c0) as [e|[[n v0]|]]; [by destruct (Hc0 e)| |]; eauto.
      destruct (assign n v0 m b). eauto.
Qed.

Lemma collectInto_stops pre c post e : forall (m : gmap string JsValue) b,
  extractControl c = Raises e ->
  collectInto (pre ++ c :: post) m b = collectInto pre m b.
Proof.
  induction pre as [|c0 pre IH]; intros m b Hc; simpl.
  - by rewrite Hc.
  - destruct (extractControl c0) as [|[[n v]|]]; auto.
    destruct (assign n v m b). auto.
Qed.

Lemma collectFormData_keys controls (m : gmap string JsValue) k :
  is_Some (collectFormData controls m !! k) ->
  is_Some (m !! k) \/
  exists c v, c ∈ controls /\ extractControl c = Reads (Some (k, v)).
Proof. apply collectInto_keys. Qed.

Lemma collectFormData_stored controls (m : gmap string JsValue) c k v :
  Forall (fun c => forall e, extractControl c <> Raises e) controls ->
  c ∈ controls ->
  extractControl c = Reads (Some (k, v)) ->
  k <> "__proto__" ->
  is_Some (collectFormData controls m !! k).
Proof. apply collectInto_stored. Qed.

Lemma collectFormData_stops pre c post e (m : gmap string JsValue) :
  extractControl c = Raises e ->
  collectFormData (pre ++ c :: post) m = collectFormData pre m.
Proof. apply collectInto_stops. Qed.

Lemma showUserForm_Returned h formName w m w' :
  showUserForm h formName w = (Returned m, w') ->
  exists i,
    findComponent formName (project w) = Some i /\
    m = collectFormData (sessionControls h (project w) i) ∅.
Proof.
  unfold showUserForm, bind.
  destruct (getActiveDocument h w) as [[[]|e] w1] eqn:Hdoc; [|done].
  apply getActiveDocument_project in Hdoc. rewrite <- Hdoc. clear Hdoc w.
  destruct w1 as [b p]. svc_unfold; simpl.
  destruct (fault h p (VBComponentsItem formName)); simpl; [done|].
  destruct (findComponent formName p) as [i|]; simpl; [|done].
  destruct (decide (typeAt i p = 3)); simpl; [|done].
  destruct_faults h; try done.
  intros [= <- <-]. by exists i.
Qed.

Lemma showUserForm_shown h formName w wd i :
  getActiveDocument h w = (Returned tt, wd) ->
  fault h (project w) (VBComponentsItem formName) = None ->
  findComponent formName (project w) = Some i ->
  typeAt i (project w) = 3 ->
  fault h (project w) (GetDesigner i) = None ->
  fault h (project w) (ShowModal i) = None ->
  showUserForm h formName w
  = (Returned (collectFormData (sessionControls h (project w) i) ∅), wd).
Proof.
  intros Hdoc Hitem Hfind Hty Hdsg Hshow.
  unfold showUserForm, bind. rewrite Hdoc.
  apply getActiveDocument_Returned in Hdoc as (-> & _).
  svc_unfold; simpl.
  rewrite Hitem; simpl. rewrite Hfind; simpl. rewrite decide_True by done; simpl.
  rewrite Hdsg; simpl. rewrite Hshow; simpl. reflexivity.
Qed.

(** C1, as the claim has it, fails: the form is closed with the window's
    close button, and what [showUserForm] returns is the mapping of the
    controls, with no [cancelled] entry (and no [data] entry) in it. *)
Lemma window_close_not_reported :
  let controls := [liveTextBox "txtName" ""; liveCheckBox "chkAgree" "I agree" false;
                   liveButton "btnOK" "OK"; liveButton "btnCancel" "Cancel"] in
  let h := lenientHost controls WindowChrome in
  let m := collectFormData controls ∅ in
  sessionClosure h = WindowChrome /\
  showUserForm h "SignupForm" signupWorld = (Returned m, signupWorld) /\
  m !! "cancelled" = None /\
  m !! "cancelled" <> Some (JBool true) /\
  m !! "data" = None.
Proof.
  intros controls h m.
  assert (m !! "cancelled" = None) as Hnone by (vm_compute; reflexivity).
  split; [reflexivity|]. split.
  { apply (showUserForm_shown h "SignupForm" signupWorld signupWorld 0%nat); reflexivity. }
  split; [exact Hnone|]. split; [by rewrite Hnone|].
  vm_compute. reflexivity.
Qed.

(** C1, amended.  What [showUserForm] returns is the mapping from control
    names to values and nothing else: it is the same however the dialog was
    closed, and each of its keys is the name of a control of the form, so that
    it has a [cancelled] entry only for a control of that name.  The flag
    lives in the form's own code: closing by the window's close button or by
    btnCancel sets it, btnOK clears it, and [WasCancelled] reads it. *)
Theorem showUserForm_reports_no_cancellation h formName w :
  (forall c, showUserForm (withClosure c h) formName w = showUserForm h formName w) /\
  (forall m w',
     showUserForm h formName w = (Returned m, w') ->
     exists i,
       findComponent formName (project w) = Some i /\
       m = collectFormData (sessionControls h (project w) i) ∅ /\
       forall k, is_Some (m !! k) ->
                 exists ctl, ctl ∈ sessionControls h (project w) i /\ lcName ctl = Reads k) /\
  (forall s,
     FormCode.WasCancelled (FormCode.close WindowChrome s) = true /\
     FormCode.WasCancelled (FormCode.close CancelClicked s) = true /\
     FormCode.WasCancelled (FormCode.close ConfirmClicked s) = false).
Proof.
  split; [|split].
  - intros c. reflexivity.
  - intros m w' Hrun. apply showUserForm_Returned in Hrun as (i & Hfind & ->).
    exists i. repeat split; [done|].
    intros k Hk. apply collectFormData_keys in Hk as [Hk|(ctl & v & Hin & Hctl)].
    + rewrite lookup_empty in Hk. by destruct Hk.
    + exists ctl. split; [done|]. by apply extractControl_stored in Hctl as (? & _).
  - intros s. repeat split.
Qed.

Lemma showUserForm_reports_no_cancellation_witness :
  exists i,
    findComponent "SignupForm" (project signupWorld) = Some i /\
    ({[ "txtName" := JStr "Ada" ]} : gmap string JsValue)
    = collectFormData
        (sessionControls (lenientHost [liveTextBox "txtName" "Ada"] WindowChrome)
           (project signupWorld) i) ∅ /\
    forall k, is_Some (({[ "txtName" := JStr "Ada" ]} : gmap string JsValue) !! k) ->
              exists ctl,
                ctl ∈ sessionControls (lenientHost [liveTextBox "txtName" "Ada"] WindowChrome)
                        (project signupWorld) i /\
                lcName ctl = Reads k.
Proof.
  apply (proj1 (proj2 (showUserForm_reports_no_cancellation
                         (lenientHost [liveTextBox "txtName" "Ada"] WindowChrome)
                         "SignupForm" signupWorld))
           {[ "txtName" := JStr "Ada" ]} signupWorld).
  vm_compute. reflexivity.
Defined.

(** C2, on the form of the example: the user fills txtName with Ada, checks
    chkAgree and clicks OK.  The mapping [showUserForm] returns has entries
    for the label and for both standard buttons besides the two inputs, the
    controls that [CollectFormData] of the generated helper skips. *)
Lemma buttons_and_labels_collected :
  let controls := [liveLabel "lblName" "Name:"; liveTextBox "txtName" "Ada";
                   liveCheckBox "chkAgree" "I agree" true;
                   liveButton "btnOK" "OK"; liveButton "btnCancel" "Cancel"] in
  let h := lenientHost controls ConfirmClicked in
  let m := collectFormData controls ∅ in
  showUserForm h "SignupForm" signupWorld = (Returned m, signupWorld) /\
  m !! "txtName" = Some (JStr "Ada") /\
  m !! "chkAgree" = Some (JBool true) /\
  m !! "btnOK" = Some (JBool false) /\
  m !! "btnCancel" = Some (JBool false) /\
  m !! "lblName" = Some (JStr "Name:") /\
  m <> {[ "txtName" := JStr "Ada"; "chkAgree" := JBool true ]} /\
  helperEntry <$> (lcKind <$> controls)
  = [Skipped; FromText; FromValue; Skipped; Skipped].
Proof.
  intros controls h m.
  assert (m !! "btnOK" = Some (JBool false)) as Hok by (vm_compute; reflexivity).
  split.
  { apply (showUserForm_shown h "SignupForm" signupWorld signupWorld 0%nat); reflexivity. }
  split; [vm_compute; reflexivity|].
  split; [vm_compute; reflexivity|].
  split; [exact Hok|].
  split; [vm_compute; reflexivity|].
  split; [vm_compute; reflexivity|].
  split; [|reflexivity].
  intros Heq. rewrite Heq in Hok.
  rewrite lookup_insert_ne, lookup_singleton_ne in Hok by done. discriminate.
Qed.

(** C2.  The claim holds of [CollectFormData] of the generated helper, which
    makes no entry for a control whose type name is Label or CommandButton;
    [showUserForm] does not follow it.  The mapping it builds has a key for
    every control one of whose [Value], [Text] and [Caption] is defined, of
    whatever kind: when no read raises, its keys other than [__proto__] are
    exactly the names of those controls, so that a control the helper skips
    has a key as soon as one of the three is defined.  A control with a
    caption only, as a label is, is stored under its caption, and a control
    with a value, as a button is, under its value; the kind of the control
    plays no part. *)
Theorem collectFormData_keys_any_kind controls :
  Forall (fun c => forall e, extractControl c <> Raises e) controls ->
  (forall k,
     k <> "__proto__" ->
     is_Some (collectFormData controls ∅ !! k) <->
     exists c v, c ∈ controls /\ extractControl c = Reads (Some (k, v))) /\
  (forall c k v,
     c ∈ controls ->
     helperEntry (lcKind c) = Skipped ->
     extractControl c = Reads (Some (k, v)) ->
     k <> "__proto__" ->
     is_Some (collectFormData controls ∅ !! k)) /\
  (forall kind n cap,
     cap <> JUndefined ->
     extractControl (mkLive kind (Reads n) (Reads JUndefined) (Reads JUndefined) (Reads cap))
     = Reads (Some (n, cap))) /\
  (forall kind n v text cap,
     v <> JUndefined ->
     extractControl (mkLive kind (Reads n) (Reads v) text cap) = Reads (Some (n, v))) /\
  helperEntry "Label" = Skipped /\
  helperEntry "CommandButton" = Skipped.
Proof.
  intros Hok. split; [|split; [|split; [|split; [|split]]]].
  - intros k Hproto. split.
    + intros Hk. apply collectFormData_keys in Hk as [Hk|Hk]; [|done].
      rewrite lookup_empty in Hk. by destruct Hk.
    + intros (c & v & Hin & Hc). by eapply collectFormData_stored.
  - intros c k v Hin _ Hc Hproto. by eapply collectFormData_stored.
  - intros kind n cap Hcap. unfold extractControl; simpl.
    by rewrite decide_False.
  - intros kind n v text cap Hv. unfold extractControl; simpl.
    by rewrite decide_False.
  - reflexivity.
  - reflexivity.
Qed.

Lemma collectFormData_keys_any_kind_witness :
  let controls := [liveLabel "lblName" "Name:"; liveTextBox "txtName" "Ada";
                   liveCheckBox "chkAgree" "I agree" true;
                   liveButton "btnOK" "OK"; liveButton "btnCancel" "Cancel"] in
  helperEntry (lcKind (liveLabel "lblName" "Name:")) = Skipped /\
  helperEntry (lcKind (liveButton "btnOK" "OK")) = Skipped /\
  is_Some (collectFormData controls ∅ !! "lblName") /\
  is_Some (collectFormData controls ∅ !! "btnOK").
Proof.
  intros controls.
  assert (Forall (fun c => forall e, extractControl c <> Raises e) controls) as Hok.
  { repeat constructor; intros e; discriminate. }
  destruct (collectFormData_keys_any_kind controls Hok) as (_ & Hskipped & _).
  split; [reflexivity|]. split; [reflexivity|]. split.
  - apply (Hskipped (liveLabel "lblName" "Name:") "lblName" (JStr "Name:"));
      [| reflexivity | reflexivity | discriminate].
    apply elem_of_cons. by left.
  - apply (Hskipped (liveButton "btnOK" "OK") "btnOK" (JBool false));
      [| reflexivity | reflexivity | discriminate].
    do 3 (apply elem_of_cons; right). apply elem_of_cons. by left.
Defined.

(** C3, as the claim has it, fails: the first control cannot be read, the
    second can, and the mapping returned is empty: the second control has no
    entry either. *)
Lemma controls_after_a_failure_lost :
  let controls := [liveBroken "txtName"; liveCheckBox "chkAgree" "I agree" true] in
  let h := lenientHost controls ConfirmClicked in
  extractControl (liveCheckBox "chkAgree" "I agree" true)
  = Reads (Some ("chkAgree", JBool true)) /\
  showUserForm h "SignupForm" signupWorld = (Returned ∅, signupWorld) /\
  (∅ : gmap string JsValue) !! "chkAgree" = None.
Proof.
  intros controls h.
  split; [reflexivity|]. split; [|reflexivity].
  apply (showUserForm_shown h "SignupForm" signupWorld signupWorld 0%nat); reflexivity.
Qed.

(** C3, amended.  A read that raises during extraction ends the loop: the
    mapping is the one collected from the controls enumerated before the
    failing one, and the failing control and all the controls after it are
    left out.  The call itself does not raise: once the form has been found
    and shown, [showUserForm] returns the mapping whatever the reads did. *)
Theorem collectFormData_stops_at_first_error pre c post e (m : gmap string JsValue) :
  extractControl c = Raises e ->
  collectFormData (pre ++ c :: post) m = collectFormData pre m /\
  (forall h formName w wd i,
     sessionControls h (project w) i = pre ++ c :: post ->
     getActiveDocument h w = (Returned tt, wd) ->
     fault h (project w) (VBComponentsItem formName) = None ->
     findComponent formName (project w) = Some i ->
     typeAt i (project w) = 3 ->
     fault h (project w) (GetDesigner i) = None ->
     fault h (project w) (ShowModal i) = None ->
     showUserForm h formName w = (Returned (collectFormData pre ∅), wd)).
Proof.
  intros Hc. split; [by eapply collectFormData_stops|].
  intros h formName w wd i Hses Hdoc Hitem Hfind Hty Hdsg Hshow.
  rewrite (showUserForm_shown h formName w wd i) by done.
  rewrite Hses. f_equal. f_equal. by eapply collectFormData_stops.
Qed.

Lemma collectFormData_stops_at_first_error_witness :
  let pre := [liveTextBox "txtName" "Ada"] in
  let post := [liveCheckBox "chkAgree" "I agree" true] in
  let h := lenientHost (pre ++ liveBroken "txtEmail" :: post) ConfirmClicked in
  collectFormData (pre ++ liveBroken "txtEmail" :: post) ∅ = collectFormData pre ∅ /\
  showUserForm h "SignupForm" signupWorld = (Returned (collectFormData pre ∅), signupWorld).
Proof.
  intros pre post h.
  destruct (collectFormData_stops_at_first_error pre (liveBroken "txtEmail") post
              (newError "Member not found.") ∅ eq_refl) as [Hloop Hcall].
  split; [exact Hloop|].
  apply (Hcall h "SignupForm" signupWorld signupWorld 0%nat); reflexivity.
Defined.

(** ** Errors in the tool handlers *)






(** ** Injection of the helper code *)

Lemma includes_cons needle ch s :
  includes needle s = true -> includes needle (String ch s) = true.
Proof.
  intros H.
  change (includes needle (String ch s))
    with (if String.prefix needle (String ch s) then true else includes needle s).
  rewrite H. by destruct (String.prefix needle (String ch s)).
Qed.

Lemma includes_app_r needle a b :
  includes needle b = true -> includes needle (a +:+ b) = true.
Proof.
  intros Hb. induction a as [|ch a IH]; [done|].
  change (String ch a +:+ b) with (String ch (a +:+ b)).
  by apply includes_cons.
Qed.

(** C10. When the UserFormHelper module already holds the text
    [Function ShowUserFormModal], [createShowUserFormModalFunction] returns
    without adding anything, and when the code of a form already holds
    [btnOK_Click], so does [addStandardFormEventHandlers]: the project is the
    one the call found. *)
Theorem helper_injection_idempotent h w wd :
  getActiveDocument h w = (Returned tt, wd) ->
  (forall i,
     fault h (project w) (VBComponentsItem "UserFormHelper") = None ->
     findComponent "UserFormHelper" (project w) = Some i ->
     fault h (project w) (GetCodeModule i) = None ->
     fault h (project w) (CodeLines i) = None ->
     includes "Function ShowUserFormModal" (codeAt i (project w)) = true ->
     createShowUserFormModalFunction h w = (Returned tt, wd) /\ project wd = project w) /\
  (forall formName i,
     fault h (project w) (VBComponentsItem formName) = None ->
     findComponent formName (project w) = Some i ->
     typeAt i (project w) = 3 ->
     fault h (project w) (GetCodeModule i) = None ->
     fault h (project w) (CodeLines i) = None ->
     includes "btnOK_Click" (codeAt i (project w)) = true ->
     addStandardFormEventHandlers h formName w = (Returned tt, wd) /\
     project wd = project w).
Proof.
  intros Hdoc. pose proof (getActiveDocument_Returned _ _ _ Hdoc) as (Hwd & _).
  split.
  - intros i Hitem Hfind Hmod Hlines Hinc. split; [|by rewrite Hwd].
    unfold createShowUserFormModalFunction, bind at 1. rewrite Hdoc, Hwd.
    svc_unfold; simpl. rewrite Hitem; simpl. rewrite Hfind; simpl.
    rewrite Hmod; simpl. rewrite Hlines; simpl. by rewrite Hinc.
  - intros formName i Hitem Hfind Hty Hmod Hlines Hinc. split; [|by rewrite Hwd].
    unfold addStandardFormEventHandlers, bind at 1. rewrite Hdoc, Hwd.
    svc_unfold; simpl. rewrite Hitem; simpl. rewrite Hfind; simpl.
    rewrite decide_True by done; simpl.
    rewrite Hmod; simpl. rewrite Hlines; simpl. by rewrite Hinc.
Qed.

Lemma helper_injection_idempotent_witness :
  let helper := withCode vbaCode (withComponentName "UserFormHelper" (newComponent 1)) in
  let form := expectedForm "SignupForm" "Sign up" 400 300 [] true in
  let w := mkWorld true [helper; form] in
  createShowUserFormModalFunction (lenientHost [] ConfirmClicked) w = (Returned tt, w) /\
  addStandardFormEventHandlers (lenientHost [] ConfirmClicked) "SignupForm" w
  = (Returned tt, w).
Proof.
  intros helper form w.
  destruct (helper_injection_idempotent (lenientHost [] ConfirmClicked) w w eq_refl)
    as [Hshow Hhandlers].
  split.
  - apply (Hshow 0%nat); vm_compute; reflexivity.
  - apply (Hhandlers "SignupForm" 1%nat); vm_compute; reflexivity.
Defined.

Lemma findComponent_Some n p i :
  findComponent n p = Some i -> exists c, p !! i = Some c /\ vbcName c = Some n.
Proof.
  revert i. induction p as [|c p IH]; intros i; simpl; [done|].
  destruct (decide (vbcName c = Some n)).
  - intros [= <-]. by exists c.
  - destruct (findComponent n p) as [j|]; [|done].
    intros [= <-]. by apply IH.
Qed.

Lemma findComponent_alter n F i p :
  (forall c, vbcName (F c) = vbcName c) ->
  findComponent n (alter F i p) = findComponent n p.
Proof.
  intros HF. revert i. induction p as [|c p IH]; intros i; [done|].
  destruct i; simpl.
  - rewrite HF. done.
  - change (list_alter F i p) with (alter F i p). by rewrite IH.
Qed.

Lemma vbaCode_has_marker : includes "Function ShowUserFormModal" vbaCode = true.
Proof. vm_compute. reflexivity. Qed.

Lemma buttonCode_has_marker : includes "btnOK_Click" buttonCode = true.
Proof. vm_compute. reflexivity. Qed.

Lemma createShowUserFormModalFunction_accepting h b p :
  accepting h ->
  createShowUserFormModalFunction h (mkWorld b p) = (Returned tt, mkWorld true (withHelper p)).
Proof.
  intros Hacc. pose proof Hacc as [Hf _].
  unfold createShowUserFormModalFunction, bind at 1.
  rewrite (getActiveDocument_accepting h _ Hacc); simpl project.
  unfold withHelper.
  destruct (findComponent "UserFormHelper" p) as [i|] eqn:Hfind.
  - svc_unfold; simpl; rewrite ?Hf; simpl; rewrite Hfind; simpl; rewrite ?Hf; simpl.
    destruct (includes "Function ShowUserFormModal" (codeAt i p)); simpl; [done|].
    rewrite ?Hf; simpl. done.
  - svc_unfold; simpl; rewrite ?Hf; simpl; rewrite Hfind; simpl.
    rewrite ?Hf; simpl. rewrite ?alter_last; simpl. rewrite ?Hf; simpl.
    rewrite codeAt_last; simpl. rewrite ?Hf; simpl. by rewrite codeAt_last, alter_last.
Qed.

Lemma withHelper_idempotent p : withHelper (withHelper p) = withHelper p.
Proof.
  unfold withHelper at 2 3.
  destruct (findComponent "UserFormHelper" p) as [i|] eqn:Hfind.
  - destruct (includes "Function ShowUserFormModal" (codeAt i p)) eqn:Hinc.
    + unfold withHelper. by rewrite Hfind, Hinc.
    + destruct (findComponent_Some _ _ _ Hfind) as (c & Hc & Hname).
      unfold withHelper. rewrite findComponent_alter, Hfind by done.
      unfold codeAt at 1. rewrite list_lookup_alter_eq, Hc; simpl.
      by rewrite includes_app_r by apply vbaCode_has_marker.
  - unfold withHelper. rewrite findComponent_last by done.
    by rewrite codeAt_last.
Qed.

(** Called twice in a row on a host that refuses nothing, the injection of
    the helper function changes nothing the second time. *)
Lemma createShowUserFormModalFunction_twice h w :
  accepting h ->
  exists w1,
    createShowUserFormModalFunction h w = (Returned tt, w1) /\
    createShowUserFormModalFunction h w1 = (Returned tt, w1).
Proof.
  intros Hacc. destruct w as [b p]. exists (mkWorld true (withHelper p)).
  rewrite !createShowUserFormModalFunction_accepting by done.
  by rewrite withHelper_idempotent.
Qed.

Lemma addStandardFormEventHandlers_found h formName b p i :
  accepting h ->
  findComponent formName p = Some i ->
  typeAt i p = 3 ->
  addStandardFormEventHandlers h formName (mkWorld b p)
  = (Returned tt, mkWorld true (withHandlers i p)).
Proof.
  intros Hacc Hfind Hty. pose proof Hacc as [Hf _].
  unfold addStandardFormEventHandlers, bind at 1.
  rewrite (getActiveDocument_accepting h _ Hacc); simpl project.
  unfold withHandlers.
  svc_unfold; simpl; rewrite ?Hf; simpl; rewrite Hfind; simpl.
  rewrite decide_True by done; simpl. rewrite ?Hf; simpl.
  destruct (includes "btnOK_Click" (codeAt i p)); simpl; [done|].
  rewrite ?Hf; simpl. done.
Qed.

(** Likewise for the standard handlers of a form. *)
Lemma addStandardFormEventHandlers_twice h formName w i :
  accepting h ->
  findComponent formName (project w) = Some i ->
  typeAt i (project w) = 3 ->
  exists w1,
    addStandardFormEventHandlers h formName w = (Returned tt, w1) /\
    addStandardFormEventHandlers h formName w1 = (Returned tt, w1).
Proof.
  intros Hacc Hfind Hty. destruct w as [b p]; simpl in *.
  exists (mkWorld true (withHandlers i p)).
  rewrite (addStandardFormEventHandlers_found h formName b p i) by done.
  split; [done|].
  destruct (findComponent_Some _ _ _ Hfind) as (c & Hc & Hname).
  unfold withHandlers at 1 2.
  destruct (includes "btnOK_Click" (codeAt i p)) eqn:Hinc.
  - rewrite (addStandardFormEventHandlers_found h formName true p i) by done.
    unfold withHandlers. by rewrite Hinc.
  - rewrite (addStandardFormEventHandlers_found h formName true _ i).
    + unfold withHandlers, codeAt at 1. rewrite list_lookup_alter_eq, Hc; simpl.
      by rewrite includes_app_r by apply buttonCode_has_marker.
    + done.
    + by rewrite findComponent_alter.
    + unfold typeAt in *. rewrite list_lookup_alter_eq, Hc in *. done.
Qed.

(** ** Further properties of the service *)

(** X1. [createUserForm] fails only on the creation of the component, its
    naming or the read of its designer: when the host accepts these three, the
    call returns whatever the host does with the caption and the size, and the
    project gains one form of the requested name.  A size that has been set is
    the clamped one, and the height is never set without the width, nor the
    start-up position without the height. *)
Theorem createUserForm_sizing_refusals_swallowed h formName caption width height w wd :
  getActiveDocument h w = (Returned tt, wd) ->
  (forall p, fault h p (VBComponentsAdd 3) = None) ->
  (forall p i, fault h p (SetComponentName i formName) = None) ->
  (forall p i, fault h p (GetDesigner i) = None) ->
  exists form,
    createUserForm h formName caption width height w
    = (Returned tt, mkWorld true (project w ++ [form])) /\
    vbcName form = Some formName /\
    vbcType form = 3 /\
    (dsgWidth (vbcDesigner form) = None \/
     dsgWidth (vbcDesigner form) = Some (Z.max width 300)) /\
    (dsgHeight (vbcDesigner form) = None \/
     dsgHeight (vbcDesigner form) = Some (Z.max height 200) /\
     dsgWidth (vbcDesigner form) = Some (Z.max width 300)) /\
    (dsgStartUpPosition (vbcDesigner form) = None \/
     dsgStartUpPosition (vbcDesigner form) = Some 1 /\
     dsgHeight (vbcDesigner form) = Some (Z.max height 200)).
Proof.
  intros Hdoc Hadd Hname Hdsg.
  unfold createUserForm, bind at 1. rewrite Hdoc.
  apply getActiveDocument_Returned in Hdoc as (-> & _).
  svc_unfold; simpl. rewrite Hadd; simpl. rewrite Hname; simpl. rewrite Hdsg; simpl.
  destruct (truthy caption); destruct_faults h; rewrite ?alter_alter, ?alter_last;
    eexists; (split; [reflexivity|]); simpl; auto 10.
Qed.

Lemma createUserForm_sizing_refusals_swallowed_witness :
  exists form,
    createUserForm sizeRefusingHost "SizeTestForm" (Some "Size Test") 500 400
      (mkWorld false [])
    = (Returned tt, mkWorld true ([] ++ [form])) /\
    vbcName form = Some "SizeTestForm".
Proof.
  destruct (createUserForm_sizing_refusals_swallowed sizeRefusingHost "SizeTestForm"
              (Some "Size Test") 500 400 (mkWorld false []) (mkWorld true []))
    as (form & Hrun & Hname & _); try reflexivity.
  exists form. by split.
Defined.

(** X2. A name that resolves to a component that is not a UserForm is refused
    by [addControlToUserForm], [showUserForm] and
    [addStandardFormEventHandlers] alike: each throws its own error around
    the message that the name is not a UserForm, and the project is left as
    it was. *)
Theorem not_a_UserForm_refused h formName w wd i :
  getActiveDocument h w = (Returned tt, wd) ->
  fault h (project w) (VBComponentsItem formName) = None ->
  findComponent formName (project w) = Some i ->
  typeAt i (project w) <> 3 ->
  let inner := errToString (newError ("'" +:+ formName +:+ "' is not a UserForm")) in
  project wd = project w /\
  (forall controlType controlName caption left top width height,
     addControlToUserForm h formName controlType controlName caption left top width height w
     = (Thrown (newError ("Failed to add control to UserForm '" +:+ formName
                          +:+ "'. Error: " +:+ inner)), wd)) /\
  showUserForm h formName w
  = (Thrown (newError ("Failed to show UserForm '" +:+ formName +:+ "'. Error: " +:+ inner)),
     wd) /\
  addStandardFormEventHandlers h formName w
  = (Thrown (newError ("Failed to add event handlers to form '" +:+ formName
                       +:+ "'. Error: " +:+ inner)), wd).
Proof.
  intros Hdoc Hitem Hfind Hty inner.
  pose proof (getActiveDocument_Returned _ _ _ Hdoc) as (Hwd & _).
  split; [by rewrite Hwd|]. split; [|split].
  - intros. unfold addControlToUserForm, bind at 1. rewrite Hdoc, Hwd.
    svc_unfold; simpl. rewrite Hitem; simpl. rewrite Hfind; simpl.
    by rewrite decide_False.
  - unfold showUserForm, bind at 1. rewrite Hdoc, Hwd.
    svc_unfold; simpl. rewrite Hitem; simpl. rewrite Hfind; simpl.
    by rewrite decide_False.
  - unfold addStandardFormEventHandlers, bind at 1. rewrite Hdoc, Hwd.
    svc_unfold; simpl. rewrite Hitem; simpl. rewrite Hfind; simpl.
    by rewrite decide_False.
Qed.

Lemma not_a_UserForm_refused_witness :
  showUserForm (lenientHost [] ConfirmClicked) "UserFormHelper" helperAndForm
  = (Thrown (newError ("Failed to show UserForm '" +:+ "UserFormHelper" +:+ "'. Error: "
                       +:+ errToString (newError ("'" +:+ "UserFormHelper"
                                                  +:+ "' is not a UserForm")))),
     helperAndForm).
Proof.
  apply (not_a_UserForm_refused (lenientHost [] ConfirmClicked) "UserFormHelper"
           helperAndForm helperAndForm 0%nat); try reflexivity.
  vm_compute. discriminate.
Defined.

(** X3. [showUserForm] never changes the VBA project, whether it returns or
    throws, and an error it throws is a plain Error. *)
Theorem showUserForm_leaves_project h formName w r w' :
  showUserForm h formName w = (r, w') ->
  project w' = project w /\ (forall e, r = Thrown e -> errName e = "Error").
Proof.
  intros Hrun. split.
  - revert Hrun. unfold showUserForm, bind.
    destruct (getActiveDocument h w) as [[[]|e] w1] eqn:Hdoc;
      apply getActiveDocument_project in Hdoc; rewrite <- Hdoc;
      [| by intros [= <- <-]].
    clear Hdoc w. destruct w1 as [b p]. svc_unfold; simpl.
    destruct (fault h p (VBComponentsItem formName)); simpl; [by intros [= <- <-]|].
    destruct (findComponent formName p) as [i|]; simpl; [|by intros [= <- <-]].
    destruct (decide (typeAt i p = 3)); simpl; [|by intros [= <- <-]].
    destruct_faults h; by intros [= <- <-].
  - intros e ->. unfold showUserForm in Hrun.
    apply bind_inv in Hrun as [(e0 & Hdoc & [= <-])|(a & w1 & _ & Hrun)].
    + eapply getActiveDocument_errName, Hdoc.
    + eapply rethrow_errName, Hrun.
Qed.

Lemma showUserForm_leaves_project_witness :
  project (showUserForm (lenientHost [] ConfirmClicked) "UserFormHelper" helperAndForm).2
  = project helperAndForm /\
  (forall e,
     (showUserForm (lenientHost [] ConfirmClicked) "UserFormHelper" helperAndForm).1
     = Thrown e -> errName e = "Error").
Proof.
  apply (showUserForm_leaves_project (lenientHost [] ConfirmClicked) "UserFormHelper"
           helperAndForm).
  apply surjective_pairing.
Defined.

(** X4. The standard buttons are placed from the size that was asked for, not
    from the clamped size of the form: on a host that refuses nothing, for a
    width and a height of at most [2^52] in absolute value, the form is
    [max height 200] high and [max width 300] wide, while both buttons have
    the top [height - 60] and the lefts [width - 180] and [width - 100], so
    that for a height below 60 or a width below 180 they get negative
    coordinates on a form of 200 by 300. *)
Theorem standard_buttons_use_requested_size h formName formCaption formWidth formHeight
    controls w :
  accepting h ->
  findComponent formName (project w) = None ->
  Z.abs formWidth <= 2 ^ 52 ->
  Z.abs formHeight <= 2 ^ 52 ->
  exists form ok cancel,
    createFormWithControls h formName formCaption formWidth formHeight controls true w
    = (Returned tt, mkWorld true (project w ++ [form])) /\
    dsgControls (vbcDesigner form) = map controlOf controls ++ [ok; cancel] /\
    dsgHeight (vbcDesigner form) = Some (Z.max formHeight 200) /\
    dsgWidth (vbcDesigner form) = Some (Z.max formWidth 300) /\
    ctlTop ok = Some (formHeight - 60) /\ ctlTop cancel = Some (formHeight - 60) /\
    ctlLeft ok = Some (formWidth - 180) /\ ctlLeft cancel = Some (formWidth - 100).
Proof.
  intros Hacc Hfresh Hw Hh.
  change (2 ^ 52) with 4503599627370496 in Hw, Hh.
  eexists (expectedForm formName formCaption formWidth formHeight controls true), _, _.
  split; [by apply createFormWithControls_accepting|].
  split; [reflexivity|]. split; [reflexivity|]. split; [reflexivity|].
  cbn [ctlTop ctlLeft].
  rewrite (jsSub_exact formHeight 60), (jsSub_exact formWidth 20), !jsSub_exact;
    change (2 ^ 53) with 9007199254740992; try lia.
  repeat split; f_equal; lia.
Qed.

Lemma standard_buttons_use_requested_size_witness :
  exists form ok cancel,
    createFormWithControls (lenientHost [] ConfirmClicked) "Tiny" "Tiny" 1 1 [] true
      (mkWorld false [])
    = (Returned tt, mkWorld true ([] ++ [form])) /\
    dsgHeight (vbcDesigner form) = Some 200 /\
    ctlTop ok = Some (-59) /\ ctlTop cancel = Some (-59).
Proof.
  destruct (standard_buttons_use_requested_size (lenientHost [] ConfirmClicked)
              "Tiny" "Tiny" 1 1 [] (mkWorld false []))
    as (form & ok & cancel & Hrun & _ & Hh & _ & Hok & Hcancel & _).
  - apply accepting_lenient.
  - reflexivity.
  - vm_compute. discriminate.
  - vm_compute. discriminate.
  - exists form, ok, cancel.
    split; [exact Hrun|]. split; [exact Hh|]. split; [exact Hok|exact Hcancel].
Defined.

Lemma collectInto_other_keys controls : forall (m : gmap string JsValue) b k,
  Forall (fun c => forall v, extractControl c <> Reads (Some (k, v))) controls ->
  collectInto controls m b !! k = m !! k.
Proof.
  induction controls as [|c rest IH]; intros m b k Hk; simpl; [done|].
  apply Forall_cons in Hk as [Hc Hrest].
  destruct (extractControl c) as [|[[n v]|]] eqn:Hx; [done| |by apply IH].
  destruct (assign_cases n v m b) as [[_ ->]|[b' ->]]; rewrite IH by done; [done|].
  apply lookup_insert_ne. intros ->. by apply (Hc v).
Qed.

Lemma collectInto_last_wins pre c post k v : forall (m : gmap string JsValue) b,
  Forall (fun c => forall e, extractControl c <> Raises e) pre ->
  extractControl c = Reads (Some (k, v)) ->
  k <> "__proto__" ->
  Forall (fun c' => forall v', extractControl c' <> Reads (Some (k, v'))) post ->
  collectInto (pre ++ c :: post) m b !! k = Some v.
Proof.
  induction pre as [|c0 pre IH]; intros m b Hpre Hc Hk Hpost; simpl.
  - rewrite Hc, assign_other by done.
    rewrite collectInto_other_keys by done. apply lookup_insert_eq.
  - apply Forall_cons in Hpre as [Hc0 Hpre].
    destruct (extractControl c0) as [e|[[n v0]|]]; [by destruct (Hc0 e)| |]; [|by apply IH].
    destruct (assign n v0 m b). by apply IH.
Qed.

Lemma collectInto_size controls : forall (m : gmap string JsValue) b,
  (size (collectInto controls m b) <= size m + length controls)%nat.
Proof.
  induction controls as [|c0 rest IH]; intros m b; simpl; [lia|].
  destruct (extractControl c0) as [|[[n v0]|]]; [lia| |].
  - destruct (assign_cases n v0 m b) as [[_ ->]|[b' ->]].
    + etrans; [apply IH|]. lia.
    + etrans; [apply IH|]. rewrite map_size_insert. destruct (m !! n); simpl; lia.
  - etrans; [apply IH|]. lia.
Qed.

(** X5. When two controls of a form bear the same name, other than
    [__proto__], the later one wins: if no read raises up to a control stored
    under a key, and no control after it is stored under that key, the
    mapping holds that control's value for the key.  The mapping never has
    more entries than the form has controls. *)
Theorem collectFormData_last_control_wins pre c post k v :
  Forall (fun c => forall e, extractControl c <> Raises e) pre ->
  extractControl c = Reads (Some (k, v)) ->
  k <> "__proto__" ->
  Forall (fun c' => forall v', extractControl c' <> Reads (Some (k, v'))) post ->
  collectFormData (pre ++ c :: post) ∅ !! k = Some v /\
  (size (collectFormData (pre ++ c :: post) ∅) <= length (pre ++ c :: post))%nat.
Proof.
  intros Hpre Hc Hk Hpost. split.
  - by apply collectInto_last_wins.
  - pose proof (collectInto_size (pre ++ c :: post) ∅ true) as Hsize.
    by rewrite map_size_empty in Hsize.
Qed.

Lemma collectFormData_last_control_wins_witness :
  collectFormData ([liveTextBox "txtEmail" "first@example.org"]
                   ++ liveTextBox "txtEmail" "second@example.org"
                   :: [liveButton "btnOK" "OK"]) ∅ !! "txtEmail"
  = Some (JStr "second@example.org").
Proof.
  apply (collectFormData_last_control_wins
           [liveTextBox "txtEmail" "first@example.org"]
           (liveTextBox "txtEmail" "second@example.org")
           [liveButton "btnOK" "OK"] "txtEmail" (JStr "second@example.org")).
  - repeat constructor; intros e; discriminate.
  - reflexivity.
  - discriminate.
  - repeat constructor; intros v'; discriminate.
Defined.

(** X6. A cached Word instance whose probe raises is dropped and replaced:
    when a new instance can be created and there is an active document,
    [getActiveDocument] returns with the VBA project untouched; when the new
    instance cannot be created it throws the initialisation error, not wrapped
    again, and the cache is left empty, so that the next call tries anew. *)
Theorem getActiveDocument_replaces_stale_instance h p e :
  fault h p ProbeWordApplication = Some e ->
  (fault h p NewWordApplication = None ->
   fault h p SetVisible = None ->
   fault h p GetActiveDocument = None ->
   activeDocument h = true ->
   getActiveDocument h (mkWorld true p) = (Returned tt, mkWorld true p)) /\
  (forall e', fault h p NewWordApplication = Some e' ->
   getActiveDocument h (mkWorld true p)
   = (Thrown (newError ("Failed to initialize Word.Application. Make sure Microsoft Word is installed. Error: "
                        +:+ errToString e')),
      mkWorld false p)).
Proof.
  intros Hprobe. split.
  - intros Hnew Hvis Hdoc Hact.
    unfold getActiveDocument, getWordApplication. svc_unfold; simpl.
    rewrite Hprobe; simpl. rewrite Hnew; simpl. rewrite Hvis; simpl.
    rewrite Hdoc; simpl. by rewrite Hact.
  - intros e' Hnew.
    unfold getActiveDocument, getWordApplication. svc_unfold; simpl.
    rewrite Hprobe; simpl. by rewrite Hnew.
Qed.

Lemma getActiveDocument_replaces_stale_instance_witness :
  getActiveDocument staleInstanceHost (mkWorld true []) = (Returned tt, mkWorld true []).
Proof.
  apply (proj1 (getActiveDocument_replaces_stale_instance staleInstanceHost []
                  (newError "The RPC server is unavailable.") eq_refl));
    reflexivity.
Defined.

(** X7. Without an active document every service method modelled here stops
    at its first step: [getActiveDocument] throws
    [Failed to get active document. Error: Error: No active document found in Word.],
    and [createUserForm], [showUserForm] and [createFormWithControls] throw
    that very error, unwrapped, since they fetch the document outside their
    own [try]; the project is not touched. *)
Theorem no_active_document h w wd :
  getWordApplication h w = (Returned tt, wd) ->
  fault h (project w) GetActiveDocument = None ->
  activeDocument h = false ->
  let e := newError ("Failed to get active document. Error: "
                     +:+ errToString (newError "No active document found in Word.")) in
  project wd = project w /\
  getActiveDocument h w = (Thrown e, wd) /\
  (forall formName caption width height,
     createUserForm h formName caption width height w = (Thrown e, wd)) /\
  (forall formName, showUserForm h formName w = (Thrown e, wd)) /\
  (forall formName caption width height controls (addStandardButtons : bool),
     createFormWithControls h formName caption width height controls addStandardButtons w
     = (Thrown e, wd)).
Proof.
  intros Happ Hdoc Hact e.
  pose proof (getWordApplication_project _ _ _ _ Happ) as Hp.
  assert (getActiveDocument h w = (Thrown e, wd)) as Hget.
  { unfold getActiveDocument, bind at 1. rewrite Happ.
    svc_unfold. rewrite Hp, Hdoc; simpl. by rewrite Hact. }
  split; [done|]. split; [done|]. split; [|split].
  - intros. unfold createUserForm, bind at 1. by rewrite Hget.
  - intros. unfold showUserForm, bind at 1. by rewrite Hget.
  - intros. unfold createFormWithControls, bind at 1. by rewrite Hget.
Qed.

Lemma no_active_document_witness :
  showUserForm noDocumentHost "SignupForm" signupWorld
  = (Thrown (newError ("Failed to get active document. Error: "
                       +:+ errToString (newError "No active document found in Word."))),
     signupWorld).
Proof.
  apply (no_active_document noDocumentHost signupWorld signupWorld); reflexivity.
Defined.

Ltac svcx_unfold :=
  cbv beta iota delta [tryCatch bind com comX getProject modifyProject onComponent onControl
    ret throw VBComponents_Add VBComponents_Item Controls_Add VBComponents_Remove
    CodeModule_Lines CodeModule_AddFromString CodeModule_CountOfLines setWordApp].

Lemma acceptingX_lenient : acceptingX lenientHostX.
Proof. repeat split. Qed.

Lemma forComponents_pure {A} hx (body : nat -> A -> Svc A)
    (f : nat -> A -> list VBComponent -> A) n : forall i acc w,
  (forall p c, faultX hx p c = None) ->
  (forall i acc w, body i acc w = (Returned (f i acc (project w)), w)) ->
  forComponents hx n i body acc w
  = (Returned (fold_left (fun acc j => f j acc (project w)) (seq i n) acc), w).
Proof.
  induction n as [|n IH]; intros i acc w Hf Hbody; simpl.
  - unfold bind, comX, ret. by rewrite Hf.
  - unfold bind at 1 2 3, comX. rewrite !Hf, Hbody. by apply IH.
Qed.

Lemma fold_left_flat_map {B} (g : nat -> list B) l : forall acc,
  fold_left (fun acc j => acc ++ g j) l acc = acc ++ flat_map g l.
Proof.
  induction l as [|x l IH]; intros acc; simpl; [by rewrite app_nil_r|].
  by rewrite IH, <- app_assoc.
Qed.

Lemma fold_left_fmap {B} (g : nat -> B) l : forall acc,
  fold_left (fun acc j => acc ++ [g j]) l acc = acc ++ (g <$> l).
Proof.
  induction l as [|x l IH]; intros acc; simpl; [by rewrite app_nil_r|].
  by rewrite IH, <- app_assoc.
Qed.

Lemma listUserForms_accepting hx b p :
  acceptingX hx ->
  listUserForms hx (mkWorld b p) = (Returned (formNames hx p), mkWorld true p).
Proof.
  intros (Hacc & Hf & _).
  unfold listUserForms, bind at 1. rewrite (getActiveDocument_accepting _ _ Hacc).
  unfold tryCatch, bind at 1, getProject; simpl.
  rewrite (forComponents_pure hx _
             (fun i forms p => forms ++ (if decide (typeAt i p = 3) then [nameAt hx i p]
                                         else []))); [|done|].
  - simpl. by rewrite fold_left_flat_map.
  - intros i acc w. unfold bind, getProject, ret.
    destruct (decide (typeAt i (project w) = 3)); [done|]. by rewrite app_nil_r.
Qed.

Lemma listVbaModules_accepting hx b p :
  acceptingX hx ->
  listVbaModules hx (mkWorld b p) = (Returned (moduleInfos hx p), mkWorld true p).
Proof.
  intros (Hacc & Hf & _).
  unfold listVbaModules, bind at 1. rewrite (getActiveDocument_accepting _ _ Hacc).
  unfold tryCatch, bind at 1, getProject; simpl.
  rewrite (forComponents_pure hx _
             (fun i modules p =>
                modules ++ [mkModuleInfo (nameAt hx i p) (typeNameOf (typeAt i p))]));
    [|done|done].
  simpl. by rewrite fold_left_fmap.
Qed.

Lemma typeAt_app_l p q i : (i < length p)%nat -> typeAt i (p ++ q) = typeAt i p.
Proof. intros Hi. unfold typeAt. by rewrite lookup_app_l. Qed.

Lemma nameAt_app_l hx p q i : (i < length p)%nat -> nameAt hx i (p ++ q) = nameAt hx i p.
Proof. intros Hi. unfold nameAt. by rewrite lookup_app_l. Qed.

Lemma flat_map_ext_seq {B} (f g : nat -> list B) i n :
  (forall j, (i <= j < i + n)%nat -> f j = g j) ->
  flat_map f (seq i n) = flat_map g (seq i n).
Proof.
  revert i. induction n as [|n IH]; intros i Hfg; simpl; [done|].
  rewrite Hfg by lia. f_equal. apply IH. intros j Hj. apply Hfg. lia.
Qed.

Lemma formNames_snoc hx p c :
  formNames hx (p ++ [c])
  = formNames hx p
    ++ (if decide (vbcType c = 3)
        then [match vbcName c with Some n => n | None => defaultName hx (length p) end]
        else []).
Proof.
  unfold formNames, formNamesFrom. rewrite length_app; simpl.
  rewrite seq_app, flat_map_app; simpl. rewrite app_nil_r. f_equal.
  - apply flat_map_ext_seq. intros j Hj.
    by rewrite typeAt_app_l, nameAt_app_l by lia.
  - rewrite typeAt_last. unfold nameAt. by rewrite lookup_last.
Qed.

Lemma formNames_elem hx p s :
  s ∈ formNames hx p <->
  exists i, (i < length p)%nat /\ typeAt i p = 3 /\ s = nameAt hx i p.
Proof.
  unfold formNames, formNamesFrom. rewrite list_elem_of_In, in_flat_map. split.
  - intros (i & Hi & Hs). apply in_seq in Hi as [_ Hi]; simpl in Hi.
    destruct (decide (typeAt i p = 3)); [|by destruct Hs].
    destruct Hs as [<-|[]]. by exists i.
  - intros (i & Hi & Hty & ->). exists i. split; [apply in_seq; lia|].
    rewrite decide_True by done. by left.
Qed.

(** X8. On a host that refuses nothing [listUserForms] returns, in the order
    of the project, the names of the components of type 3 and of no other
    component, and leaves the project as it is. *)
Theorem listUserForms_lists_the_forms hx b p :
  acceptingX hx ->
  listUserForms hx (mkWorld b p) = (Returned (formNames hx p), mkWorld true p) /\
  (forall s, s ∈ formNames hx p <->
             exists i, (i < length p)%nat /\ typeAt i p = 3 /\ s = nameAt hx i p) /\
  (forall i c n, p !! i = Some c -> vbcName c = Some n ->
                 (n = nameAt hx i p) /\ (vbcType c = 3 -> n ∈ formNames hx p)).
Proof.
  intros Hacc. split; [by apply listUserForms_accepting|]. split.
  - apply formNames_elem.
  - intros i c n Hc Hn.
    assert (n = nameAt hx i p) as Hname by (unfold nameAt; by rewrite Hc, Hn).
    split; [done|]. intros Hty. apply formNames_elem. exists i.
    split; [by eapply lookup_lt_Some|]. split; [|done].
    unfold typeAt. by rewrite Hc.
Qed.

Lemma listUserForms_lists_the_forms_witness :
  listUserForms lenientHostX helperAndForm = (Returned ["SignupForm"], helperAndForm).
Proof.
  destruct (listUserForms_lists_the_forms lenientHostX true (project helperAndForm)
              acceptingX_lenient) as [Hrun _].
  exact Hrun.
Defined.

(** X9. Creating a form adds its name at the end of what [listUserForms]
    returns: on a host that refuses nothing, the listing after
    [createUserForm] is the listing before it followed by the new name. *)
Theorem listUserForms_after_createUserForm hx formName caption width height w :
  acceptingX hx ->
  exists before w1,
    listUserForms hx w = (Returned before, mkWorld true (project w)) /\
    createUserForm (hostOf hx) formName caption width height w = (Returned tt, w1) /\
    listUserForms hx w1 = (Returned (before ++ [formName]), w1).
Proof.
  intros Hacc. pose proof Hacc as (Hbase & _).
  exists (formNames hx (project w)), (mkWorld true (project w ++ [builtForm formName caption width height])).
  destruct w as [b p]; simpl.
  rewrite listUserForms_accepting, createUserForm_accepting, listUserForms_accepting by done.
  repeat split. f_equal. f_equal. by rewrite formNames_snoc.
Qed.

Lemma listUserForms_after_createUserForm_witness :
  exists before w1,
    listUserForms lenientHostX helperAndForm = (Returned before, mkWorld true (project helperAndForm)) /\
    createUserForm (hostOf lenientHostX) "TestForm" (Some "Test Form Caption") 400 300
      helperAndForm = (Returned tt, w1) /\
    listUserForms lenientHostX w1 = (Returned (before ++ ["TestForm"]), w1).
Proof.
  apply (listUserForms_after_createUserForm lenientHostX "TestForm"
           (Some "Test Form Caption") 400 300 helperAndForm acceptingX_lenient).
Defined.

Lemma delete_last {A} (l : list A) (x : A) : delete (length l) (l ++ [x]) = l.
Proof. induction l as [|y l IH]; simpl; [done|]. by rewrite IH. Qed.

Lemma deleteUserForm_accepting hx formName b p i :
  acceptingX hx ->
  findComponent formName p = Some i ->
  typeAt i p = 3 ->
  deleteUserForm hx formName (mkWorld b p) = (Returned tt, mkWorld true (delete i p)).
Proof.
  intros (Hacc & Hf & _) Hfind Hty. pose proof Hacc as [Hb _].
  unfold deleteUserForm, bind at 1. rewrite (getActiveDocument_accepting _ _ Hacc).
  svcx_unfold; simpl. rewrite Hb; simpl. rewrite Hfind; simpl.
  rewrite decide_True by done; simpl. by rewrite Hf.
Qed.

(** X10. Creating a form and deleting it again gives the project back: on a
    host that refuses nothing and in a project without a component of that
    name, [createUserForm] followed by [deleteUserForm] leaves exactly the
    components that were there. *)
Theorem deleteUserForm_undoes_createUserForm hx formName caption width height w :
  acceptingX hx ->
  findComponent formName (project w) = None ->
  exists w1,
    createUserForm (hostOf hx) formName caption width height w = (Returned tt, w1) /\
    deleteUserForm hx formName w1 = (Returned tt, mkWorld true (project w)).
Proof.
  intros Hacc Hfresh. pose proof Hacc as (Hbase & _).
  eexists. split; [by apply createUserForm_accepting|].
  rewrite (deleteUserForm_accepting hx formName true _ (length (project w))).
  - by rewrite delete_last.
  - done.
  - by apply findComponent_last.
  - by rewrite typeAt_last.
Qed.

Lemma deleteUserForm_undoes_createUserForm_witness :
  exists w1,
    createUserForm (hostOf lenientHostX) "TestForm" (Some "Test") 400 300 helperAndForm
    = (Returned tt, w1) /\
    deleteUserForm lenientHostX "TestForm" w1 = (Returned tt, mkWorld true (project helperAndForm)).
Proof.
  apply (deleteUserForm_undoes_createUserForm lenientHostX "TestForm" (Some "Test") 400 300
           helperAndForm acceptingX_lenient).
  reflexivity.
Defined.

(** X12. [deleteUserForm], [addUserFormSubmitLogic] and [getUserFormControls]
    refuse a component that is not a UserForm and leave the project as it
    was, while [deleteVbaModule] has no such test: it removes the component
    the name resolves to, of whatever type, a form as well. *)
Theorem deleteVbaModule_has_no_type_test hx name w wd i :
  getActiveDocument (hostOf hx) w = (Returned tt, wd) ->
  vbProjectAccessible hx = true ->
  fault (hostOf hx) (project w) (VBComponentsItem name) = None ->
  findComponent name (project w) = Some i ->
  faultX hx (project w) (VBComponentsRemove i) = None ->
  deleteVbaModule hx name w = (Returned tt, mkWorld true (delete i (project w))) /\
  (typeAt i (project w) <> 3 ->
   let inner := errToString (newError ("'" +:+ name +:+ "' is not a UserForm")) in
   deleteUserForm hx name w
   = (Thrown (newError ("Failed to delete UserForm '" +:+ name +:+ "'. Error: " +:+ inner)),
      wd) /\
   (forall targetMacro,
      addUserFormSubmitLogic hx name targetMacro w
      = (Thrown (newError ("Failed to add submit logic to UserForm '" +:+ name
                           +:+ "'. Error: " +:+ inner)), wd)) /\
   getUserFormControls hx name w
   = (Thrown (newError ("Failed to get controls for UserForm '" +:+ name
                        +:+ "'. Error: " +:+ inner)), wd) /\
   project wd = project w).
Proof.
  intros Hdoc _ Hitem Hfind Hrem.
  pose proof (getActiveDocument_Returned _ _ _ Hdoc) as (Hwd & _).
  split.
  - unfold deleteVbaModule, bind at 1. rewrite Hdoc, Hwd.
    svcx_unfold; simpl. rewrite Hitem; simpl. rewrite Hfind; simpl. by rewrite Hrem.
  - intros Hty inner. repeat split.
    + unfold deleteUserForm, bind at 1. rewrite Hdoc, Hwd.
      svcx_unfold; simpl. rewrite Hitem; simpl. rewrite Hfind; simpl.
      by rewrite decide_False.
    + intros targetMacro. unfold addUserFormSubmitLogic, bind at 1. rewrite Hdoc, Hwd.
      svcx_unfold; simpl. rewrite Hitem; simpl. rewrite Hfind; simpl.
      by rewrite decide_False.
    + unfold getUserFormControls, bind at 1. rewrite Hdoc, Hwd.
      svcx_unfold; simpl. rewrite Hitem; simpl. rewrite Hfind; simpl.
      by rewrite decide_False.
    + by rewrite Hwd.
Qed.

Lemma deleteVbaModule_has_no_type_test_witness :
  deleteVbaModule lenientHostX "SignupForm" helperAndForm
  = (Returned tt, mkWorld true (delete 1%nat (project helperAndForm))) /\
  deleteUserForm lenientHostX "UserFormHelper" helperAndForm
  = (Thrown (newError ("Failed to delete UserForm '" +:+ "UserFormHelper" +:+ "'. Error: "
                       +:+ errToString (newError ("'" +:+ "UserFormHelper"
                                                  +:+ "' is not a UserForm")))),
     helperAndForm).
Proof.
  split.
  - apply (deleteVbaModule_has_no_type_test lenientHostX "SignupForm" helperAndForm
             helperAndForm 1%nat); reflexivity.
  - apply (deleteVbaModule_has_no_type_test lenientHostX "UserFormHelper" helperAndForm
             helperAndForm 0%nat); try reflexivity.
    vm_compute. discriminate.
Defined.

Lemma createVbaModule_accepting hx moduleName moduleType code w :
  acceptingX hx ->
  createVbaModule hx moduleName moduleType code w
  = (Returned tt, mkWorld true (project w ++ [builtModule hx moduleName moduleType code])).
Proof.
  intros (Hacc & Hf & Hv). pose proof Hacc as [Hb _].
  unfold createVbaModule, bind at 1. rewrite (getActiveDocument_accepting _ _ Hacc).
  rewrite Hv. unfold builtModule.
  destruct (truthy code) eqn:Hc.
  - svcx_unfold.
    repeat (progress (simpl; rewrite ?Hf, ?Hb, ?alter_last, ?codeAt_last)); reflexivity.
  - svcx_unfold.
    repeat (progress (simpl; rewrite ?Hf, ?Hb, ?alter_last)); reflexivity.
Qed.

Lemma moduleInfos_snoc hx p c :
  moduleInfos hx (p ++ [c])
  = moduleInfos hx p
    ++ [mkModuleInfo (match vbcName c with Some n => n | None => defaultName hx (length p) end)
                     (typeNameOf (vbcType c))].
Proof.
  unfold moduleInfos. rewrite length_app; simpl.
  rewrite seq_app, fmap_app; simpl. f_equal.
  - apply list_eq. intros k. rewrite !list_lookup_fmap.
    destruct (seq 0 (length p) !! k) as [j|] eqn:Hk; simpl; [|done].
    apply lookup_seq in Hk as [-> Hlt]; simpl.
    by rewrite typeAt_app_l, nameAt_app_l by lia.
  - rewrite typeAt_last. unfold nameAt. by rewrite lookup_last.
Qed.

Lemma moduleTypeOf_own hx moduleType :
  moduleType ∉ inheritedKeys ->
  moduleTypeOf hx moduleType
  = if decide (moduleType = "standard") then 1
    else if decide (moduleType = "class") then 2
    else if decide (moduleType = "form") then 3
    else if decide (moduleType = "document") then 100
    else 1.
Proof.
  intros Hown. unfold moduleTypeOf, moduleTypeMap.
  destruct (decide (moduleType = "standard")) as [->|H1]; [done|].
  destruct (decide (moduleType = "class")) as [->|H2]; [done|].
  destruct (decide (moduleType = "form")) as [->|H3]; [done|].
  destruct (decide (moduleType = "document")) as [->|H4]; [done|].
  simpl. rewrite !lookup_insert_ne by done. rewrite lookup_empty.
  by rewrite decide_False.
Qed.

Lemma typeNameOf_moduleTypeOf hx moduleType :
  moduleType ∉ inheritedKeys ->
  typeNameOf (moduleTypeOf hx moduleType)
  = if decide (moduleType ∈ ["standard"; "class"; "form"; "document"])
    then moduleType else "standard".
Proof.
  intros Hown. rewrite moduleTypeOf_own by done.
  destruct (decide (moduleType = "standard")) as [->|H1]; [done|].
  destruct (decide (moduleType = "class")) as [->|H2]; [done|].
  destruct (decide (moduleType = "form")) as [->|H3]; [done|].
  destruct (decide (moduleType = "document")) as [->|H4]; [done|].
  rewrite decide_False; [done|].
  rewrite !elem_of_cons, elem_of_nil. tauto.
Qed.

(** X13. A module made by [createVbaModule] comes last in what
    [listVbaModules] returns, under its name and with the type name it was
    created with when that is one of standard, class, form and document; any
    other type name that the type table does not inherit from
    [Object.prototype] makes a standard module, listed as such. *)
Theorem listVbaModules_after_createVbaModule hx moduleName moduleType code w :
  acceptingX hx ->
  moduleType ∉ inheritedKeys ->
  exists w1,
    createVbaModule hx moduleName moduleType code w = (Returned tt, w1) /\
    listVbaModules hx w1
    = (Returned (moduleInfos hx (project w)
                 ++ [mkModuleInfo moduleName
                       (if decide (moduleType ∈ ["standard"; "class"; "form"; "document"])
                        then moduleType else "standard")]), w1).
Proof.
  intros Hacc Hown. eexists. split; [by apply createVbaModule_accepting|].
  rewrite listVbaModules_accepting by done. simpl project.
  rewrite moduleInfos_snoc. simpl. by rewrite typeNameOf_moduleTypeOf.
Qed.

Lemma listVbaModules_after_createVbaModule_witness :
  exists w1,
    createVbaModule lenientHostX "GenericFormMacros" "macro" (Some "Sub A()") helperAndForm
    = (Returned tt, w1) /\
    listVbaModules lenientHostX w1
    = (Returned (moduleInfos lenientHostX (project helperAndForm)
                 ++ [mkModuleInfo "GenericFormMacros"
                       (if decide ("macro" ∈ ["standard"; "class"; "form"; "document"])
                        then "macro" else "standard")]), w1).
Proof.
  apply (listVbaModules_after_createVbaModule lenientHostX "GenericFormMacros" "macro"
           (Some "Sub A()") helperAndForm acceptingX_lenient).
  vm_compute. intros H. by repeat (inversion H as [|? ? ? H']; clear H; rename H' into H).
Defined.

(** X14. [createVbaModule] makes a UserForm exactly when the type name is
    form: [listUserForms] then lists the new name after the forms it listed
    before, and for every other type name (of those the type table does not
    inherit from [Object.prototype]) it lists what it listed before. *)
Theorem listUserForms_after_createVbaModule hx moduleName moduleType code w :
  acceptingX hx ->
  moduleType ∉ inheritedKeys ->
  exists w1,
    createVbaModule hx moduleName moduleType code w = (Returned tt, w1) /\
    listUserForms hx w1
    = (Returned (formNames hx (project w)
                 ++ (if decide (moduleType = "form") then [moduleName] else [])), w1).
Proof.
  intros Hacc Hown. eexists. split; [by apply createVbaModule_accepting|].
  rewrite listUserForms_accepting by done. simpl project.
  rewrite formNames_snoc. simpl. do 3 f_equal.
  rewrite moduleTypeOf_own by done.
  destruct (decide (moduleType = "form")) as [->|H3]; [done|].
  destruct (decide (moduleType = "standard")) as [->|H1]; [done|].
  destruct (decide (moduleType = "class")) as [->|H2]; [done|].
  by destruct (decide (moduleType = "document")) as [->|H4].
Qed.

Lemma listUserForms_after_createVbaModule_witness :
  exists w1,
    createVbaModule lenientHostX "Dialog" "form" None helperAndForm = (Returned tt, w1) /\
    listUserForms lenientHostX w1
    = (Returned (formNames lenientHostX (project helperAndForm)
                 ++ (if decide ("form" = "form") then ["Dialog"] else [])), w1).
Proof.
  apply (listUserForms_after_createVbaModule lenientHostX "Dialog" "form" None helperAndForm
           acceptingX_lenient).
  vm_compute. intros H. by repeat (inversion H as [|? ? ? H']; clear H; rename H' into H).
Defined.

Lemma codeAt_alter_withCode code i p :
  (i < length p)%nat -> codeAt i (alter (withCode code) i p) = code.
Proof.
  intros Hi. unfold codeAt. rewrite list_lookup_alter_eq.
  destruct (lookup_lt_is_Some_2 p i Hi) as [c ->]. done.
Qed.

Lemma findComponent_lt n p i : findComponent n p = Some i -> (i < length p)%nat.
Proof.
  intros Hfind. destruct (findComponent_Some _ _ _ Hfind) as (c & Hc & _).
  by eapply lookup_lt_Some.
Qed.

(** X16. [getVbaModuleCode] asks for the lines of a module only when it has
    some: for a module without text it returns the empty string whatever the
    host would answer to [Lines].  [addStandardFormEventHandlers] and
    [createShowUserFormModalFunction] ask without that test: where the host
    refuses the lines of an empty module, the first throws for a form
    without code and the second for a helper module without code. *)
Theorem empty_module_lines hx name w wd i e :
  getActiveDocument (hostOf hx) w = (Returned tt, wd) ->
  vbProjectAccessible hx = true ->
  fault (hostOf hx) (project w) (VBComponentsItem name) = None ->
  findComponent name (project w) = Some i ->
  codeAt i (project w) = "" ->
  fault (hostOf hx) (project w) (GetCodeModule i) = None ->
  faultX hx (project w) (CountOfLines i) = None ->
  fault (hostOf hx) (project w) (CodeLines i) = Some e ->
  getVbaModuleCode hx name w = (Returned "", wd) /\
  (typeAt i (project w) = 3 ->
   addStandardFormEventHandlers (hostOf hx) name w
   = (Thrown (newError ("Failed to add event handlers to form '" +:+ name +:+ "'. Error: "
                        +:+ errToString e)), wd)) /\
  (name = "UserFormHelper" ->
   createShowUserFormModalFunction (hostOf hx) w
   = (Thrown (newError ("Failed to create ShowUserFormModal function. Error: "
                        +:+ errToString e)), wd)).
Proof.
  intros Hdoc _ Hitem Hfind Hcode Hcm Hcount Hlines.
  pose proof (getActiveDocument_Returned _ _ _ Hdoc) as (Hwd & _).
  split; [|split].
  - unfold getVbaModuleCode, bind at 1. rewrite Hdoc, Hwd.
    svcx_unfold; simpl. rewrite Hitem; simpl. rewrite Hfind; simpl.
    rewrite Hcm; simpl. rewrite Hcount; simpl. by rewrite Hcode.
  - intros Hty. unfold addStandardFormEventHandlers, bind at 1. rewrite Hdoc, Hwd.
    svc_unfold; simpl. rewrite Hitem; simpl. rewrite Hfind; simpl.
    rewrite decide_True by done; simpl. rewrite Hcm; simpl. by rewrite Hlines.
  - intros ->. unfold createShowUserFormModalFunction, bind at 1. rewrite Hdoc, Hwd.
    svc_unfold; simpl. rewrite Hitem; simpl. rewrite Hfind; simpl.
    rewrite Hcm; simpl. by rewrite Hlines.
Qed.

Lemma empty_module_lines_witness :
  getVbaModuleCode emptyLinesHostX "Fresh" (mkWorld true [builtForm "Fresh" None 300 200])
  = (Returned "", mkWorld true [builtForm "Fresh" None 300 200]) /\
  addStandardFormEventHandlers emptyLinesHost "Fresh"
    (mkWorld true [builtForm "Fresh" None 300 200])
  = (Thrown (newError ("Failed to add event handlers to form '" +:+ "Fresh" +:+ "'. Error: "
                       +:+ errToString (newError "Subscript out of range"))),
     mkWorld true [builtForm "Fresh" None 300 200]).
Proof.
  pose proof (empty_module_lines emptyLinesHostX "Fresh"
                (mkWorld true [builtForm "Fresh" None 300 200])
                (mkWorld true [builtForm "Fresh" None 300 200]) 0%nat
                (newError "Subscript out of range")
                eq_refl eq_refl eq_refl eq_refl eq_refl eq_refl eq_refl eq_refl)
    as (Hget & Hadd & _).
  split; [exact Hget|exact (Hadd eq_refl)].
Defined.

Lemma prefix_app_l needle a b :
  String.prefix needle a = true -> String.prefix needle (a +:+ b) = true.
Proof.
  revert a. induction needle as [|ch needle IH]; intros a.
  - intros _. by destruct (a +:+ b).
  - destruct a as [|ch' a]; simpl; [done|].
    destruct (Ascii.ascii_dec ch ch'); [|done]. apply IH.
Qed.

Lemma occurrences_app needle a b :
  needle <> "" ->
  (occurrences needle a + occurrences needle b <= occurrences needle (a +:+ b))%nat.
Proof.
  intros Hne. induction a as [|ch a IH].
  - destruct needle as [|c needle]; [done|].
    change ("" +:+ b) with b.
    change (occurrences (String c needle) "") with 0%nat. lia.
  - change (String ch a +:+ b) with (String ch (a +:+ b)).
    change (occurrences needle (String ch a))
      with ((if String.prefix needle (String ch a) then 1 else 0)
            + occurrences needle a)%nat.
    change (occurrences needle (String ch (a +:+ b)))
      with ((if String.prefix needle (String ch (a +:+ b)) then 1 else 0)
            + occurrences needle (a +:+ b))%nat.
    destruct (String.prefix needle (String ch a)) eqn:Hp.
    + change (String ch (a +:+ b)) with (String ch a +:+ b) at 1.
      rewrite (prefix_app_l _ _ b Hp). lia.
    + lia.
Qed.

Lemma occurrences_app_r needle a b :
  (occurrences needle b <= occurrences needle (a +:+ b))%nat.
Proof.
  induction a as [|ch a IH]; [done|].
  change (String ch a +:+ b) with (String ch (a +:+ b)).
  change (occurrences needle (String ch (a +:+ b)))
    with ((if String.prefix needle (String ch (a +:+ b)) then 1 else 0)
          + occurrences needle (a +:+ b))%nat.
  lia.
Qed.

Lemma submitCode_cancel targetMacro :
  (1 <= occurrences "Private Sub btnCancel_Click()" (submitCode targetMacro))%nat.
Proof.
  unfold submitCode. cbn [String.concat].
  do 8 (etransitivity; [|apply occurrences_app_r]).
  vm_compute. lia.
Qed.

Lemma occurrences_app_l needle a b :
  needle <> "" ->
  (occurrences needle a <= occurrences needle (a +:+ b))%nat.
Proof. intros Hne. pose proof (occurrences_app needle a b Hne). lia. Qed.

Lemma submitCode_submit targetMacro :
  (1 <= occurrences "Private Sub btnSubmit_Click()" (submitCode targetMacro))%nat.
Proof.
  unfold submitCode. cbn [String.concat].
  etransitivity; [|apply occurrences_app_l; done].
  vm_compute. lia.
Qed.

Lemma addUserFormSubmitLogic_accepting hx formName targetMacro b p i :
  acceptingX hx ->
  findComponent formName p = Some i ->
  typeAt i p = 3 ->
  addUserFormSubmitLogic hx formName targetMacro (mkWorld b p)
  = (Returned tt,
     mkWorld true (alter (withCode (codeAt i p +:+ submitCode targetMacro)) i p)).
Proof.
  intros (Hacc & Hf & _) Hfind Hty. pose proof Hacc as [Hb _].
  unfold addUserFormSubmitLogic, bind at 1. rewrite (getActiveDocument_accepting _ _ Hacc).
  svcx_unfold; simpl. rewrite Hb; simpl. rewrite Hfind; simpl.
  rewrite decide_True by done; simpl. by rewrite !Hb.
Qed.

Lemma typeAt_alter_withCode code i j p : typeAt j (alter (withCode code) i p) = typeAt j p.
Proof.
  unfold typeAt. destruct (decide (i = j)) as [->|Hij].
  - rewrite list_lookup_alter_eq. by destruct (p !! j).
  - by rewrite list_lookup_alter_ne.
Qed.

(** X17. [addUserFormSubmitLogic] looks for no marker before it writes: on a
    host that refuses nothing each call adds its block to the code of the
    form, so that after two calls the handlers of the submit button and of
    the cancel button are each defined at least twice, while every text the
    code held before is still there as often as before. *)
Theorem addUserFormSubmitLogic_appends_each_time hx formName macro1 macro2 w i :
  acceptingX hx ->
  findComponent formName (project w) = Some i ->
  typeAt i (project w) = 3 ->
  exists w1 w2,
    addUserFormSubmitLogic hx formName macro1 w = (Returned tt, w1) /\
    addUserFormSubmitLogic hx formName macro2 w1 = (Returned tt, w2) /\
    (2 <= occurrences "Private Sub btnSubmit_Click()" (codeAt i (project w2)))%nat /\
    (2 <= occurrences "Private Sub btnCancel_Click()" (codeAt i (project w2)))%nat /\
    (forall text, text <> "" ->
       occurrences text (codeAt i (project w))
       <= occurrences text (codeAt i (project w2)))%nat.
Proof.
  intros Hacc Hfind Hty. destruct w as [b p]; simpl in *.
  pose proof (findComponent_lt _ _ _ Hfind) as Hi.
  eexists _, _.
  split; [by apply addUserFormSubmitLogic_accepting|].
  split.
  { apply addUserFormSubmitLogic_accepting; [done| |].
    - by rewrite findComponent_alter.
    - by rewrite typeAt_alter_withCode. }
  cbn [project].
  rewrite !codeAt_alter_withCode by (by rewrite ?length_alter).
  split; [|split].
  - etransitivity; [|apply occurrences_app; done].
    etransitivity; [|apply Nat.add_le_mono; [apply occurrences_app_r|apply submitCode_submit]].
    pose proof (submitCode_submit macro1). lia.
  - etransitivity; [|apply occurrences_app; done].
    etransitivity; [|apply Nat.add_le_mono; [apply occurrences_app_r|apply submitCode_cancel]].
    pose proof (submitCode_cancel macro1). lia.
  - intros text Htext.
    etransitivity; [|apply occurrences_app_l; done].
    by apply occurrences_app_l.
Qed.

Lemma addUserFormSubmitLogic_appends_each_time_witness :
  exists w1 w2,
    addUserFormSubmitLogic lenientHostX "SignupForm" "Process" helperAndForm
    = (Returned tt, w1) /\
    addUserFormSubmitLogic lenientHostX "SignupForm" "Process" w1 = (Returned tt, w2) /\
    (2 <= occurrences "Private Sub btnSubmit_Click()" (codeAt 1 (project w2)))%nat /\
    (2 <= occurrences "Private Sub btnCancel_Click()" (codeAt 1 (project w2)))%nat /\
    (forall text, text <> "" ->
       occurrences text (codeAt 1 (project helperAndForm))
       <= occurrences text (codeAt 1 (project w2)))%nat.
Proof.
  apply (addUserFormSubmitLogic_appends_each_time lenientHostX "SignupForm" "Process"
           "Process" helperAndForm 1%nat acceptingX_lenient); reflexivity.
Defined.

Lemma buttonCode_cancel :
  (1 <= occurrences "Private Sub btnCancel_Click()" buttonCode)%nat.
Proof. vm_compute. lia. Qed.

(** X18. The submit logic and the standard handlers do not know of each
    other: on a host that refuses nothing, after [addUserFormSubmitLogic] on
    a form that [createFormWithControls] made with the standard buttons, the
    code of the form defines the handler of the cancel button at least
    twice, once by each. *)
Theorem submit_logic_after_standard_buttons hx formName formCaption formWidth formHeight
    controls targetMacro w :
  acceptingX hx ->
  findComponent formName (project w) = None ->
  exists w1 w2,
    createFormWithControls (hostOf hx) formName formCaption formWidth formHeight
      controls true w = (Returned tt, w1) /\
    addUserFormSubmitLogic hx formName targetMacro w1 = (Returned tt, w2) /\
    (1 <= occurrences "Private Sub btnCancel_Click()"
            (codeAt (length (project w)) (project w1)))%nat /\
    (2 <= occurrences "Private Sub btnCancel_Click()"
            (codeAt (length (project w)) (project w2)))%nat.
Proof.
  intros Hacc Hfresh. pose proof Hacc as (Hbase & _).
  eexists _, _.
  split; [by apply createFormWithControls_accepting|].
  split.
  { apply addUserFormSubmitLogic_accepting; [done| |].
    - by apply findComponent_last.
    - by rewrite typeAt_last. }
  cbn [project]. rewrite codeAt_last, alter_last, codeAt_last.
  unfold expectedForm, withCode. cbn [vbcCode].
  split; [apply buttonCode_cancel|].
  etransitivity; [|apply occurrences_app; done].
  pose proof buttonCode_cancel. pose proof (submitCode_cancel targetMacro). lia.
Qed.

Lemma submit_logic_after_standard_buttons_witness :
  exists w1 w2,
    createFormWithControls (hostOf lenientHostX) "Order" "Order" 400 300
      [] true (mkWorld false []) = (Returned tt, w1) /\
    addUserFormSubmitLogic lenientHostX "Order" "Process" w1 = (Returned tt, w2) /\
    (1 <= occurrences "Private Sub btnCancel_Click()"
            (codeAt (length (project (mkWorld false []))) (project w1)))%nat /\
    (2 <= occurrences "Private Sub btnCancel_Click()"
            (codeAt (length (project (mkWorld false []))) (project w2)))%nat.
Proof.
  apply (submit_logic_after_standard_buttons lenientHostX "Order" "Order" 400 300 []
           "Process" (mkWorld false []) acceptingX_lenient).
  reflexivity.
Defined.

Lemma controlInfo_describes control info :
  controlInfo control = Reads info -> describes control info.
Proof.
  unfold controlInfo, describes, orElse.
  destruct (dcName control) as [|n]; [done|].
  destruct (dcProgID control) as [|progId]; [done|].
  assert (truthyValue (if truthyValue progId then progId else JStr "Unknown") = true) as Hty.
  { destruct (truthyValue progId) eqn:Hp; [done|reflexivity]. }
  destruct (dcValue control) as [|v]; [done|].
  destruct (truthyValue v) eqn:Hv.
  { intros [= <-]; simpl. repeat split; [done|congruence]. }
  destruct (dcText control) as [|t]; [done|].
  destruct (truthyValue t) eqn:Ht.
  { intros [= <-]; simpl. repeat split; [done|congruence]. }
  destruct (dcCaption control) as [|c]; [done|].
  intros [= <-]; simpl. by repeat split.
Qed.

Lemma describeControls_Returned controls : forall acc infos w w',
  describeControls controls acc w = (Returned infos, w') ->
  w' = w /\ exists rest, infos = acc ++ rest /\ Forall2 describes controls rest.
Proof.
  induction controls as [|control controls IH]; intros acc infos w w'; simpl.
  - intros [= <- <-]. split; [done|]. exists []. by rewrite app_nil_r.
  - destruct (controlInfo control) as [e|info] eqn:Hinfo; [done|].
    intros Hrun. apply IH in Hrun as (-> & rest & -> & Hrest).
    split; [done|]. exists (info :: rest). rewrite <- app_assoc. split; [done|].
    constructor; [by apply controlInfo_describes|done].
Qed.

(** X19. Whatever the host, when [getUserFormControls] returns, the name is
    that of a component of type 3, the project is as before, and the array
    has one entry for each control the designer enumerates, in that order:
    the entry bears the name read from the control, its type is never empty
    (a missing or empty ProgID gives Unknown), and its value is a falsy one
    (false, 0, the empty string, undefined) only when that is the caption,
    Value and Text having been passed over. *)
Theorem getUserFormControls_entries hx formName w infos w' :
  vbProjectAccessible hx = true ->
  getUserFormControls hx formName w = (Returned infos, w') ->
  exists i,
    findComponent formName (project w) = Some i /\
    typeAt i (project w) = 3 /\
    project w' = project w /\
    Forall2 describes (designedControls hx (project w) i) infos.
Proof.
  intros _. unfold getUserFormControls, bind at 1.
  destruct (getActiveDocument (hostOf hx) w) as [[[]|e] w1] eqn:Hdoc; [|done].
  apply getActiveDocument_project in Hdoc. rewrite <- Hdoc. clear Hdoc w.
  destruct w1 as [b p]. svcx_unfold; simpl.
  destruct (fault (hostOf hx) p (VBComponentsItem formName)); simpl; [done|].
  destruct (findComponent formName p) as [i|]; simpl; [|done].
  destruct (decide (typeAt i p = 3)) as [Hty|]; simpl; [|done].
  destruct (fault (hostOf hx) p (GetDesigner i)); simpl; [done|].
  destruct (describeControls (designedControls hx p i) [] (mkWorld b p))
    as [[infos0|e] w2] eqn:Hrun; [|done].
  intros [= <- <-].
  apply describeControls_Returned in Hrun as (-> & rest & -> & Hrest).
  exists i. by repeat split.
Qed.

Lemma getUserFormControls_entries_witness :
  exists i,
    findComponent "SignupForm" (project helperAndForm) = Some i /\
    typeAt i (project helperAndForm) = 3 /\
    project helperAndForm = project helperAndForm /\
    Forall2 describes (designedControls twoControlsHostX (project helperAndForm) i)
      [ mkControlInfo "chkSubscribe" (JStr "Forms.CheckBox.1") (JStr "Subscribe");
        mkControlInfo "txtName" (JStr "Unknown") JUndefined ].
Proof.
  apply (getUserFormControls_entries twoControlsHostX "SignupForm" helperAndForm
           [ mkControlInfo "chkSubscribe" (JStr "Forms.CheckBox.1") (JStr "Subscribe");
             mkControlInfo "txtName" (JStr "Unknown") JUndefined ] helperAndForm);
    reflexivity.
Defined.

(** X20. The two readers of a form's controls disagree on falsy values.  For
    a form whose only control, of a name other than [__proto__], reads a
    [Value] that is defined but falsy
    (false, 0, the empty string, null) and a falsy [Text], [showUserForm]
    stores that [Value] under the control's name, since it tests against
    undefined, while [getUserFormControls] reports the caption as the
    control's value, since it chains with [||]. *)
Theorem readers_disagree_on_falsy_values hx formName w wd i kind n progId v t c :
  getActiveDocument (hostOf hx) w = (Returned tt, wd) ->
  vbProjectAccessible hx = true ->
  fault (hostOf hx) (project w) (VBComponentsItem formName) = None ->
  findComponent formName (project w) = Some i ->
  typeAt i (project w) = 3 ->
  fault (hostOf hx) (project w) (GetDesigner i) = None ->
  fault (hostOf hx) (project w) (ShowModal i) = None ->
  sessionControls (hostOf hx) (project w) i
  = [mkLive kind (Reads n) (Reads v) (Reads t) (Reads c)] ->
  designedControls hx (project w) i
  = [mkDesigned (Reads n) (Reads progId) (Reads v) (Reads t) (Reads c)] ->
  n <> "__proto__" ->
  v <> JUndefined -> truthyValue v = false -> truthyValue t = false ->
  showUserForm (hostOf hx) formName w = (Returned {[ n := v ]}, wd) /\
  getUserFormControls hx formName w
  = (Returned [mkControlInfo n (orElse progId (JStr "Unknown")) c], wd).
Proof.
  intros Hdoc _ Hitem Hfind Hty Hdsg Hshow Hlive Hdesigned Hn Hdef Hv Ht.
  split.
  - rewrite (showUserForm_shown _ _ _ wd i) by done. rewrite Hlive.
    unfold collectFormData. cbn [collectInto].
    unfold extractControl. cbn [lcName lcValue lcText lcCaption].
    rewrite decide_False by done. by rewrite assign_other.
  - pose proof (getActiveDocument_Returned _ _ _ Hdoc) as (Hwd & _).
    unfold getUserFormControls, bind at 1. rewrite Hdoc, Hwd.
    svcx_unfold; simpl. rewrite Hitem; simpl. rewrite Hfind; simpl.
    rewrite decide_True by done; simpl. rewrite Hdsg; simpl.
    rewrite Hdesigned. unfold describeControls, controlInfo; simpl.
    by rewrite Hv, Ht.
Qed.

Lemma readers_disagree_on_falsy_values_witness :
  showUserForm (hostOf uncheckedBoxHostX) "SignupForm" helperAndForm
  = (Returned {[ "chkSubscribe" := JBool false ]}, helperAndForm) /\
  getUserFormControls uncheckedBoxHostX "SignupForm" helperAndForm
  = (Returned [mkControlInfo "chkSubscribe"
                 (orElse (JStr "Forms.CheckBox.1") (JStr "Unknown")) (JStr "Subscribe")],
     helperAndForm).
Proof.
  apply (readers_disagree_on_falsy_values uncheckedBoxHostX "SignupForm" helperAndForm
           helperAndForm 1%nat "CheckBox" "chkSubscribe" (JStr "Forms.CheckBox.1")
           (JBool false) JUndefined (JStr "Subscribe")); try reflexivity.
  - discriminate.
  - discriminate.
Defined.

Lemma describeControls_raises pre control post e : forall acc w,
  Forall (fun c => exists info, controlInfo c = Reads info) pre ->
  controlInfo control = Raises e ->
  describeControls (pre ++ control :: post) acc w = (Thrown e, w).
Proof.
  induction pre as [|c pre IH]; intros acc w Hpre Hraise; simpl.
  - by rewrite Hraise.
  - apply Forall_cons in Hpre as [[info ->] Hpre]. by apply IH.
Qed.

(** X21. [getUserFormControls] is all or nothing: when a property read of one
    control raises, the call throws its wrapped error and nothing of the
    controls before it is returned, whatever they read (where [showUserForm]
    keeps what it has collected by then). *)
Theorem getUserFormControls_all_or_nothing hx formName w wd i pre control post e :
  getActiveDocument (hostOf hx) w = (Returned tt, wd) ->
  vbProjectAccessible hx = true ->
  fault (hostOf hx) (project w) (VBComponentsItem formName) = None ->
  findComponent formName (project w) = Some i ->
  typeAt i (project w) = 3 ->
  fault (hostOf hx) (project w) (GetDesigner i) = None ->
  designedControls hx (project w) i = pre ++ control :: post ->
  Forall (fun c => exists info, controlInfo c = Reads info) pre ->
  controlInfo control = Raises e ->
  getUserFormControls hx formName w
  = (Thrown (newError ("Failed to get controls for UserForm '" +:+ formName
                       +:+ "'. Error: " +:+ errToString e)), wd).
Proof.
  intros Hdoc _ Hitem Hfind Hty Hdsg Hctl Hpre Hraise.
  pose proof (getActiveDocument_Returned _ _ _ Hdoc) as (Hwd & _).
  unfold getUserFormControls, bind at 1. rewrite Hdoc, Hwd.
  svcx_unfold; simpl. rewrite Hitem; simpl. rewrite Hfind; simpl.
  rewrite decide_True by done; simpl. rewrite Hdsg; simpl.
  rewrite Hctl. by rewrite (describeControls_raises pre control post e).
Qed.

Lemma getUserFormControls_all_or_nothing_witness :
  getUserFormControls brokenControlHostX "SignupForm" helperAndForm
  = (Thrown (newError ("Failed to get controls for UserForm '" +:+ "SignupForm"
                       +:+ "'. Error: "
                       +:+ errToString
                             (newError "Object doesn't support this property or method"))),
     helperAndForm).
Proof.
  apply (getUserFormControls_all_or_nothing brokenControlHostX "SignupForm" helperAndForm
           helperAndForm 1%nat
           [mkDesigned (Reads "txtName") (Reads (JStr "Forms.TextBox.1"))
                       (Reads (JStr "Ann")) (Reads (JStr "Ann")) (Reads JUndefined)]
           (mkDesigned (Reads "imgLogo") (Reads (JStr "Forms.Image.1"))
                       (Raises (newError "Object doesn't support this property or method"))
                       (Reads JUndefined) (Reads JUndefined))
           [mkDesigned (Reads "txtEmail") (Reads (JStr "Forms.TextBox.1"))
                       (Reads (JStr "a@b.c")) (Reads (JStr "a@b.c")) (Reads JUndefined)]);
    try reflexivity.
  - constructor; [|constructor]. by eexists.
Defined.

Ltac svcf_unfold :=
  cbv beta iota delta [bindX tryCatchX liftX retX throwX Document_SaveAs2 Component_Export
    setRecordingMacroName].

Lemma fileFormatOf_own hx format :
  format ∉ inheritedKeys ->
  fileFormatOf hx format ∈ [13; 15; 16; 14; 1] /\
  (format ∉ ["dotm"; "docx"; "dotx"; "dot"] -> fileFormatOf hx format = 13).
Proof.
  intros Hown. unfold fileFormatOf, formatMap.
  rewrite !elem_of_cons, !elem_of_nil.
  destruct (decide (format = "docm")) as [->|H1]; [by auto|].
  destruct (decide (format = "dotm")) as [->|H2];
    [split; [by auto|intros H; destruct H; by auto]|].
  destruct (decide (format = "docx")) as [->|H3];
    [split; [by auto|intros H; destruct H; by auto]|].
  destruct (decide (format = "dotx")) as [->|H4];
    [split; [by auto|intros H; destruct H; by auto]|].
  destruct (decide (format = "doc")) as [->|H5]; [by auto|].
  destruct (decide (format = "dot")) as [->|H6];
    [split; [by auto 10|intros H; destruct H; by auto 10]|].
  simpl. rewrite !lookup_insert_ne by done. rewrite lookup_empty.
  rewrite decide_False by done. by auto.
Qed.

(** X22. [saveAsMacroEnabled] never saves in format 0.  Whatever the host,
    when the call returns, the last file written is the given path, in one
    of the formats 13, 15, 16, 14 and 1; every format name other than dotm,
    docx, dotx and dot (and than the names the table inherits from
    [Object.prototype]) gives 13, the name doc among them, whose entry 0 is
    falsy. *)
Theorem saveAsMacroEnabled_format hx filePath format createBackup wx wx' :
  saveAsMacroEnabled hx filePath format createBackup wx = (Returned tt, wx') ->
  format ∉ inheritedKeys ->
  exists fileFormat,
    last (savedAs wx') = Some (filePath, Some fileFormat) /\
    fileFormat ∈ [13; 15; 16; 14; 1] /\
    (format ∉ ["dotm"; "docx"; "dotx"; "dot"] -> fileFormat = 13).
Proof.
  intros Hrun Hown. exists (fileFormatOf hx format).
  split; [|by apply fileFormatOf_own].
  revert Hrun. unfold saveAsMacroEnabled. svcf_unfold.
  destruct (getActiveDocument (hostOf hx) (worldOf wx)) as [[[]|e] w1]; [|done].
  destruct createBackup; simpl.
  - destruct (faultX hx (project w1) (SaveAs2 (backupPath filePath) None)); simpl; [done|].
    destruct (faultX hx (project w1) (SaveAs2 filePath (Some (fileFormatOf hx format))));
      simpl; [done|].
    intros [= <-]; simpl. by rewrite last_snoc.
  - destruct (faultX hx (project w1) (SaveAs2 filePath (Some (fileFormatOf hx format))));
      simpl; [done|].
    intros [= <-]; simpl. by rewrite last_snoc.
Qed.

Lemma saveAsMacroEnabled_format_witness :
  exists fileFormat,
    last (savedAs (mkWorldX (mkWorld true []) [("C:\out\report.doc", Some 13)] [] None))
    = Some ("C:\out\report.doc", Some fileFormat) /\
    fileFormat ∈ [13; 15; 16; 14; 1] /\
    ("doc" ∉ ["dotm"; "docx"; "dotx"; "dot"] -> fileFormat = 13).
Proof.
  apply (saveAsMacroEnabled_format lenientHostX "C:\out\report.doc" "doc" false emptyWorldX).
  - reflexivity.
  - vm_compute. intros H. by repeat (inversion H as [|? ? ? H']; clear H; rename H' into H).
Defined.

Lemma saveAsMacroEnabled_accepting hx filePath format createBackup wx :
  acceptingX hx ->
  saveAsMacroEnabled hx filePath format createBackup wx
  = (Returned tt,
     mkWorldX (mkWorld true (project (worldOf wx)))
       (savedAs wx ++ (if createBackup then [(backupPath filePath, None)] else [])
        ++ [(filePath, Some (fileFormatOf hx format))])
       (exported wx) (recordingMacroName wx)).
Proof.
  intros (Hacc & Hf & _).
  unfold saveAsMacroEnabled. svcf_unfold.
  rewrite (getActiveDocument_accepting _ _ Hacc).
  destruct createBackup; simpl; rewrite ?Hf; simpl; rewrite ?Hf; simpl.
  - by rewrite <- app_assoc.
  - done.
Qed.

Lemma noFullStop_app a b : noFullStop (a +:+ String fullStop b) = false.
Proof.
  induction a as [|c a IH]; simpl; [done|].
  by destruct (decide (c = fullStop)).
Qed.

Lemma backupPath_extension stem extension :
  extension <> "" -> noFullStop extension = true ->
  backupPath (stem +:+ String fullStop extension)
  = stem +:+ "_backup" +:+ String fullStop extension.
Proof.
  intros Hne Hext. induction stem as [|c stem IH].
  - change ("" +:+ String fullStop extension) with (String fullStop extension).
    cbn [backupPath]. rewrite bool_decide_eq_true_2 by done.
    rewrite bool_decide_eq_false_2 by done. by rewrite Hext.
  - change (String c stem +:+ String fullStop extension)
      with (String c (stem +:+ String fullStop extension)).
    cbn [backupPath]. rewrite noFullStop_app, andb_false_r.
    by rewrite IH.
Qed.

Lemma backupPath_no_extension filePath :
  noFullStop filePath = true -> backupPath filePath = filePath.
Proof.
  induction filePath as [|c rest IH]; [done|]. simpl.
  destruct (decide (c = fullStop)); [done|]. intros Hrest.
  rewrite bool_decide_eq_false_2 by done. simpl. by rewrite IH.
Qed.

Lemma backupPath_trailing stem :
  backupPath (stem +:+ String fullStop "") = stem +:+ String fullStop "".
Proof.
  induction stem as [|c stem IH].
  - reflexivity.
  - change (String c stem +:+ String fullStop "")
      with (String c (stem +:+ String fullStop "")).
    cbn [backupPath]. rewrite noFullStop_app, andb_false_r. by rewrite IH.
Qed.

(** X23. With [createBackup], on a host that refuses nothing,
    [saveAsMacroEnabled] first saves a copy beside the file, its name made by
    putting [_backup] before the last full stop of the path, and then the
    file itself.  What follows that full stop may be any text without a full
    stop: when the last full stop of the path is in a directory name, the
    copy goes to another directory. *)
Theorem saveAsMacroEnabled_backup_path hx stem extension format wx :
  acceptingX hx ->
  extension <> "" -> noFullStop extension = true ->
  exists wx',
    saveAsMacroEnabled hx (stem +:+ String fullStop extension) format true wx
    = (Returned tt, wx') /\
    savedAs wx'
    = savedAs wx
      ++ [ (stem +:+ "_backup" +:+ String fullStop extension, None);
           (stem +:+ String fullStop extension, Some (fileFormatOf hx format)) ] /\
    exported wx' = exported wx /\
    project (worldOf wx') = project (worldOf wx).
Proof.
  intros Hacc Hne Hext. eexists.
  split; [by apply saveAsMacroEnabled_accepting|].
  simpl. by rewrite backupPath_extension.
Qed.

Lemma saveAsMacroEnabled_backup_path_witness :
  exists wx',
    saveAsMacroEnabled lenientHostX ("C:\reports" +:+ String fullStop "2024\summary")
      "docm" true emptyWorldX = (Returned tt, wx') /\
    savedAs wx'
    = savedAs emptyWorldX
      ++ [ ("C:\reports" +:+ "_backup" +:+ String fullStop "2024\summary", None);
           ("C:\reports" +:+ String fullStop "2024\summary",
            Some (fileFormatOf lenientHostX "docm")) ] /\
    exported wx' = exported emptyWorldX /\
    project (worldOf wx') = project (worldOf emptyWorldX).
Proof.
  apply (saveAsMacroEnabled_backup_path lenientHostX "C:\reports" "2024\summary" "docm"
           emptyWorldX acceptingX_lenient).
  - discriminate.
  - reflexivity.
Defined.

(** X24. For a path without a full stop, or with nothing after its last one,
    the pattern finds no match and the backup path is the path itself: on a
    host that refuses nothing, [saveAsMacroEnabled] with [createBackup] then
    saves twice to the same path, so that no copy is kept. *)
Theorem saveAsMacroEnabled_backup_without_extension hx filePath format wx :
  acceptingX hx ->
  noFullStop filePath = true \/ (exists stem, filePath = stem +:+ String fullStop "") ->
  exists wx',
    saveAsMacroEnabled hx filePath format true wx = (Returned tt, wx') /\
    savedAs wx'
    = savedAs wx ++ [(filePath, None); (filePath, Some (fileFormatOf hx format))].
Proof.
  intros Hacc Hpath. eexists.
  split; [by apply saveAsMacroEnabled_accepting|].
  simpl. destruct Hpath as [Hno|[stem ->]].
  - by rewrite backupPath_no_extension.
  - by rewrite backupPath_trailing.
Qed.

Lemma saveAsMacroEnabled_backup_without_extension_witness :
  exists wx',
    saveAsMacroEnabled lenientHostX "C:\out\report" "docm" true emptyWorldX
    = (Returned tt, wx') /\
    savedAs wx'
    = savedAs emptyWorldX
      ++ [("C:\out\report", None); ("C:\out\report", Some (fileFormatOf lenientHostX "docm"))].
Proof.
  apply (saveAsMacroEnabled_backup_without_extension lenientHostX "C:\out\report" "docm"
           emptyWorldX acceptingX_lenient).
  left. reflexivity.
Defined.

Lemma getWordApplication_accepting h w :
  accepting h -> getWordApplication h w = (Returned tt, mkWorld true (project w)).
Proof.
  intros [Hf _]. unfold getWordApplication, bind, tryCatch, com, setWordApp, ret.
  destruct w as [[] p]; simpl; rewrite ?Hf; simpl; rewrite ?Hf; reflexivity.
Qed.

(** X25. [stopRecordingMacro] gives back the name [startRecordingMacro] was
    called with, once: on a host that refuses nothing, the stop after a start
    returns the name given, or RecordedMacro when that name is empty, and a
    second stop returns RecordedMacro whatever the name was. *)
Theorem stopRecordingMacro_after_start hx macroName description wx :
  acceptingX hx ->
  exists wx1 wx2 wx3,
    startRecordingMacro hx macroName description wx = (Returned tt, wx1) /\
    stopRecordingMacro hx wx1
    = (Returned (if decide (macroName = "") then "RecordedMacro" else macroName), wx2) /\
    stopRecordingMacro hx wx2 = (Returned "RecordedMacro", wx3) /\
    recordingMacroName wx3 = None.
Proof.
  intros (Hacc & _).
  exists (mkWorldX (mkWorld true (project (worldOf wx))) (savedAs wx) (exported wx)
                   (Some macroName)),
         (mkWorldX (mkWorld true (project (worldOf wx))) (savedAs wx) (exported wx) None),
         (mkWorldX (mkWorld true (project (worldOf wx))) (savedAs wx) (exported wx) None).
  unfold startRecordingMacro, stopRecordingMacro. svcf_unfold.
  rewrite !getWordApplication_accepting by done.
  cbn [worldOf project savedAs exported recordingMacroName].
  split; [reflexivity|]. split; [|split; reflexivity].
  unfold truthy. by destruct (decide (macroName = "")).
Qed.

Lemma stopRecordingMacro_after_start_witness :
  exists wx1 wx2 wx3,
    startRecordingMacro lenientHostX "Format" None emptyWorldX = (Returned tt, wx1) /\
    stopRecordingMacro lenientHostX wx1
    = (Returned (if decide ("Format" = "") then "RecordedMacro" else "Format"), wx2) /\
    stopRecordingMacro lenientHostX wx2 = (Returned "RecordedMacro", wx3) /\
    recordingMacroName wx3 = None.
Proof.
  apply (stopRecordingMacro_after_start lenientHostX "Format" None emptyWorldX
           acceptingX_lenient).
Defined.

Lemma typeAt_middle pre c post : typeAt (length pre) (pre ++ c :: post) = vbcType c.
Proof. unfold typeAt. by rewrite list_lookup_middle. Qed.

Lemma clearComponents_accepting hx b pre : forall post,
  (forall p c, faultX hx p c = None) ->
  clearComponents hx (length pre) (mkWorld b (pre ++ post))
  = (Returned tt, mkWorld b (filter isDocumentModule pre ++ post)).
Proof.
  induction pre as [|c pre IH] using rev_ind; intros post Hf; [done|].
  rewrite length_app, Nat.add_comm. cbn [length Nat.add clearComponents].
  rewrite <- app_assoc. cbn [app].
  unfold bind at 1, comX at 1. cbn [project]. rewrite Hf.
  unfold bind at 1, getProject at 1. cbn [project].
  rewrite typeAt_middle, filter_app.
  destruct (decide (vbcType c <> 100)) as [Hty|Hty].
  - unfold bind at 1, VBComponents_Remove, bind at 1, comX at 1. cbn [project].
    rewrite Hf. unfold modifyProject. cbn [project wordApp].
    rewrite delete_middle, IH by done.
    rewrite filter_cons_False by done. by rewrite filter_nil, app_nil_r.
  - unfold bind at 1, ret at 1. rewrite IH by done.
    apply dec_stable in Hty.
    rewrite filter_cons_True by done. by rewrite filter_nil, <- app_assoc.
Qed.

(** X26. [importVbaProject] imports nothing: on a host that refuses nothing
    it returns the empty list for every path.  Without [clearExisting] the
    project is left as it was; with it every component is removed except the
    document modules (type 100), which stay in their order: modules, class
    modules and forms are gone and nothing has come in their place. *)
Theorem importVbaProject_imports_nothing hx importPath clearExisting importReferences b p :
  acceptingX hx ->
  importVbaProject hx importPath clearExisting importReferences (mkWorld b p)
  = (Returned [],
     mkWorld true (if (clearExisting : bool) then filter isDocumentModule p else p)).
Proof.
  intros (Hacc & Hf & _).
  unfold importVbaProject, bind at 1. rewrite (getActiveDocument_accepting _ _ Hacc).
  cbn [project]. unfold tryCatch, bind at 1.
  destruct clearExisting.
  - unfold bind at 1, comX at 1. cbn [project]. rewrite Hf.
    unfold bind at 1, getProject at 1. cbn [project].
    pose proof (clearComponents_accepting hx true p [] Hf) as Hclear.
    rewrite !app_nil_r in Hclear. by rewrite Hclear.
  - done.
Qed.

Lemma importVbaProject_imports_nothing_witness :
  importVbaProject lenientHostX "C:\modules" true true helperAndForm
  = (Returned [],
     mkWorld true (if true then filter isDocumentModule (project helperAndForm)
                   else project helperAndForm)).
Proof.
  apply (importVbaProject_imports_nothing lenientHostX "C:\modules" true true true
           (project helperAndForm) acceptingX_lenient).
Defined.

Lemma exportComponents_accepting hx exportPath n : forall i files wx,
  acceptingX hx ->
  exportComponents hx n i exportPath files wx
  = (Returned (files ++ ((fun j => exportPath +:+ backslash
                                   +:+ nameAt hx j (project (worldOf wx))
                                   +:+ extensionOf (typeAt j (project (worldOf wx))))
                         <$> seq i n)),
     mkWorldX (worldOf wx) (savedAs wx)
       (exported wx ++ ((fun j => exportPath +:+ backslash
                                  +:+ nameAt hx j (project (worldOf wx))
                                  +:+ extensionOf (typeAt j (project (worldOf wx))))
                        <$> seq i n))
       (recordingMacroName wx)).
Proof.
  induction n as [|n IH]; intros i files wx Hacc; pose proof Hacc as (_ & Hf & _).
  - cbn [exportComponents seq fmap list_fmap]. svcf_unfold. unfold comX. rewrite Hf.
    rewrite !app_nil_r. by destruct wx as [[]].
  - cbn [exportComponents]. svcf_unfold. unfold comX, getProject. rewrite !Hf.
    cbn [worldOf project savedAs exported recordingMacroName]. rewrite ?Hf.
    rewrite IH by done.
    cbn [worldOf project savedAs exported recordingMacroName seq fmap list_fmap].
    destruct wx as [[bw pw] sv ex rn]. cbn [worldOf project wordApp].
    by rewrite <- !app_assoc.
Qed.

(** X27. [exportVbaProject] reports files it has not written.  On a host
    that refuses nothing it exports one file for each component, named by
    the export path, a backslash, the component's name and an extension
    (.bas for type 1, .cls for type 2 and .frm for every other type, document
    modules among them), and returns those names followed, when asked for,
    by project.info and references.txt, which no call writes. *)
Theorem exportVbaProject_reports_unwritten_files hx exportPath includeReferences
    includeProjectInfo wx :
  acceptingX hx ->
  exists wx',
    exportVbaProject hx exportPath includeReferences includeProjectInfo wx
    = (Returned (exportNames hx exportPath (project (worldOf wx))
                 ++ (if (includeProjectInfo : bool)
                     then [exportPath +:+ backslash +:+ "project.info"] else [])
                 ++ (if (includeReferences : bool)
                     then [exportPath +:+ backslash +:+ "references.txt"] else [])), wx') /\
    exported wx' = exported wx ++ exportNames hx exportPath (project (worldOf wx)) /\
    savedAs wx' = savedAs wx /\
    project (worldOf wx') = project (worldOf wx).
Proof.
  intros Hacc. pose proof Hacc as (Hbase & _).
  eexists. split.
  - unfold exportVbaProject.
    unfold bindX at 1, liftX at 1. rewrite (getActiveDocument_accepting _ _ Hbase).
    unfold tryCatchX, bindX at 1, liftX at 1, getProject.
    cbn [worldOf project]. unfold bindX at 1.
    rewrite exportComponents_accepting by done.
    cbn [worldOf project savedAs exported recordingMacroName app].
    unfold retX, exportNames.
    destruct includeProjectInfo, includeReferences;
      rewrite <- ?app_assoc, ?app_nil_r; reflexivity.
  - done.
Qed.

Lemma exportVbaProject_reports_unwritten_files_witness :
  exists wx',
    exportVbaProject lenientHostX "C:\out" true true (mkWorldX helperAndForm [] [] None)
    = (Returned (exportNames lenientHostX "C:\out" (project helperAndForm)
                 ++ (if true then ["C:\out" +:+ backslash +:+ "project.info"] else [])
                 ++ (if true then ["C:\out" +:+ backslash +:+ "references.txt"] else [])),
       wx') /\
    exported wx' = [] ++ exportNames lenientHostX "C:\out" (project helperAndForm) /\
    savedAs wx' = [] /\
    project (worldOf wx') = project helperAndForm.
Proof.
  apply (exportVbaProject_reports_unwritten_files lenientHostX "C:\out" true true
           (mkWorldX helperAndForm [] [] None) acceptingX_lenient).
Defined.

Lemma checkComponent_eval hx i errors w :
  (forall p c, faultX hx p c = None) ->
  (forall p j, fault (hostOf hx) p (GetCodeModule j) = None) ->
  checkComponent hx i errors w = (Returned (errors ++ lineError hx (project w) i), w).
Proof.
  intros Hf Hcm. unfold checkComponent, lineError. svcx_unfold.
  rewrite Hcm, Hf.
  destruct (decide (0 < countOfLines (codeAt i (project w)))%nat); [|by rewrite app_nil_r].
  destruct (fault (hostOf hx) (project w) (CodeLines i)); [done|by rewrite app_nil_r].
Qed.

(** X28. [compileVbaProject] compiles nothing: its result is made of the
    refusals of the host to read the lines of a component, one message for
    each component that has lines and whose lines cannot be read, and of
    nothing else.  When the host reads the lines of every component, the
    result is success with [errors] undefined, whatever the code says. *)
Theorem compileVbaProject_reads_lines_only hx w wd :
  getActiveDocument (hostOf hx) w = (Returned tt, wd) ->
  vbProjectAccessible hx = true ->
  (forall p c, faultX hx p c = None) ->
  (forall p j, fault (hostOf hx) p (GetCodeModule j) = None) ->
  compileVbaProject hx w
  = (Returned (mkCompileResult
                 (bool_decide (lineErrors hx (project w) = []))
                 (if decide (lineErrors hx (project w) = []) then None
                  else Some (lineErrors hx (project w)))), wd) /\
  ((forall i, fault (hostOf hx) (project w) (CodeLines i) = None) ->
   compileVbaProject hx w = (Returned (mkCompileResult true None), wd)).
Proof.
  intros Hdoc _ Hf Hcm.
  pose proof (getActiveDocument_Returned _ _ _ Hdoc) as (Hwd & _).
  assert (compileVbaProject hx w
          = (Returned (mkCompileResult
                         (bool_decide (lineErrors hx (project w) = []))
                         (if decide (lineErrors hx (project w) = []) then None
                          else Some (lineErrors hx (project w)))), wd)) as Hrun.
  { unfold compileVbaProject, bind at 1. rewrite Hdoc, Hwd.
    unfold tryCatch, bind at 1, getProject. cbn [project].
    unfold bind at 1.
    rewrite (forComponents_pure hx _ (fun i errors p => errors ++ lineError hx p i));
      [|done|intros; by apply checkComponent_eval].
    cbn [project]. rewrite fold_left_flat_map. cbn [app].
    fold (lineErrors hx (project w)). unfold ret.
    destruct (lineErrors hx (project w)) as [|m errs]; [done|].
    rewrite bool_decide_eq_false_2 by done. rewrite decide_True by (simpl; lia).
    by rewrite bool_decide_eq_false_2, decide_False by done. }
  split; [done|].
  intros Hlines. rewrite Hrun.
  assert (lineErrors hx (project w) = []) as ->; [|done].
  unfold lineErrors. induction (seq 0 (length (project w))) as [|j l IH]; [done|].
  simpl. rewrite IH, app_nil_r. unfold lineError. rewrite Hlines.
  by destruct (decide (0 < countOfLines (codeAt j (project w)))%nat).
Qed.

Lemma compileVbaProject_reads_lines_only_witness :
  compileVbaProject unreadableHostX documentProject
  = (Returned (mkCompileResult
                 (bool_decide (lineErrors unreadableHostX (project documentProject) = []))
                 (if decide (lineErrors unreadableHostX (project documentProject) = [])
                  then None
                  else Some (lineErrors unreadableHostX (project documentProject)))),
     documentProject) /\
  compileVbaProject lenientHostX documentProject
  = (Returned (mkCompileResult true None), documentProject).
Proof.
  split.
  - apply (compileVbaProject_reads_lines_only unreadableHostX documentProject
             documentProject); reflexivity.
  - apply (compileVbaProject_reads_lines_only lenientHostX documentProject
             documentProject); reflexivity.
Defined.

Lemma findDocumentModule_found hx b pre c post : forall passed,
  acceptingX hx ->
  Forall (fun c0 => vbcType c0 <> 100) pre ->
  vbcType c = 100 ->
  findDocumentModule hx (length pre + S (length post)) (length passed)
    (mkWorld b (passed ++ pre ++ c :: post))
  = (Returned (Some (length passed + length pre)%nat),
     mkWorld b (passed ++ pre ++ c :: post)).
Proof.
  induction pre as [|c0 pre IH]; intros passed Hacc Hpre Hc;
    pose proof Hacc as ((Hb & _) & Hf & _).
  - cbn [length Nat.add findDocumentModule app]. svcx_unfold. cbn [project].
    rewrite !Hf. cbn [project]. rewrite typeAt_middle, decide_True by done.
    rewrite Hb. by rewrite Nat.add_0_r.
  - apply Forall_cons in Hpre as [Hc0 Hpre].
    cbn [length Nat.add findDocumentModule app].
    unfold bind at 1, comX at 1. cbn [project]. rewrite Hf.
    unfold bind at 1, comX at 1. cbn [project]. rewrite Hf.
    unfold bind at 1, getProject at 1. cbn [project].
    rewrite typeAt_middle, decide_False by done.
    specialize (IH (passed ++ [c0]) Hacc Hpre Hc).
    rewrite length_app in IH. cbn [length] in IH.
    rewrite <- app_assoc in IH. cbn [app] in IH.
    replace (length passed + 1)%nat with (S (length passed)) in IH by lia.
    rewrite IH. do 3 f_equal. lia.
Qed.

Lemma findDocumentModule_none hx b pre : forall passed,
  acceptingX hx ->
  Forall (fun c0 => vbcType c0 <> 100) pre ->
  findDocumentModule hx (length pre) (length passed) (mkWorld b (passed ++ pre))
  = (Returned None, mkWorld b (passed ++ pre)).
Proof.
  induction pre as [|c0 pre IH]; intros passed Hacc Hpre;
    pose proof Hacc as ((Hb & _) & Hf & _).
  - cbn [length findDocumentModule]. svcx_unfold. cbn [project]. by rewrite Hf.
  - apply Forall_cons in Hpre as [Hc0 Hpre].
    cbn [length findDocumentModule].
    unfold bind at 1, comX at 1. cbn [project]. rewrite Hf.
    unfold bind at 1, comX at 1. cbn [project]. rewrite Hf.
    unfold bind at 1, getProject at 1. cbn [project].
    rewrite typeAt_middle, decide_False by done.
    specialize (IH (passed ++ [c0]) Hacc Hpre).
    rewrite length_app in IH. cbn [length] in IH.
    rewrite <- app_assoc in IH. cbn [app] in IH.
    replace (length passed + 1)%nat with (S (length passed)) in IH by lia.
    by rewrite IH.
Qed.

Lemma includes_prefix needle s : String.prefix needle s = true -> includes needle s = true.
Proof.
  intros H. destruct s as [|c s].
  - change (includes needle "") with (if String.prefix needle "" then true else false).
    by rewrite H.
  - change (includes needle (String c s))
      with (if String.prefix needle (String c s) then true else includes needle s).
    by rewrite H.
Qed.

Lemma prefix_refl s : String.prefix s s = true.
Proof.
  induction s as [|c s IH]; [done|]. simpl.
  by destruct (Ascii.ascii_dec c c).
Qed.

Lemma includes_app_l needle a b :
  includes needle a = true -> includes needle (a +:+ b) = true.
Proof.
  induction a as [|c a IH].
  - change (includes needle "") with (if String.prefix needle "" then true else false).
    destruct (String.prefix needle "") eqn:Hp; [|done].
    intros _. apply includes_prefix. by apply (prefix_app_l needle "" b).
  - change (String c a +:+ b) with (String c (a +:+ b)).
    change (includes needle (String c a))
      with (if String.prefix needle (String c a) then true else includes needle a).
    destruct (String.prefix needle (String c a)) eqn:Hp.
    + intros _. apply includes_prefix.
      change (String c (a +:+ b)) with (String c a +:+ b). by apply prefix_app_l.
    + intros Ha. apply includes_cons. by apply IH.
Qed.

Lemma includes_refl s : includes s s = true.
Proof. apply includes_prefix, prefix_refl. Qed.

(** X29. [addDocumentEventHandler] writes to the first component of type 100
    and to no other: on a host that refuses nothing, in a project without
    such a component it throws its wrapped error that the ThisDocument module
    was not found and leaves the project as it was; otherwise the first
    component of that type holds the procedure afterwards, under its name and
    type, and the components before and after it are as they were. *)
Theorem addDocumentEventHandler_first_document_module hx eventName vbaCode b :
  acceptingX hx ->
  (forall p,
     Forall (fun c0 => vbcType c0 <> 100) p ->
     addDocumentEventHandler hx eventName vbaCode (mkWorld b p)
     = (Thrown (newError ("Failed to add document event handler '" +:+ eventName
                          +:+ "'. Error: "
                          +:+ errToString (newError "ThisDocument module not found"))),
        mkWorld true p)) /\
  (forall pre c post,
     Forall (fun c0 => vbcType c0 <> 100) pre ->
     vbcType c = 100 ->
     exists c',
       addDocumentEventHandler hx eventName vbaCode (mkWorld b (pre ++ c :: post))
       = (Returned tt, mkWorld true (pre ++ c' :: post)) /\
       vbcName c' = vbcName c /\ vbcType c' = 100 /\
       includes ("Private Sub " +:+ eventName +:+ "()" +:+ lineFeed +:+ vbaCode +:+ lineFeed
                 +:+ "End Sub") (vbcCode c') = true).
Proof.
  intros Hacc. pose proof Hacc as (Hbase & Hf & _). pose proof Hbase as [Hb _].
  split.
  - intros p Hp.
    unfold addDocumentEventHandler, bind at 1.
    rewrite (getActiveDocument_accepting _ _ Hbase). cbn [project].
    unfold tryCatch, bind at 1, getProject at 1. cbn [project]. unfold bind at 1.
    pose proof (findDocumentModule_none hx true p [] Hacc Hp) as Hnone.
    cbn [app length] in Hnone. by rewrite Hnone.
  - intros pre c post Hpre Hc.
    exists (withCode (vbcCode c +:+ ("Private Sub " +:+ eventName +:+ "()" +:+ lineFeed
                                    +:+ vbaCode +:+ lineFeed +:+ "End Sub")) c).
    split; [|split; [done|split; [done|]]].
    + unfold addDocumentEventHandler, bind at 1.
      rewrite (getActiveDocument_accepting _ _ Hbase). cbn [project].
      unfold tryCatch, bind at 1, getProject at 1. cbn [project]. unfold bind at 1.
      pose proof (findDocumentModule_found hx true pre c post [] Hacc Hpre Hc) as Hfound.
      cbn [app length Nat.add] in Hfound.
      rewrite length_app. cbn [length]. rewrite Hfound.
      svc_unfold. cbn [project wordApp]. rewrite Hb. cbn [project wordApp].
      unfold codeAt. rewrite list_lookup_middle by done.
      by rewrite alter_app_r_alt, Nat.sub_diag by lia.
    + cbn [withCode vbcCode]. apply includes_app_r, includes_refl.
Qed.

Lemma addDocumentEventHandler_first_document_module_witness :
  addDocumentEventHandler lenientHostX "Document_Open" "MsgBox 1" helperAndForm
  = (Thrown (newError ("Failed to add document event handler '" +:+ "Document_Open"
                       +:+ "'. Error: "
                       +:+ errToString (newError "ThisDocument module not found"))),
     mkWorld true (project helperAndForm)) /\
  exists c',
    addDocumentEventHandler lenientHostX "Document_Open" "MsgBox 1" documentProject
    = (Returned tt,
       mkWorld true
         ([withCode "Sub A()" (withComponentName "Macros" (newComponent 1))]
          ++ c' :: [expectedForm "SignupForm" "Sign up" 400 300 [] true])) /\
    vbcName c' = Some "ThisDocument" /\ vbcType c' = 100 /\
    includes ("Private Sub " +:+ "Document_Open" +:+ "()" +:+ lineFeed +:+ "MsgBox 1"
              +:+ lineFeed +:+ "End Sub") (vbcCode c') = true.
Proof.
  split.
  - apply (proj1 (addDocumentEventHandler_first_document_module lenientHostX
                    "Document_Open" "MsgBox 1" true acceptingX_lenient)).
    repeat constructor; vm_compute; discriminate.
  - apply (proj2 (addDocumentEventHandler_first_document_module lenientHostX
                    "Document_Open" "MsgBox 1" true acceptingX_lenient)
             [withCode "Sub A()" (withComponentName "Macros" (newComponent 1))]
             (withComponentName "ThisDocument" (newComponent 100))
             [expectedForm "SignupForm" "Sign up" 400 300 [] true]).
    + repeat constructor; vm_compute; discriminate.
    + reflexivity.
Defined.

Lemma createAutoMacro_accepting hx autoType vbaCode b p :
  acceptingX hx ->
  createAutoMacro hx autoType vbaCode (mkWorld b p)
  = (Returned tt,
     mkWorld true
       (let procedureCode :=
          "Sub " +:+ autoType +:+ "()" +:+ lineFeed +:+ vbaCode +:+ lineFeed +:+ "End Sub" in
        match findComponent "AutoMacros" p with
        | Some i => alter (withCode (codeAt i p +:+ procedureCode)) i p
        | None => p ++ [withCode procedureCode
                          (withComponentName "AutoMacros" (newComponent 1))]
        end)).
Proof.
  intros (Hacc & _). pose proof Hacc as [Hf _].
  unfold createAutoMacro, bind at 1.
  rewrite (getActiveDocument_accepting _ _ Hacc); cbn [project].
  destruct (findComponent "AutoMacros" p) as [i|] eqn:Hfind.
  - svc_unfold; simpl; rewrite ?Hf; simpl; rewrite Hfind; simpl; rewrite ?Hf; simpl.
    by rewrite ?Hf.
  - svc_unfold; simpl; rewrite ?Hf; simpl; rewrite Hfind; simpl.
    rewrite ?Hf; simpl. rewrite ?alter_last; simpl. rewrite ?Hf; simpl.
    rewrite codeAt_last; simpl. rewrite ?Hf; simpl. by rewrite ?codeAt_last, ?alter_last.
Qed.

(** X30. [createAutoMacro] makes its module once: on a host that refuses
    nothing and in a project without a component named AutoMacros, two calls
    add one standard module of that name, after the components that were
    there, and the module holds the procedures of both calls. *)
Theorem createAutoMacro_one_module hx autoType1 vbaCode1 autoType2 vbaCode2 w :
  acceptingX hx ->
  findComponent "AutoMacros" (project w) = None ->
  exists w1 w2 autoModule,
    createAutoMacro hx autoType1 vbaCode1 w = (Returned tt, w1) /\
    createAutoMacro hx autoType2 vbaCode2 w1 = (Returned tt, w2) /\
    project w2 = project w ++ [autoModule] /\
    vbcName autoModule = Some "AutoMacros" /\ vbcType autoModule = 1 /\
    includes ("Sub " +:+ autoType1 +:+ "()" +:+ lineFeed +:+ vbaCode1 +:+ lineFeed
              +:+ "End Sub") (vbcCode autoModule) = true /\
    includes ("Sub " +:+ autoType2 +:+ "()" +:+ lineFeed +:+ vbaCode2 +:+ lineFeed
              +:+ "End Sub") (vbcCode autoModule) = true.
Proof.
  intros Hacc Hfresh. destruct w as [b p]; cbn [project] in *.
  eexists _, _, _.
  split; [by apply createAutoMacro_accepting|].
  rewrite Hfresh. cbn zeta.
  split; [by apply createAutoMacro_accepting|].
  rewrite findComponent_last by done. cbn zeta.
  rewrite alter_last, codeAt_last. cbn [project withCode vbcCode vbcName vbcType
    withComponentName newComponent].
  split; [reflexivity|]. cbn [vbcName vbcType vbcCode].
  split; [done|]. split; [done|]. split.
  - apply includes_app_l, includes_refl.
  - apply includes_app_r, includes_refl.
Qed.

Lemma createAutoMacro_one_module_witness :
  exists w1 w2 autoModule,
    createAutoMacro lenientHostX "AutoOpen" "MsgBox 1" helperAndForm = (Returned tt, w1) /\
    createAutoMacro lenientHostX "AutoClose" "MsgBox 2" w1 = (Returned tt, w2) /\
    project w2 = project helperAndForm ++ [autoModule] /\
    vbcName autoModule = Some "AutoMacros" /\ vbcType autoModule = 1 /\
    includes ("Sub " +:+ "AutoOpen" +:+ "()" +:+ lineFeed +:+ "MsgBox 1" +:+ lineFeed
              +:+ "End Sub") (vbcCode autoModule) = true /\
    includes ("Sub " +:+ "AutoClose" +:+ "()" +:+ lineFeed +:+ "MsgBox 2" +:+ lineFeed
              +:+ "End Sub") (vbcCode autoModule) = true.
Proof.
  apply (createAutoMacro_one_module lenientHostX "AutoOpen" "MsgBox 1" "AutoClose"
           "MsgBox 2" helperAndForm acceptingX_lenient).
  reflexivity.
Defined.
